(** * Demuxer.cpp (sfeMovie): packet dispatch, pending queue, selection, seeking

    A shallow embedding of [sfe::Demuxer] (src/pixelsort/video/Demuxer.cpp).
    The demuxer object is a record of its member variables; every member
    function is a function on that record.  Stream objects live in a store
    indexed by their address, because the code compares streams by pointer
    ([targetStream == getSelectedVideoStream()], [targetStream.get() == &stream])
    and orders them by pointer (a [std::set] of [std::shared_ptr]).  Calls
    that hand a packet to a stream or to [av_free_packet] are also recorded in
    history fields of the record, so that statements about delivery and
    freeing can be made.  The lock [m_synchronized] serialises the member
    functions; the embedding runs one call at a time. *)

From Stdlib Require Import ZArith List String Bool Lia Permutation.
From Stdlib Require Import Floats.SpecFloat.
From stdpp Require Import base option list gmap pretty sorting.

Local Open Scope string_scope.
Local Open Scope list_scope.
Local Open Scope Z_scope.

(** ** FFmpeg data, as far as the demuxer looks at it *)

Inductive AVMediaType : Type :=
| AVMEDIA_TYPE_UNKNOWN
| AVMEDIA_TYPE_VIDEO
| AVMEDIA_TYPE_AUDIO
| AVMEDIA_TYPE_DATA
| AVMEDIA_TYPE_SUBTITLE
| AVMEDIA_TYPE_ATTACHMENT.

Inductive MediaType : Type := Video | Unknown.

#[global] Instance MediaType_eq_dec : EqDecision MediaType.
Proof. solve_decision. Defined.


(** An [AVPacket]: the demuxer reads only [stream_index]; [pkt_data] stands
    for the rest of the packet (payload and timestamps). *)
Record AVPacket : Type := mkPacket {
  stream_index : Z;
  pkt_data : N
}.

#[global] Instance AVPacket_eq_dec : EqDecision AVPacket.
Proof. solve_decision. Defined.

(** An [AVStream]: [index], [codec->codec_type], [duration] and the codec
    name used in the log lines. *)
Record AVStream : Type := mkAVStream {
  index : Z;
  codec_type : AVMediaType;
  st_duration : Z;
  codec_name : string
}.

(** The [AVFormatContext].  [packets] is what [av_read_frame] will still
    return, in order, from the read cursor on. *)
Record AVFormatContext : Type := mkFormatCtx {
  duration : Z;
  start_time : Z;
  iformat_flags : Z;
  streams : list AVStream;
  packets : list AVPacket
}.

Definition AV_NOPTS_VALUE : Z := - 2 ^ 63.
Definition AV_TIME_BASE : Z := 1000000.
Definition AVFMT_SEEK_TO_PTS : Z := 0x4000000.
Definition AVSEEK_FLAG_BACKWARD : Z := 1.
Definition INT64_MIN : Z := - 2 ^ 63.
Definition INT64_MAX : Z := 2 ^ 63 - 1.
Definition AVERROR_EOF : Z := -541478725.

(** [av_get_media_type_string]: the name of the media type, or a null
    pointer ([None]) for a type that has no name. *)
Definition av_get_media_type_string (t : AVMediaType) : option string :=
  match t with
  | AVMEDIA_TYPE_UNKNOWN => None
  | AVMEDIA_TYPE_VIDEO => Some "video"
  | AVMEDIA_TYPE_AUDIO => Some "audio"
  | AVMEDIA_TYPE_DATA => Some "data"
  | AVMEDIA_TYPE_SUBTITLE => Some "subtitle"
  | AVMEDIA_TYPE_ATTACHMENT => Some "attachment"
  end.

(** [av_read_frame]: the next packet and status 0, or a negative status once
    the cursor is at the end. *)
Definition av_read_frame (ctx : AVFormatContext)
  : Z * AVPacket * AVFormatContext :=
  match packets ctx with
  | [] => (AVERROR_EOF, mkPacket 0 0, ctx)
  | p :: rest =>
      (0, p,
       {| duration := duration ctx; start_time := start_time ctx;
          iformat_flags := iformat_flags ctx; streams := streams ctx;
          packets := rest |})
  end.

(** ** [sf::Time] and the float arithmetic of the duration

    [sf::Time] is a count of microseconds in a 64-bit signed integer.  The
    code computes [sf::seconds(secs + (float)us / AV_TIME_BASE)] in IEEE
    binary32 (round to nearest even after every operation) and [sf::seconds]
    multiplies by 1000000 and converts to the 64-bit integer. *)
Module F32.
Definition prec : Z := 24.
Definition emax : Z := 128.

Definition of_Z (z : Z) : spec_float := binary_normalize prec emax z 0 false.
Definition add := SFadd prec emax.
Definition mul := SFmul prec emax.
Definition div := SFdiv prec emax.

(** The value of a finite float with its fraction cut off. *)
Definition to_Z (x : spec_float) : Z :=
  match x with
  | S754_finite s m e =>
      let a := if (0 <=? e) then Z.pos m * 2 ^ e else Z.pos m / 2 ^ (- e) in
      if s then - a else a
  | _ => 0
  end.

(** [static_cast<Int64>] of a float is defined in C++ when the float is
    finite and, with its fraction cut off, is a value of the type. *)
Definition fits_Int64 (x : spec_float) : bool :=
  match x with
  | S754_zero _ => true
  | S754_finite _ _ _ => (INT64_MIN <=? to_Z x) && (to_Z x <=? INT64_MAX)
  | _ => false
  end.

(** [static_cast<Int64>]: truncation toward zero.  Where C++ leaves the
    conversion undefined, this is the result of the conversion instruction
    of x86-64 (cvttss2si), the smallest 64-bit integer. *)
Definition to_Int64 (x : spec_float) : Z :=
  if fits_Int64 x then to_Z x else INT64_MIN.
End F32.

Definition Time : Type := Z.
Definition Time_Zero : Time := 0.

(** [sf::seconds]: [Time(static_cast<Int64>(amount * 1000000))]. *)
Definition sf_seconds (amount : spec_float) : Time :=
  F32.to_Int64 (F32.mul amount (F32.of_Z 1000000)).

(** The conversion in [sf::seconds] is defined for this amount. *)
Definition sf_seconds_defined (amount : spec_float) : bool :=
  F32.fits_Int64 (F32.mul amount (F32.of_Z 1000000)).

(** [sf::Time::asMilliseconds]: the microseconds divided by 1000, as a
    32-bit signed integer. *)
Definition asMilliseconds (t : Time) : Z :=
  (Z.quot t 1000 + 2 ^ 31) mod 2 ^ 32 - 2 ^ 31.

(** The block that lines 137-140 and 428-431 share:
    [secs = d / AV_TIME_BASE; us = d % AV_TIME_BASE;
     sf::seconds(secs + (float)us / AV_TIME_BASE)]. *)
Definition resolveDuration (d : Z) : Time :=
  let secs := Z.quot d AV_TIME_BASE in
  let us := Z.rem d AV_TIME_BASE in
  sf_seconds (F32.add (F32.of_Z secs)
                      (F32.div (F32.of_Z us) (F32.of_Z AV_TIME_BASE))).

(** The conversion of the block is defined for the duration [d]: the
    microseconds computed in binary32 are a value of [sf::Time]. *)
Definition resolveDuration_defined (d : Z) : bool :=
  let secs := Z.quot d AV_TIME_BASE in
  let us := Z.rem d AV_TIME_BASE in
  sf_seconds_defined (F32.add (F32.of_Z secs)
                              (F32.div (F32.of_Z us) (F32.of_Z AV_TIME_BASE))).


(** ** Streams, the timer and the log *)

(** The address of a stream object; [nullptr] is [None] in [option ptr]. *)
Definition ptr : Type := positive.

(** Modelled from the spec: the Stream class (Stream.hpp and VideoStream.hpp
    are not among the sources).  The demuxer uses [needsMoreData],
    [canUsePacket] (the spec's ownsPacket), [isPassive], [pushEncodedData]
    (the spec's acceptPacket), [connect], [disconnect] and [getStreamKind];
    what they do with the stream's own state is left open. *)
Class StreamInterface (Str : Type) : Type := {
  needsMoreData : Str -> bool;
  canUsePacket : Str -> AVPacket -> bool;
  isPassive : Str -> bool;
  pushEncodedData : AVPacket -> Str -> Str;
  connect : Str -> Str;
  disconnect : Str -> Str;
  getStreamKind : Str -> MediaType
}.

Inductive Status : Type := Stopped | Playing | Paused.

#[global] Instance Status_eq_dec : EqDecision Status.
Proof. solve_decision. Defined.

(** Modelled from the spec: the Timer (Timer.hpp is not among the sources),
    the spec's Clock/Transport: a status, commands that change it, and the
    registration of the demuxer as an observer. *)
Record Timer : Type := mkTimer {
  getStatus : Status;
  observed : bool
}.

Module TimerOps.
Definition pause (t : Timer) : Timer := mkTimer Paused (observed t).
Definition play (t : Timer) : Timer := mkTimer Playing (observed t).
Definition stop (t : Timer) : Timer := mkTimer Stopped (observed t).
Definition addObserver (t : Timer) : Timer := mkTimer (getStatus t) true.
Definition removeObserver (t : Timer) : Timer := mkTimer (getStatus t) false.
End TimerOps.

Inductive LogEntry : Type :=
| sfeLogDebug (msg : string)
| sfeLogWarning (msg : string)
| sfeLogError (msg : string).

Inductive ConnEvent : Type :=
| EvDisconnect (stream : ptr)
| EvConnect (stream : ptr).

(** A call either returns or throws [std::runtime_error(what)]. *)
Inductive Outcome (A : Type) : Type :=
| Returns (a : A)
| Throws (what : string).
Arguments Returns {A} a.
Arguments Throws {A} what.

(** Modelled from the spec: the CHECK and CHECK0 macros (their header is not
    among the sources).  [CHECK(value, message)] throws a runtime error with
    the message when the value is false, zero or null; [CHECK0(value,
    message)] throws when the value is not zero. *)
Definition CHECK (value : bool) (message : string) : Outcome unit :=
  if value then Returns tt else Throws message.

Definition CHECK0 (value : Z) (message : string) : Outcome unit :=
  CHECK (value =? 0) message.

Definition Outcome_bind {A B : Type} (o : Outcome A) (k : A -> Outcome B)
  : Outcome B :=
  match o with
  | Returns a => k a
  | Throws what => Throws what
  end.

(** [std::string(const char* )]: the characters, when the pointer is not
    null.  A null pointer is outside the contract of the constructor;
    libstdc++ throws [std::logic_error] for it, which is not a
    [std::runtime_error]. *)
Definition std_string (chars : option string) : Outcome string :=
  match chars with
  | Some text => Returns text
  | None => Throws "basic_string: construction from null is not valid"
  end.

Notation "x <- e ;; k" := (Outcome_bind e (fun x => k))
  (at level 100, e at next level, k at level 200, right associativity).
Notation "e ;; k" := (Outcome_bind e (fun _ => k))
  (at level 100, k at level 200, right associativity).

(** Store update: the object at address [a] becomes [o]. *)
Definition store_set {Str : Type} (a : ptr) (o : Str) (h : ptr -> Str)
  : ptr -> Str :=
  fun b => if decide (b = a) then o else h b.

(** ** The demuxer object *)

Section Demuxer.
Context {Str : Type} `{StreamInterface Str}.

(** [avformat_seek_file ctx stream_index min_ts ts max_ts flags]: the
    status and the context with its cursor wherever the seek left it. *)
Variable avformat_seek_file :
  AVFormatContext -> Z -> Z -> Z -> Z -> Z -> Z * AVFormatContext.

Record Demuxer : Type := mkDemuxer {
  (* member variables *)
  m_formatCtx : AVFormatContext;
  m_eofReached : bool;
  m_streams : gmap Z ptr;
  m_ignoredStreams : gmap Z string;
  m_pendingDataForActiveStreams : list AVPacket;
  m_timer : Timer;
  m_connectedVideoStream : option ptr;
  m_duration : Time;
  (* the stream objects, by address *)
  objects : ptr -> Str;
  (* history: packets returned by av_read_frame, packets given to
     av_free_packet, calls of pushEncodedData, calls of connect and
     disconnect, log lines; oldest first *)
  h_read : list AVPacket;
  h_freed : list AVPacket;
  h_pushed : list (ptr * AVPacket);
  h_conn : list ConnEvent;
  h_log : list LogEntry
}.

(** Assignment to one member; the others keep their value. *)
Definition set_m_formatCtx (v : AVFormatContext) (d : Demuxer) : Demuxer :=
  {| m_formatCtx := v; m_eofReached := m_eofReached d;
     m_streams := m_streams d; m_ignoredStreams := m_ignoredStreams d;
     m_pendingDataForActiveStreams := m_pendingDataForActiveStreams d;
     m_timer := m_timer d;
     m_connectedVideoStream := m_connectedVideoStream d;
     m_duration := m_duration d; objects := objects d; h_read := h_read d;
     h_freed := h_freed d; h_pushed := h_pushed d; h_conn := h_conn d;
     h_log := h_log d |}.

Definition set_m_eofReached (v : bool) (d : Demuxer) : Demuxer :=
  {| m_formatCtx := m_formatCtx d; m_eofReached := v;
     m_streams := m_streams d; m_ignoredStreams := m_ignoredStreams d;
     m_pendingDataForActiveStreams := m_pendingDataForActiveStreams d;
     m_timer := m_timer d;
     m_connectedVideoStream := m_connectedVideoStream d;
     m_duration := m_duration d; objects := objects d; h_read := h_read d;
     h_freed := h_freed d; h_pushed := h_pushed d; h_conn := h_conn d;
     h_log := h_log d |}.

Definition set_m_streams (v : gmap Z ptr) (d : Demuxer) : Demuxer :=
  {| m_formatCtx := m_formatCtx d; m_eofReached := m_eofReached d;
     m_streams := v; m_ignoredStreams := m_ignoredStreams d;
     m_pendingDataForActiveStreams := m_pendingDataForActiveStreams d;
     m_timer := m_timer d;
     m_connectedVideoStream := m_connectedVideoStream d;
     m_duration := m_duration d; objects := objects d; h_read := h_read d;
     h_freed := h_freed d; h_pushed := h_pushed d; h_conn := h_conn d;
     h_log := h_log d |}.

Definition set_m_ignoredStreams (v : gmap Z string) (d : Demuxer) : Demuxer :=
  {| m_formatCtx := m_formatCtx d; m_eofReached := m_eofReached d;
     m_streams := m_streams d; m_ignoredStreams := v;
     m_pendingDataForActiveStreams := m_pendingDataForActiveStreams d;
     m_timer := m_timer d;
     m_connectedVideoStream := m_connectedVideoStream d;
     m_duration := m_duration d; objects := objects d; h_read := h_read d;
     h_freed := h_freed d; h_pushed := h_pushed d; h_conn := h_conn d;
     h_log := h_log d |}.

Definition set_m_pendingDataForActiveStreams (v : list AVPacket) (d : Demuxer) : Demuxer :=
  {| m_formatCtx := m_formatCtx d; m_eofReached := m_eofReached d;
     m_streams := m_streams d; m_ignoredStreams := m_ignoredStreams d;
     m_pendingDataForActiveStreams := v; m_timer := m_timer d;
     m_connectedVideoStream := m_connectedVideoStream d;
     m_duration := m_duration d; objects := objects d; h_read := h_read d;
     h_freed := h_freed d; h_pushed := h_pushed d; h_conn := h_conn d;
     h_log := h_log d |}.

Definition set_m_timer (v : Timer) (d : Demuxer) : Demuxer :=
  {| m_formatCtx := m_formatCtx d; m_eofReached := m_eofReached d;
     m_streams := m_streams d; m_ignoredStreams := m_ignoredStreams d;
     m_pendingDataForActiveStreams := m_pendingDataForActiveStreams d;
     m_timer := v; m_connectedVideoStream := m_connectedVideoStream d;
     m_duration := m_duration d; objects := objects d; h_read := h_read d;
     h_freed := h_freed d; h_pushed := h_pushed d; h_conn := h_conn d;
     h_log := h_log d |}.

Definition set_m_connectedVideoStream (v : option ptr) (d : Demuxer) : Demuxer :=
  {| m_formatCtx := m_formatCtx d; m_eofReached := m_eofReached d;
     m_streams := m_streams d; m_ignoredStreams := m_ignoredStreams d;
     m_pendingDataForActiveStreams := m_pendingDataForActiveStreams d;
     m_timer := m_timer d; m_connectedVideoStream := v;
     m_duration := m_duration d; objects := objects d; h_read := h_read d;
     h_freed := h_freed d; h_pushed := h_pushed d; h_conn := h_conn d;
     h_log := h_log d |}.

Definition set_m_duration (v : Time) (d : Demuxer) : Demuxer :=
  {| m_formatCtx := m_formatCtx d; m_eofReached := m_eofReached d;
     m_streams := m_streams d; m_ignoredStreams := m_ignoredStreams d;
     m_pendingDataForActiveStreams := m_pendingDataForActiveStreams d;
     m_timer := m_timer d;
     m_connectedVideoStream := m_connectedVideoStream d; m_duration := v;
     objects := objects d; h_read := h_read d; h_freed := h_freed d;
     h_pushed := h_pushed d; h_conn := h_conn d; h_log := h_log d |}.

Definition set_objects (v : ptr -> Str) (d : Demuxer) : Demuxer :=
  {| m_formatCtx := m_formatCtx d; m_eofReached := m_eofReached d;
     m_streams := m_streams d; m_ignoredStreams := m_ignoredStreams d;
     m_pendingDataForActiveStreams := m_pendingDataForActiveStreams d;
     m_timer := m_timer d;
     m_connectedVideoStream := m_connectedVideoStream d;
     m_duration := m_duration d; objects := v; h_read := h_read d;
     h_freed := h_freed d; h_pushed := h_pushed d; h_conn := h_conn d;
     h_log := h_log d |}.

Definition set_h_read (v : list AVPacket) (d : Demuxer) : Demuxer :=
  {| m_formatCtx := m_formatCtx d; m_eofReached := m_eofReached d;
     m_streams := m_streams d; m_ignoredStreams := m_ignoredStreams d;
     m_pendingDataForActiveStreams := m_pendingDataForActiveStreams d;
     m_timer := m_timer d;
     m_connectedVideoStream := m_connectedVideoStream d;
     m_duration := m_duration d; objects := objects d; h_read := v;
     h_freed := h_freed d; h_pushed := h_pushed d; h_conn := h_conn d;
     h_log := h_log d |}.

Definition set_h_freed (v : list AVPacket) (d : Demuxer) : Demuxer :=
  {| m_formatCtx := m_formatCtx d; m_eofReached := m_eofReached d;
     m_streams := m_streams d; m_ignoredStreams := m_ignoredStreams d;
     m_pendingDataForActiveStreams := m_pendingDataForActiveStreams d;
     m_timer := m_timer d;
     m_connectedVideoStream := m_connectedVideoStream d;
     m_duration := m_duration d; objects := objects d; h_read := h_read d;
     h_freed := v; h_pushed := h_pushed d; h_conn := h_conn d;
     h_log := h_log d |}.

Definition set_h_pushed (v : list (ptr * AVPacket)) (d : Demuxer) : Demuxer :=
  {| m_formatCtx := m_formatCtx d; m_eofReached := m_eofReached d;
     m_streams := m_streams d; m_ignoredStreams := m_ignoredStreams d;
     m_pendingDataForActiveStreams := m_pendingDataForActiveStreams d;
     m_timer := m_timer d;
     m_connectedVideoStream := m_connectedVideoStream d;
     m_duration := m_duration d; objects := objects d; h_read := h_read d;
     h_freed := h_freed d; h_pushed := v; h_conn := h_conn d;
     h_log := h_log d |}.

Definition set_h_conn (v : list ConnEvent) (d : Demuxer) : Demuxer :=
  {| m_formatCtx := m_formatCtx d; m_eofReached := m_eofReached d;
     m_streams := m_streams d; m_ignoredStreams := m_ignoredStreams d;
     m_pendingDataForActiveStreams := m_pendingDataForActiveStreams d;
     m_timer := m_timer d;
     m_connectedVideoStream := m_connectedVideoStream d;
     m_duration := m_duration d; objects := objects d; h_read := h_read d;
     h_freed := h_freed d; h_pushed := h_pushed d; h_conn := v;
     h_log := h_log d |}.

Definition set_h_log (v : list LogEntry) (d : Demuxer) : Demuxer :=
  {| m_formatCtx := m_formatCtx d; m_eofReached := m_eofReached d;
     m_streams := m_streams d; m_ignoredStreams := m_ignoredStreams d;
     m_pendingDataForActiveStreams := m_pendingDataForActiveStreams d;
     m_timer := m_timer d;
     m_connectedVideoStream := m_connectedVideoStream d;
     m_duration := m_duration d; objects := objects d; h_read := h_read d;
     h_freed := h_freed d; h_pushed := h_pushed d; h_conn := h_conn d;
     h_log := v |}.

(** Calls into a stream object at a given address, with their history. *)
Definition call_pushEncodedData (target : ptr) (packet : AVPacket)
    (d : Demuxer) : Demuxer :=
  set_h_pushed (h_pushed d ++ [(target, packet)])
    (set_objects
       (store_set target (pushEncodedData packet (objects d target)) (objects d))
       d).

Definition call_disconnect (target : ptr) (d : Demuxer) : Demuxer :=
  set_h_conn (h_conn d ++ [EvDisconnect target])
    (set_objects (store_set target (disconnect (objects d target)) (objects d)) d).

Definition call_connect (target : ptr) (d : Demuxer) : Demuxer :=
  set_h_conn (h_conn d ++ [EvConnect target])
    (set_objects (store_set target (connect (objects d target)) (objects d)) d).

(** [av_free_packet(pkt); av_free(pkt);] *)
Definition free_packet (packet : AVPacket) (d : Demuxer) : Demuxer :=
  set_h_freed (h_freed d ++ [packet]) d.

Definition log (e : LogEntry) (d : Demuxer) : Demuxer :=
  set_h_log (h_log d ++ [e]) d.

Definition s (z : Z) : string := pretty z.

(** ** Member functions *)

Definition getStreamsOfType (type : MediaType) (d : Demuxer) : gset ptr :=
  map_fold
    (fun (_ : Z) (stream : ptr) (streamSet : gset ptr) =>
       if decide (getStreamKind (objects d stream) = type)
       then {[stream]} ∪ streamSet
       else streamSet)
    ∅ (m_streams d).

(** [*set.begin()]: a [std::set] of shared pointers is ordered by address,
    so its first element is the one at the lowest address. *)
Definition set_begin (streamSet : gset ptr) : option ptr :=
  foldr (fun a acc => match acc with
                      | None => Some a
                      | Some b => Some (Pos.min a b)
                      end)
        None (elements streamSet).

Definition getSelectedVideoStream (d : Demuxer) : option ptr :=
  m_connectedVideoStream d.

Definition didReachEndOfFile (d : Demuxer) : bool := m_eofReached d.

Definition getDuration (d : Demuxer) : Time := m_duration d.

Definition selectVideoStream (stream : option ptr) (d : Demuxer)
  : Outcome unit * Demuxer :=
  let oldStatus := getStatus (m_timer d) in
  match CHECK (bool_decide (oldStatus = Stopped))
          "Changing the selected stream after starting the movie playback isn't supported yet"
  with
  | Throws what => (Throws what, d)
  | Returns _ =>
      let d1 := if bool_decide (oldStatus = Playing)
                then set_m_timer (TimerOps.pause (m_timer d)) d else d in
      let d2 :=
        if bool_decide (stream = m_connectedVideoStream d1) then d1
        else
          let d' := match m_connectedVideoStream d1 with
                    | Some old => call_disconnect old d1
                    | None => d1
                    end in
          let d'' := match stream with
                     | Some new => call_connect new d'
                     | None => d'
                     end in
          set_m_connectedVideoStream stream d'' in
      let d3 := if bool_decide (oldStatus = Playing)
                then set_m_timer (TimerOps.play (m_timer d2)) d2 else d2 in
      (Returns tt, d3)
  end.

(** Every stream of kind Video in the table is a [VideoStream], so the
    [dynamic_pointer_cast] gives back the same pointer. *)
Definition selectFirstVideoStream (d : Demuxer) : Outcome unit * Demuxer :=
  let videoStreams := getStreamsOfType Video d in
  if negb (size videoStreams =? 0)%nat
  then selectVideoStream (set_begin videoStreams) d
  else (Returns tt, d).

(** [av_malloc] is taken to succeed, so the out-of-memory CHECK does not
    fire.  The packet that [av_read_frame] did not fill is released again
    and is not part of the history. *)
Definition readPacket (d : Demuxer) : option AVPacket * Demuxer :=
  let '(err, pkt, ctx) := av_read_frame (m_formatCtx d) in
  let d1 := set_m_formatCtx ctx d in
  if err <? 0 then (None, d1)
  else (Some pkt, set_h_read (h_read d1 ++ [pkt]) d1).

Definition flushBuffers (d : Demuxer) : Demuxer :=
  set_m_pendingDataForActiveStreams []
    (fold_left (fun acc packet => free_packet packet acc)
               (m_pendingDataForActiveStreams d) d).

Definition queueEncodedData (packet : AVPacket) (d : Demuxer) : Demuxer :=
  set_m_pendingDataForActiveStreams
    (m_pendingDataForActiveStreams d ++ [packet]) d.

(** The loop of [gatherQueuedPacketForStream] on the list itself: the first
    packet the stream can use, and the list without it. *)
Fixpoint gather (canUse : AVPacket -> bool) (pending : list AVPacket)
  : option AVPacket * list AVPacket :=
  match pending with
  | [] => (None, [])
  | packet :: rest =>
      if canUse packet then (Some packet, rest)
      else let '(found, rest') := gather canUse rest in
           (found, packet :: rest')
  end.

Definition gatherQueuedPacketForStream (stream : ptr) (d : Demuxer)
  : option AVPacket * Demuxer :=
  let '(found, rest) :=
    gather (canUsePacket (objects d stream)) (m_pendingDataForActiveStreams d) in
  (found, set_m_pendingDataForActiveStreams rest d).

(** [packet] is never null here (feedStream tests it), so the CHECK of the
    argument does not fire. *)
Definition distributePacket (packet : AVPacket) (stream : ptr) (d : Demuxer)
  : bool * Demuxer :=
  match m_streams d !! stream_index packet with
  | Some targetStream =>
      if bool_decide (Some targetStream = getSelectedVideoStream d) then
        if bool_decide (targetStream = stream)
           || isPassive (objects d targetStream)
        then (true, call_pushEncodedData targetStream packet d)
        else (true, queueEncodedData packet d)
      else (false, d)
  | None => (false, d)
  end.

(** ['type/codec]: the stream name of the log lines, for a stream whose
    media type has a name. *)
Definition streamName (ffstream : AVStream) : string :=
  String.append "'"
    (String.append
       (default "" (av_get_media_type_string (codec_type ffstream)))
       (String.append "/" (codec_name ffstream))).

(** [m_formatCtx->streams[i]]; a packet read from the container carries the
    index of one of its streams. *)
Definition ctx_stream (ctx : AVFormatContext) (i : Z) : AVStream :=
  nth (Z.to_nat i) (streams ctx) (mkAVStream i AVMEDIA_TYPE_UNKNOWN AV_NOPTS_VALUE "").

(** The [else] branch of the loop body (lines 299-307): distribute the
    packet, and free it with a log line when it was not accepted.  The log
    line appends the name of the media type to a string, which needs the
    name not to be null: the stream of the packet is taken to have a media
    type with a name, as every stream has that the constructor has gone
    through (it throws on one that has none). *)
Definition distributeOrDrop (packet : AVPacket) (stream : ptr) (d : Demuxer)
  : Demuxer :=
  let '(accepted, d3) := distributePacket packet stream d in
  if accepted then d3
  else
    let ffstream := ctx_stream (m_formatCtx d3) (stream_index packet) in
    free_packet packet
      (log (sfeLogDebug (String.append (streamName ffstream) " packet dropped")) d3).

(** One turn of the [while] loop of [feedStream]. *)
Definition feedStream_body (stream : ptr) (d : Demuxer) : Demuxer :=
  let '(queued, d1) := gatherQueuedPacketForStream stream d in
  let '(pkt, d2) := match queued with
                    | Some packet => (Some packet, d1)
                    | None => readPacket d1
                    end in
  match pkt with
  | None => set_m_eofReached true d2
  | Some packet => distributeOrDrop packet stream d2
  end.

(** [feedStream]: the loop, with a bound on the number of turns; [None] when
    the bound is used up before the loop condition fails. *)
Fixpoint feedStream (turns : nat) (stream : ptr) (d : Demuxer)
  : option Demuxer :=
  if negb (didReachEndOfFile d) && needsMoreData (objects d stream) then
    match turns with
    | O => None
    | S turns' => feedStream turns' stream (feedStream_body stream d)
    end
  else Some d.

Definition requestMoreData (turns : nat) (starvingStream : ptr) (d : Demuxer)
  : option Demuxer :=
  feedStream turns starvingStream d.

Definition resetEndOfFileStatus (d : Demuxer) : Demuxer :=
  set_m_eofReached false d.

Definition willSeek (position : Time) (d : Demuxer) : Demuxer :=
  let d1 := resetEndOfFileStatus d in
  let d2 := flushBuffers d1 in
  let ms := asMilliseconds position in
  if negb (Z.land (iformat_flags (m_formatCtx d2)) AVFMT_SEEK_TO_PTS =? 0) then
    let timestamp :=
      if negb (start_time (m_formatCtx d2) =? AV_NOPTS_VALUE)
      then 0 + start_time (m_formatCtx d2) else 0 in
    let '(err, ctx) :=
      avformat_seek_file (m_formatCtx d2) (-1) INT64_MIN timestamp INT64_MAX
                         AVSEEK_FLAG_BACKWARD in
    let d3 := set_m_formatCtx ctx d2 in
    let d4 := log (sfeLogDebug
                     (String.append "Seek by PTS at timestamp="
                        (String.append (s timestamp)
                           (String.append " returned " (s err))))) d3 in
    if err <? 0 then
      log (sfeLogError (String.append "Error while seeking at time "
                          (String.append (s ms) "ms"))) d4
    else d4
  else
    let '(err, ctx) :=
      avformat_seek_file (m_formatCtx d2) (-1) INT64_MIN 0 INT64_MAX
                         AVSEEK_FLAG_BACKWARD in
    let d3 := set_m_formatCtx ctx d2 in
    let d4 := log (sfeLogDebug
                     (String.append "Seek by DTS at timestamp "
                        (String.append (s (-9999))
                           (String.append " returned " (s err))))) d3 in
    if err <? 0 then
      log (sfeLogError (String.append "Error while seeking at time "
                          (String.append (s ms) "ms"))) d4
    else d4.

(** The destructor.  [avformat_close_input] releases the context; the
    pending packets are freed after it. *)
Definition Demuxer_destroy (d : Demuxer) : Demuxer :=
  let d1 := if bool_decide (getStatus (m_timer d) = Stopped) then d
            else set_m_timer (TimerOps.stop (m_timer d)) d in
  let d2 := set_m_timer (TimerOps.removeObserver (m_timer d1)) d1 in
  flushBuffers d2.

(** ** Construction *)

(** [avformat_open_input]: the status and the context (null when the open
    failed).  [avformat_find_stream_info]: the status and the context with
    its stream information filled in.  [new_VideoStream]: what
    [std::make_shared<VideoStream>(...)] gives, either the address and the
    first state of the new object, or the message of the [std::runtime_error]
    that the constructor of the stream threw. *)
Variable avformat_open_input : string -> Z * option AVFormatContext.
Variable avformat_find_stream_info : AVFormatContext -> Z * AVFormatContext.
Variable new_VideoStream : AVFormatContext -> AVStream -> string + (ptr * Str).

Definition extractDurationFromStream (stream : AVStream) (d : Demuxer)
  : Demuxer :=
  if negb (m_duration d =? Time_Zero) then d
  else if negb (st_duration stream =? AV_NOPTS_VALUE)
       then set_m_duration (resolveDuration (st_duration stream)) d
       else d.

(** ["'" + std::string(av_get_media_type_string(type)) + "/" + name] of
    lines 164 and 172. *)
Definition describeStream (ffstream : AVStream) : Outcome string :=
  type <- std_string (av_get_media_type_string (codec_type ffstream)) ;;
  Returns (String.append "'"
             (String.append type (String.append "/" (codec_name ffstream)))).

(** The body of the [for] loop over the streams, with its [try] and [catch].
    The right-hand side of [m_streams[index] = make_shared(...)] is evaluated
    before the map is indexed, so a constructor that throws leaves the map as
    it was.  The handler catches [std::runtime_error] only: what [describeStream]
    throws passes through it and leaves the loop. *)
Definition discoverStream (ffstream : AVStream) (d : Demuxer)
  : Outcome Demuxer :=
  match codec_type ffstream with
  | AVMEDIA_TYPE_VIDEO =>
      match new_VideoStream (m_formatCtx d) ffstream with
      | inr (address, object) =>
          let d1 := set_objects (store_set address object (objects d)) d in
          let d2 := set_m_streams (<[index ffstream := address]> (m_streams d1)) d1 in
          let d3 := if m_duration d2 =? Time_Zero
                    then extractDurationFromStream ffstream d2 else d2 in
          Returns
            (log (sfeLogDebug
                    (String.append "Loaded "
                       (String.append (codec_name ffstream) " video stream"))) d3)
      | inl what =>
          name <- describeStream ffstream ;;
          let streamId := String.append name "'" in
          Returns
            (log (sfeLogError
                    (String.append "error while loading "
                       (String.append streamId
                          (String.append " stream: " what)))) d)
      end
  | _ =>
      name <- describeStream ffstream ;;
      let d1 := set_m_ignoredStreams
                  (<[index ffstream := name]> (m_ignoredStreams d)) d in
      Returns (log (sfeLogDebug (String.append name "' stream ignored")) d1)
  end.

(** The loop: an exception that leaves the body leaves the loop. *)
Fixpoint discoverStreams (l : list AVStream) (d : Demuxer) : Outcome Demuxer :=
  match l with
  | [] => Returns d
  | ffstream :: rest =>
      d' <- discoverStream ffstream d ;;
      discoverStreams rest d'
  end.

(** The constructor from line 134 on, with the container open and probed:
    the duration of the container, the loop over its streams, the warning,
    and the registration with the timer.  [store] is the memory the stream
    objects are allocated in. *)
Definition Demuxer_discover (timer : Timer) (ctx : AVFormatContext)
    (store : ptr -> Str) : Outcome Demuxer :=
  let d0 :=
    {| m_formatCtx := ctx; m_eofReached := false; m_streams := ∅;
       m_ignoredStreams := ∅; m_pendingDataForActiveStreams := [];
       m_timer := timer; m_connectedVideoStream := None;
       m_duration := Time_Zero; objects := store;
       h_read := []; h_freed := []; h_pushed := []; h_conn := [];
       h_log := [] |} in
  let d1 := if negb (duration ctx =? AV_NOPTS_VALUE)
            then set_m_duration (resolveDuration (duration ctx)) d0
            else d0 in
  d2 <- discoverStreams (streams ctx) d1 ;;
  let d3 := if m_duration d2 =? Time_Zero
            then log (sfeLogWarning "The media duration could not be retreived") d2
            else d2 in
  Returns (set_m_timer (TimerOps.addObserver (m_timer d3)) d3).

(** The constructor.  The object exists only when the constructor
    returns. *)
Definition Demuxer_new (sourceFile : string) (timer : option Timer)
    (store : ptr -> Str) : Outcome Demuxer :=
  CHECK (negb (String.length sourceFile =? 0)%nat)
        "Demuxer::Demuxer() - invalid argument: sourceFile" ;;
  CHECK (bool_decide (is_Some timer)) "Inconsistency error: null timer" ;;
  let '(err, formatCtx) := avformat_open_input sourceFile in
  CHECK0 err (String.append "Demuxer::Demuxer() - error while opening media: " sourceFile) ;;
  CHECK (bool_decide (is_Some formatCtx))
        "Demuxer() - inconsistency: media context cannot be nullptr" ;;
  match timer, formatCtx with
  | Some timer, Some ctx0 =>
      let '(err, ctx) := avformat_find_stream_info ctx0 in
      CHECK0 err "Demuxer::Demuxer() - error while retreiving media information" ;;
      Demuxer_discover timer ctx store
  | _, _ => Throws ""  (* not reached: both were checked above *)
  end.

(** *** The loop over the streams when nothing is thrown

    For the proofs: the object that the body of the loop, the loop and the
    constructor leave when no exception leaves them.  The lemmas
    [discoverStream_outcome], [discoverStreams_outcome] and
    [Demuxer_discover_outcome] relate them to the three functions above. *)
Definition discoverStream_state (ffstream : AVStream) (d : Demuxer) : Demuxer :=
  match codec_type ffstream with
  | AVMEDIA_TYPE_VIDEO =>
      match new_VideoStream (m_formatCtx d) ffstream with
      | inr (address, object) =>
          let d1 := set_objects (store_set address object (objects d)) d in
          let d2 := set_m_streams (<[index ffstream := address]> (m_streams d1)) d1 in
          let d3 := if m_duration d2 =? Time_Zero
                    then extractDurationFromStream ffstream d2 else d2 in
          log (sfeLogDebug
                 (String.append "Loaded "
                    (String.append (codec_name ffstream) " video stream"))) d3
      | inl what =>
          let streamId := String.append (streamName ffstream) "'" in
          log (sfeLogError
                 (String.append "error while loading "
                    (String.append streamId
                       (String.append " stream: " what)))) d
      end
  | _ =>
      let d1 := set_m_ignoredStreams
                  (<[index ffstream := streamName ffstream]> (m_ignoredStreams d)) d in
      log (sfeLogDebug (String.append (streamName ffstream) "' stream ignored")) d1
  end.

Definition discoverStreams_state (l : list AVStream) (d : Demuxer) : Demuxer :=
  fold_left (fun acc ffstream => discoverStream_state ffstream acc) l d.

Definition Demuxer_discover_state (timer : Timer) (ctx : AVFormatContext)
    (store : ptr -> Str) : Demuxer :=
  let d0 :=
    {| m_formatCtx := ctx; m_eofReached := false; m_streams := ∅;
       m_ignoredStreams := ∅; m_pendingDataForActiveStreams := [];
       m_timer := timer; m_connectedVideoStream := None;
       m_duration := Time_Zero; objects := store;
       h_read := []; h_freed := []; h_pushed := []; h_conn := [];
       h_log := [] |} in
  let d1 := if negb (duration ctx =? AV_NOPTS_VALUE)
            then set_m_duration (resolveDuration (duration ctx)) d0
            else d0 in
  let d2 := discoverStreams_state (streams ctx) d1 in
  let d3 := if m_duration d2 =? Time_Zero
            then log (sfeLogWarning "The media duration could not be retreived") d2
            else d2 in
  set_m_timer (TimerOps.addObserver (m_timer d3)) d3.

(** ** Sequences of calls on a constructed demuxer

    The calls a demuxer receives in its life: a stream asks for data, the
    timer announces a seek, the owner selects a stream; between them the
    streams use up their packets and the owner drives the timer
    ([CallOutside]: the stream objects and the timer as they are left). *)
Inductive Call : Type :=
| CallRequestMoreData (starvingStream : ptr)
| CallWillSeek (position : Time)
| CallSelectVideoStream (stream : option ptr)
| CallSelectFirstVideoStream
| CallOutside (timer : Timer) (store : ptr -> Str).

(** A call that throws leaves the object as it was when the exception left
    it; the caller goes on. *)
Definition call (turns : nat) (c : Call) (d : Demuxer) : option Demuxer :=
  match c with
  | CallRequestMoreData starvingStream => requestMoreData turns starvingStream d
  | CallWillSeek position => Some (willSeek position d)
  | CallSelectVideoStream stream => Some (snd (selectVideoStream stream d))
  | CallSelectFirstVideoStream => Some (snd (selectFirstVideoStream d))
  | CallOutside timer store => Some (set_objects store (set_m_timer timer d))
  end.

Fixpoint calls (turns : nat) (cs : list Call) (d : Demuxer) : option Demuxer :=
  match cs with
  | [] => Some d
  | c :: cs' =>
      match call turns c d with
      | Some d' => calls turns cs' d'
      | None => None
      end
  end.

(** The calls of a stretch of playback: streams ask for data and use it
    up; nothing is selected and nothing seeks. *)
Definition feedOnly (c : Call) : bool :=
  match c with
  | CallRequestMoreData _ | CallOutside _ _ => true
  | _ => false
  end.

End Demuxer.

Arguments Demuxer Str : clear implicits.
Arguments Call Str : clear implicits.

(** ** The remaining functions of Demuxer.cpp *)







(** A [StreamDescriptor], with the three members the code assigns. *)
Record StreamDescriptor : Type := mkStreamDescriptor {
  type : MediaType;
  identifier : Z;
  language : string
}.

(** The order of the keys of a [std::map<int, ...>]. *)
Definition key_le (x y : Z * ptr) : Prop := fst x <= fst y.

#[global] Instance key_le_dec : RelDecision key_le.
Proof. intros x y. unfold key_le. apply _. Defined.

Section DemuxerMore.
Context {Str : Type} `{StreamInterface Str}.

(** [Stream::getLanguage] is not part of the interface above; it is a
    const member function and is taken as a function of the stream
    object. *)
Variable getLanguage : Str -> string.

(** A range-for over a [std::map<int, ...>] visits the entries by ascending
    key. *)
Definition map_entries (m : gmap Z ptr) : list (Z * ptr) :=
  merge_sort key_le (map_to_list m).

Definition getStreams (d : Demuxer Str) : gmap Z ptr := m_streams d.

Definition computeStreamDescriptors (type : MediaType) (d : Demuxer Str)
  : list StreamDescriptor :=
  fold_left
    (fun entries (pair : Z * ptr) =>
       if decide (getStreamKind (objects d (snd pair)) = type)
       then entries
            ++ [{| type := type; identifier := fst pair;
                   language := getLanguage (objects d (snd pair)) |}]
       else entries)
    (map_entries (m_streams d)) [].

End DemuxerMore.

(** The connect and disconnect calls of a history, replayed from the state
    in which no stream is connected: the stream connected at the end, or
    [None] when the history connects a stream while one is connected or
    disconnects a stream that is not the connected one.  (A reading of the
    history, used to state the invariant of the selection; not a function
    of the source.) *)
Definition replay_connections (history : list ConnEvent)
  : option (option ptr) :=
  fold_left
    (fun (state : option (option ptr)) (e : ConnEvent) =>
       match state, e with
       | Some None, EvConnect p => Some (Some p)
       | Some (Some q), EvDisconnect p =>
           if bool_decide (p = q) then Some None else None
       | _, _ => None
       end)
    history (Some None).


(** ** A concrete stream and a concrete movie *)

(** Modelled from the spec: a stream with the interface of section 6
    (Stream.hpp and VideoStream.hpp are not among the sources).  It owns the
    packets that carry its stream identifier, keeps the packets pushed to it
    in a list, and needs more data while that list is shorter than
    [bs_wanted]. *)
Record BufferedStream : Type := mkBufferedStream {
  bs_streamID : Z;
  bs_kind : MediaType;
  bs_passive : bool;
  bs_connected : bool;
  bs_packetList : list AVPacket;
  bs_wanted : nat
}.

#[global] Instance BufferedStream_interface : StreamInterface BufferedStream := {|
  needsMoreData st := (length (bs_packetList st) <? bs_wanted st)%nat;
  canUsePacket st packet := stream_index packet =? bs_streamID st;
  isPassive st := bs_passive st;
  pushEncodedData packet st :=
    mkBufferedStream (bs_streamID st) (bs_kind st) (bs_passive st)
      (bs_connected st) (bs_packetList st ++ [packet]) (bs_wanted st);
  connect st :=
    mkBufferedStream (bs_streamID st) (bs_kind st) (bs_passive st)
      true (bs_packetList st) (bs_wanted st);
  disconnect st :=
    mkBufferedStream (bs_streamID st) (bs_kind st) (bs_passive st)
      false (bs_packetList st) (bs_wanted st);
  getStreamKind st := bs_kind st
|}.

Module Movie.

(** A container with three video streams and one audio stream.  The
    container and the first video stream carry no duration; the second
    video stream lasts five seconds. *)
Definition v0 : AVStream := mkAVStream 0 AVMEDIA_TYPE_VIDEO AV_NOPTS_VALUE "h264".
Definition v1 : AVStream := mkAVStream 1 AVMEDIA_TYPE_VIDEO 5000000 "mpeg4".
Definition a2 : AVStream := mkAVStream 2 AVMEDIA_TYPE_AUDIO 5000000 "aac".
Definition v3 : AVStream := mkAVStream 3 AVMEDIA_TYPE_VIDEO 5000000 "vp9".

Definition p1 : AVPacket := mkPacket 0 1.
Definition p2 : AVPacket := mkPacket 2 2.
Definition p3 : AVPacket := mkPacket 1 3.
Definition p4 : AVPacket := mkPacket 0 4.

Definition ctx : AVFormatContext :=
  {| duration := AV_NOPTS_VALUE; start_time := 0; iformat_flags := 0;
     streams := [v0; v1; a2; v3]; packets := [p1; p2; p3; p4] |}.

Definition open_input (sourceFile : string) : Z * option AVFormatContext :=
  if String.eqb sourceFile "movie.mkv" then (0, Some ctx) else (-2, None).

Definition find_stream_info (c : AVFormatContext) : Z * AVFormatContext := (0, c).

(** Seeking puts the cursor back to the first packet. *)
Definition seek_file (c : AVFormatContext) (stream_index min_ts ts max_ts flags : Z)
  : Z * AVFormatContext :=
  (0, {| duration := duration c; start_time := start_time c;
         iformat_flags := iformat_flags c; streams := streams c;
         packets := [p1; p2; p3; p4] |}).

Definition blank (id : Z) : BufferedStream :=
  mkBufferedStream id Video false false [] 2.

(** The allocator hands out the object of stream 1 below the object of
    stream 0; the decoder of stream 3 cannot be opened. *)
Definition new_stream (c : AVFormatContext) (ffstream : AVStream)
  : string + (ptr * BufferedStream) :=
  if index ffstream =? 0 then inr (2%positive, blank 0)
  else if index ffstream =? 1 then inr (1%positive, blank 1)
  else inl "Stream() - no decoder for this stream".

Definition store : ptr -> BufferedStream := fun _ => blank (-1).

Definition timer : Timer := mkTimer Stopped false.

(** The demuxer as the constructor leaves it. *)
Definition demuxer : Demuxer BufferedStream :=
  {| m_formatCtx := ctx; m_eofReached := false;
     m_streams := <[1 := 1%positive]> (<[0 := 2%positive]> ∅);
     m_ignoredStreams := <[2 := "'audio/aac"]> ∅;
     m_pendingDataForActiveStreams := [];
     m_timer := mkTimer Stopped true; m_connectedVideoStream := None;
     m_duration := 5000000;
     objects := store_set 1%positive (blank 1) (store_set 2%positive (blank 0) store);
     h_read := []; h_freed := []; h_pushed := []; h_conn := [];
     h_log := [sfeLogDebug "Loaded h264 video stream";
               sfeLogDebug "Loaded mpeg4 video stream";
               sfeLogDebug "'audio/aac' stream ignored";
               sfeLogError "error while loading 'video/vp9' stream: Stream() - no decoder for this stream"] |}.

(** The same demuxer with the stream of identifier 0 (at address 2)
    selected. *)
Definition playing0 : Demuxer BufferedStream :=
  set_m_connectedVideoStream (Some 2%positive) demuxer.

(** [playing0] when the first two packets have been read: the container
    yields next a packet for the stream of identifier 1, which is in the
    table and is not selected. *)
Definition playing0_at_p3 : Demuxer BufferedStream :=
  set_m_formatCtx
    {| duration := AV_NOPTS_VALUE; start_time := 0; iformat_flags := 0;
       streams := [v0; v1; a2; v3]; packets := [p3; p4] |}
    playing0.

(** [playing0] while the movie plays. *)
Definition playing0_running : Demuxer BufferedStream :=
  set_m_timer (mkTimer Playing true) playing0.


(** The language tags of the two video streams of the movie. *)
Definition language_of (st : BufferedStream) : string :=
  if bs_streamID st =? 0 then "eng" else "fra".

(** [demuxer] with stream 0 selected, after stream 1 has asked for data:
    the two packets of stream 0 are queued. *)
Definition calls_select0_feed1 : list (Call BufferedStream) :=
  [CallSelectVideoStream (Some 2%positive); CallRequestMoreData 1%positive].


End Movie.

Example Movie_construction :
  Demuxer_new Movie.open_input Movie.find_stream_info Movie.new_stream
    "movie.mkv" (Some Movie.timer) Movie.store = Returns Movie.demuxer.
Proof. vm_compute. reflexivity. Qed.

(** A container with a stream of unknown media type: the description of
    that stream cannot be built, and the constructor throws. *)
Example construction_unknown_media_type :
  Demuxer_new
    (fun _ => (0, Some {| duration := AV_NOPTS_VALUE; start_time := 0;
                          iformat_flags := 0;
                          streams := [Movie.v0;
                                      mkAVStream 1 AVMEDIA_TYPE_UNKNOWN
                                                 AV_NOPTS_VALUE "none"];
                          packets := [] |}))
    Movie.find_stream_info Movie.new_stream
    "movie.mkv" (Some Movie.timer) Movie.store
  = Throws "basic_string: construction from null is not valid".
Proof. vm_compute. reflexivity. Qed.


(** * Properties *)

(** The duration arithmetic on two inputs where binary32 is exact. *)
Example resolveDuration_5s : resolveDuration 5000000 = 5000000.
Proof. vm_compute. reflexivity. Qed.

(** The largest 64-bit duration is rounded up in binary32 to 2^63
    microseconds, which [sf::Time] cannot hold. *)
Example resolveDuration_defined_max :
  resolveDuration_defined INT64_MAX = false
  /\ resolveDuration_defined 5000000 = true.
Proof. vm_compute. split; reflexivity. Qed.

Example resolveDuration_0 : resolveDuration 0 = Time_Zero.
Proof. vm_compute. reflexivity. Qed.

(** Binary32 keeps 24 bits: 123.456789 s comes back 5 microseconds short. *)
Example resolveDuration_rounds : resolveDuration 123456789 = 123456784.
Proof. vm_compute. reflexivity. Qed.

Section Properties.
Context {Str : Type} `{StreamInterface Str}.
Variable avformat_seek_file :
  AVFormatContext -> Z -> Z -> Z -> Z -> Z -> Z * AVFormatContext.
Variable avformat_open_input : string -> Z * option AVFormatContext.
Variable avformat_find_stream_info : AVFormatContext -> Z * AVFormatContext.
Variable new_VideoStream : AVFormatContext -> AVStream -> string + (ptr * Str).

Abbreviation willSeek' := (willSeek avformat_seek_file).
Abbreviation call' := (call avformat_seek_file).
Abbreviation calls' := (calls avformat_seek_file).
Abbreviation Demuxer_new' :=
  (Demuxer_new avformat_open_input avformat_find_stream_info new_VideoStream).

Implicit Types (d : Demuxer Str) (stream target : ptr) (packet : AVPacket).

(** What discovery has done for one stream of the container, read off the
    finished tables and the log. *)
Abbreviation discovered ctx ffstream d :=
  (match codec_type ffstream with
   | AVMEDIA_TYPE_VIDEO =>
       match new_VideoStream ctx ffstream with
       | inr (address, _) =>
           m_streams d !! index ffstream = Some address
           /\ m_ignoredStreams d !! index ffstream = None
       | inl what =>
           m_streams d !! index ffstream = None
           /\ m_ignoredStreams d !! index ffstream = None
           /\ sfeLogError
                (String.append "error while loading "
                   (String.append (String.append (streamName ffstream) "'")
                      (String.append " stream: " what))) ∈ h_log d
       end
   | _ =>
       m_streams d !! index ffstream = None
       /\ m_ignoredStreams d !! index ffstream = Some (streamName ffstream)
   end).

(** A stream the duration can be taken from: a video stream whose object
    could be built and whose own duration is present and does not resolve to
    zero. *)
Abbreviation durationSource ctx :=
  (fun ffstream : AVStream =>
     match codec_type ffstream with
     | AVMEDIA_TYPE_VIDEO =>
         match new_VideoStream ctx ffstream with
         | inr _ =>
             negb (st_duration ffstream =? AV_NOPTS_VALUE)
             && negb (resolveDuration (st_duration ffstream) =? Time_Zero)
         | inl _ => false
         end
     | _ => false
     end).

(** ** The pending queue *)

Lemma free_all_fields (l : list AVPacket) d :
  let d' := fold_left (fun acc packet => free_packet packet acc) l d in
  h_freed d' = h_freed d ++ l
  /\ m_formatCtx d' = m_formatCtx d /\ m_eofReached d' = m_eofReached d
  /\ m_streams d' = m_streams d /\ m_ignoredStreams d' = m_ignoredStreams d
  /\ m_pendingDataForActiveStreams d' = m_pendingDataForActiveStreams d
  /\ m_timer d' = m_timer d
  /\ m_connectedVideoStream d' = m_connectedVideoStream d
  /\ m_duration d' = m_duration d /\ objects d' = objects d
  /\ h_read d' = h_read d /\ h_pushed d' = h_pushed d
  /\ h_conn d' = h_conn d /\ h_log d' = h_log d.
Proof.
  revert d. induction l as [|p l IH]; intros d; simpl.
  - rewrite app_nil_r. repeat split.
  - specialize (IH (free_packet p d)). simpl in IH.
    destruct IH as (-> & -> & -> & -> & -> & -> & -> & -> & -> & -> & -> & -> & -> & ->).
    simpl. rewrite <- app_assoc. repeat split.
Qed.

Lemma flushBuffers_freed d :
  h_freed (flushBuffers d) = h_freed d ++ m_pendingDataForActiveStreams d.
Proof. unfold flushBuffers. simpl. apply free_all_fields. Qed.

Lemma flushBuffers_pending d :
  m_pendingDataForActiveStreams (flushBuffers d) = [].
Proof. reflexivity. Qed.

(** ** Seeking *)

(** Everything [willSeek] does to the object, but for the context (which
    the seek moves) and the log. *)
Lemma willSeek_effect (position : Time) d :
  let d' := willSeek' position d in
  (m_pendingDataForActiveStreams d' = []
   /\ m_eofReached d' = false
   /\ h_freed d' = h_freed d ++ m_pendingDataForActiveStreams d
   /\ h_pushed d' = h_pushed d)
  /\ m_streams d' = m_streams d
  /\ m_connectedVideoStream d' = m_connectedVideoStream d
  /\ m_duration d' = m_duration d /\ m_timer d' = m_timer d
  /\ objects d' = objects d /\ h_read d' = h_read d
  /\ h_conn d' = h_conn d.
Proof.
  unfold willSeek. cbv zeta.
  set (d2 := flushBuffers (resetEndOfFileStatus d)).
  assert (Hd2 : (m_pendingDataForActiveStreams d2 = []
                 /\ m_eofReached d2 = false
                 /\ h_freed d2 = h_freed d ++ m_pendingDataForActiveStreams d
                 /\ h_pushed d2 = h_pushed d)
                /\ m_streams d2 = m_streams d
                /\ m_connectedVideoStream d2 = m_connectedVideoStream d
                /\ m_duration d2 = m_duration d /\ m_timer d2 = m_timer d
                /\ objects d2 = objects d /\ h_read d2 = h_read d
                /\ h_conn d2 = h_conn d).
  { subst d2. rewrite flushBuffers_freed. unfold flushBuffers. simpl.
    pose proof (free_all_fields (m_pendingDataForActiveStreams d)
                  (resetEndOfFileStatus d)) as F.
    simpl in F.
    destruct F as (_ & _ & F0 & F1 & _ & _ & F2 & F3 & F4 & F5 & F6 & F8 & F7 & _).
    rewrite F0, F1, F2, F3, F4, F5, F6, F7, F8. repeat split. }
  clearbody d2.
  destruct (negb _);
    destruct (avformat_seek_file _ _ _ _ _ _) as [err ctx];
    destruct (err <? 0); simpl; exact Hd2.
Qed.

(** C4: after [willSeek] the pending queue is empty, every packet that was
    in it has been handed to [av_free_packet] (and none to a stream), and
    the end-of-file flag is false, whatever the state before the call and
    whatever [avformat_seek_file] returns. *)
Theorem willSeek_flushes_and_resets (position : Time) d :
  let d' := willSeek' position d in
  m_pendingDataForActiveStreams d' = []
  /\ m_eofReached d' = false
  /\ h_freed d' = h_freed d ++ m_pendingDataForActiveStreams d
  /\ h_pushed d' = h_pushed d.
Proof.
  unfold willSeek. cbv zeta.
  (* the state after the reset and the flush *)
  assert (Hflush :
            let d2 := flushBuffers (resetEndOfFileStatus d) in
            m_pendingDataForActiveStreams d2 = []
            /\ m_eofReached d2 = false
            /\ h_freed d2 = h_freed d ++ m_pendingDataForActiveStreams d
            /\ h_pushed d2 = h_pushed d).
  { cbv zeta. rewrite flushBuffers_freed, flushBuffers_pending.
    unfold flushBuffers, resetEndOfFileStatus. simpl.
    destruct (free_all_fields (m_pendingDataForActiveStreams d)
                (set_m_eofReached false d))
      as (_ & _ & F1 & _ & _ & _ & _ & _ & _ & _ & _ & F2 & _).
    simpl in F1, F2. rewrite F1, F2. auto. }
  cbv zeta in Hflush.
  (* the seek, by presentation or by decoding time, failed or not, changes
     only the context and the log *)
  destruct (negb (Z.land (iformat_flags _) AVFMT_SEEK_TO_PTS =? 0)).
  - destruct (avformat_seek_file _ _ _ _ _ _) as [err ctx].
    destruct (err <? 0); exact Hflush.
  - destruct (avformat_seek_file _ _ _ _ _ _) as [err ctx].
    destruct (err <? 0); exact Hflush.
Qed.

(** ** Gathering from the pending queue *)

Lemma gather_none (canUse : AVPacket -> bool) (l : list AVPacket) :
  Forall (fun q => canUse q = false) l -> gather canUse l = (None, l).
Proof.
  induction 1 as [|q l Hq _ IH]; simpl; [reflexivity|].
  rewrite Hq, IH. reflexivity.
Qed.

Lemma gather_split (canUse : AVPacket -> bool) (l : list AVPacket) :
  match gather canUse l with
  | (Some p, rest) =>
      exists l1 l2, l = l1 ++ p :: l2 /\ rest = l1 ++ l2
                    /\ canUse p = true
                    /\ Forall (fun q => canUse q = false) l1
  | (None, rest) => rest = l /\ Forall (fun q => canUse q = false) l
  end.
Proof.
  induction l as [|q l IH]; simpl.
  - split; [reflexivity | constructor].
  - destruct (canUse q) eqn:Hq.
    + exists [], l. repeat split; auto.
    + destruct (gather canUse l) as [[p|] rest].
      * destruct IH as (l1 & l2 & -> & -> & Hp & Hl1).
        exists (q :: l1), l2. repeat split; auto.
      * destruct IH as [-> Hl]. split; [reflexivity | constructor; auto].
Qed.

(** ** Dispatch *)

(** What one turn of the loop does when nothing in the queue is for the
    requester and the container still has a packet. *)
Lemma feedStream_body_read packet rest stream d :
  Forall (fun q => canUsePacket (objects d stream) q = false)
         (m_pendingDataForActiveStreams d) ->
  packets (m_formatCtx d) = packet :: rest ->
  feedStream_body stream d =
  distributeOrDrop packet stream
    (set_h_read (h_read d ++ [packet])
       (set_m_formatCtx
          {| duration := duration (m_formatCtx d);
             start_time := start_time (m_formatCtx d);
             iformat_flags := iformat_flags (m_formatCtx d);
             streams := streams (m_formatCtx d); packets := rest |} d)).
Proof.
  intros Hq Hp. unfold feedStream_body, gatherQueuedPacketForStream.
  rewrite (gather_none _ _ Hq).
  unfold readPacket, av_read_frame. simpl. rewrite Hp. simpl.
  destruct d; reflexivity.
Qed.

(** C1 (amended): a packet read in a feed turn whose destination is in the
    stream table is pushed to the destination exactly when the destination
    is the selected stream and is the requester or passive; it is queued
    (not pushed, not freed) when the destination is the selected stream but
    neither the requester nor passive, and then the next seek frees it
    without its ever being pushed; and when the destination is not the
    selected stream the packet is freed at once and is not queued. *)
Theorem feed_dispatch_policy packet rest stream target d :
  Forall (fun q => canUsePacket (objects d stream) q = false)
         (m_pendingDataForActiveStreams d) ->
  packets (m_formatCtx d) = packet :: rest ->
  m_streams d !! stream_index packet = Some target ->
  let d' := feedStream_body stream d in
  h_read d' = h_read d ++ [packet]
  /\ if bool_decide (m_connectedVideoStream d = Some target) then
       if bool_decide (target = stream) || isPassive (objects d target) then
         h_pushed d' = h_pushed d ++ [(target, packet)]
         /\ m_pendingDataForActiveStreams d' = m_pendingDataForActiveStreams d
         /\ h_freed d' = h_freed d
       else
         h_pushed d' = h_pushed d
         /\ m_pendingDataForActiveStreams d'
            = m_pendingDataForActiveStreams d ++ [packet]
         /\ h_freed d' = h_freed d
         /\ forall position,
              let d'' := willSeek' position d' in
              m_pendingDataForActiveStreams d'' = []
              /\ h_freed d''
                 = h_freed d ++ m_pendingDataForActiveStreams d ++ [packet]
              /\ h_pushed d'' = h_pushed d
     else
       h_pushed d' = h_pushed d
       /\ m_pendingDataForActiveStreams d' = m_pendingDataForActiveStreams d
       /\ h_freed d' = h_freed d ++ [packet].
Proof.
  intros Hq Hp Ht d'. subst d'.
  rewrite (feedStream_body_read packet rest stream d Hq Hp).
  unfold distributeOrDrop, distributePacket, getSelectedVideoStream. simpl.
  rewrite Ht.
  destruct (bool_decide (m_connectedVideoStream d = Some target)) eqn:Hsel.
  - apply bool_decide_eq_true in Hsel.
    rewrite (bool_decide_eq_true_2 (Some target = m_connectedVideoStream d))
      by congruence.
    destruct (bool_decide (target = stream) || isPassive (objects d target));
      simpl.
    + repeat split.
    + do 4 (split; [reflexivity|]).
      intros position.
      match goal with |- context [willSeek _ position ?x] =>
        pose proof (proj1 (willSeek_effect position x)) as W end.
      simpl in W. destruct W as (W1 & _ & W2 & W3).
      rewrite W1, W2, W3. repeat split.
  - apply bool_decide_eq_false in Hsel.
    rewrite (bool_decide_eq_false_2 (Some target = m_connectedVideoStream d))
      by congruence.
    simpl. repeat split.
Qed.

(** What [distributeOrDrop] does to the object: the packet is pushed to the
    selected stream, or queued, or freed; nothing else changes but the
    log. *)
Lemma distributeOrDrop_effect packet stream d :
  let d' := distributeOrDrop packet stream d in
  (m_formatCtx d' = m_formatCtx d /\ m_eofReached d' = m_eofReached d
   /\ m_streams d' = m_streams d /\ m_ignoredStreams d' = m_ignoredStreams d
   /\ m_timer d' = m_timer d
   /\ m_connectedVideoStream d' = m_connectedVideoStream d
   /\ m_duration d' = m_duration d /\ h_read d' = h_read d
   /\ h_conn d' = h_conn d)
  /\ ((exists target,
         m_streams d !! stream_index packet = Some target
         /\ m_connectedVideoStream d = Some target
         /\ (target = stream \/ isPassive (objects d target) = true)
         /\ h_pushed d' = h_pushed d ++ [(target, packet)]
         /\ objects d'
            = store_set target (pushEncodedData packet (objects d target))
                        (objects d)
         /\ m_pendingDataForActiveStreams d' = m_pendingDataForActiveStreams d
         /\ h_freed d' = h_freed d)
      \/ (exists target,
            m_streams d !! stream_index packet = Some target
            /\ m_connectedVideoStream d = Some target
            /\ target <> stream /\ isPassive (objects d target) = false
            /\ h_pushed d' = h_pushed d /\ objects d' = objects d
            /\ m_pendingDataForActiveStreams d'
               = m_pendingDataForActiveStreams d ++ [packet]
            /\ h_freed d' = h_freed d)
      \/ ((forall target, m_streams d !! stream_index packet = Some target ->
                          m_connectedVideoStream d <> Some target)
          /\ h_pushed d' = h_pushed d /\ objects d' = objects d
          /\ m_pendingDataForActiveStreams d' = m_pendingDataForActiveStreams d
          /\ h_freed d' = h_freed d ++ [packet])).
Proof.
  unfold distributeOrDrop, distributePacket, getSelectedVideoStream.
  destruct (m_streams d !! stream_index packet) as [target|] eqn:Ht.
  - destruct (bool_decide (Some target = m_connectedVideoStream d)) eqn:Hsel.
    + apply bool_decide_eq_true in Hsel. symmetry in Hsel.
      destruct (bool_decide (target = stream) || isPassive (objects d target))
        eqn:Hor; simpl.
      * split; [repeat split|]. left. exists target.
        apply orb_true_iff in Hor. rewrite bool_decide_eq_true in Hor.
        repeat split; auto.
      * split; [repeat split|]. right. left. exists target.
        apply orb_false_iff in Hor. rewrite bool_decide_eq_false in Hor.
        destruct Hor. repeat split; auto.
    + apply bool_decide_eq_false in Hsel. simpl.
      split; [repeat split|]. right. right.
      split; [|repeat split].
      intros t [= <-] E. apply Hsel. symmetry. exact E.
  - simpl. split; [repeat split|]. right. right.
    split; [|repeat split]. intros t [=].
Qed.

(** What one turn of the loop starts with: a packet taken out of the queue,
    a packet read from the container, or neither. *)
Lemma feedStream_body_cases stream d :
  (exists l1 packet l2,
     m_pendingDataForActiveStreams d = l1 ++ packet :: l2
     /\ canUsePacket (objects d stream) packet = true
     /\ Forall (fun q => canUsePacket (objects d stream) q = false) l1
     /\ feedStream_body stream d
        = distributeOrDrop packet stream
            (set_m_pendingDataForActiveStreams (l1 ++ l2) d))
  \/ (exists packet rest,
        Forall (fun q => canUsePacket (objects d stream) q = false)
               (m_pendingDataForActiveStreams d)
        /\ packets (m_formatCtx d) = packet :: rest
        /\ feedStream_body stream d
           = distributeOrDrop packet stream
               (set_h_read (h_read d ++ [packet])
                  (set_m_formatCtx
                     {| duration := duration (m_formatCtx d);
                        start_time := start_time (m_formatCtx d);
                        iformat_flags := iformat_flags (m_formatCtx d);
                        streams := streams (m_formatCtx d);
                        packets := rest |} d)))
  \/ (Forall (fun q => canUsePacket (objects d stream) q = false)
             (m_pendingDataForActiveStreams d)
      /\ packets (m_formatCtx d) = []
      /\ feedStream_body stream d = set_m_eofReached true d).
Proof.
  pose proof (gather_split (canUsePacket (objects d stream))
                (m_pendingDataForActiveStreams d)) as G.
  destruct (gather (canUsePacket (objects d stream))
                   (m_pendingDataForActiveStreams d)) as [[p|] rest] eqn:Hg.
  - destruct G as (l1 & l2 & Hl & -> & Hp & Hl1).
    left. exists l1, p, l2. repeat split; auto.
    unfold feedStream_body, gatherQueuedPacketForStream. rewrite Hg.
    reflexivity.
  - destruct G as [-> Hall]. right.
    destruct (packets (m_formatCtx d)) as [|p rest] eqn:Hp.
    + right. repeat split; auto.
      unfold feedStream_body, gatherQueuedPacketForStream. rewrite Hg.
      unfold readPacket, av_read_frame. simpl. rewrite Hp. simpl.
      destruct d as [[] ? ? ? ? ? ? ? ? ? ? ? ? ?]; simpl in *. subst.
      reflexivity.
    + left. exists p, rest. repeat split; auto.
      apply feedStream_body_read; assumption.
Qed.

(** ** The feed loop *)

Lemma feedStream_unfold turns stream d :
  feedStream turns stream d =
  if negb (m_eofReached d) && needsMoreData (objects d stream) then
    match turns with
    | O => None
    | S turns' => feedStream turns' stream (feedStream_body stream d)
    end
  else Some d.
Proof. destruct turns; reflexivity. Qed.

(** When the loop is left, its condition is false. *)
Lemma feedStream_exit turns stream d d' :
  feedStream turns stream d = Some d' ->
  m_eofReached d' = true \/ needsMoreData (objects d' stream) = false.
Proof.
  revert d. induction turns as [|n IH]; intros d; rewrite feedStream_unfold;
    destruct (m_eofReached d) eqn:He;
    destruct (needsMoreData (objects d stream)) eqn:Hn; simpl; intros Hf;
    try discriminate;
    try (injection Hf as <-; rewrite ?He, ?Hn; auto; fail).
  apply (IH _ Hf).
Qed.

(** More turns do not change a result. *)
Lemma feedStream_more_turns turns extra stream d d' :
  feedStream turns stream d = Some d' ->
  feedStream (turns + extra) stream d = Some d'.
Proof.
  revert d. induction turns as [|n IH]; intros d Hf.
  - rewrite feedStream_unfold in Hf. rewrite feedStream_unfold.
    destruct (negb (m_eofReached d) && needsMoreData (objects d stream));
      [discriminate | exact Hf].
  - simpl. simpl in Hf.
    destruct (negb (didReachEndOfFile d) && needsMoreData (objects d stream));
      [apply IH; exact Hf | exact Hf].
Qed.

(** A property kept by every turn is kept by the loop. *)
Lemma feedStream_invariant (P : Demuxer Str -> Prop) stream :
  (forall d, P d -> P (feedStream_body stream d)) ->
  forall turns d d', P d -> feedStream turns stream d = Some d' -> P d'.
Proof.
  intros Hbody. induction turns as [|n IH]; intros d d' HP;
    rewrite feedStream_unfold;
    destruct (negb (m_eofReached d) && needsMoreData (objects d stream));
    try discriminate; try (intros [= <-]; exact HP).
  apply IH. apply Hbody. exact HP.
Qed.

(** What a feed turn leaves alone. *)
Lemma feedStream_body_frame stream d :
  let d' := feedStream_body stream d in
  m_streams d' = m_streams d /\ m_ignoredStreams d' = m_ignoredStreams d
  /\ m_timer d' = m_timer d
  /\ m_connectedVideoStream d' = m_connectedVideoStream d
  /\ m_duration d' = m_duration d /\ h_conn d' = h_conn d.
Proof.
  destruct (feedStream_body_cases stream d)
    as [(l1 & p & l2 & _ & _ & _ & ->)
       |[(p & rest & _ & _ & ->) | (_ & _ & ->)]].
  - match goal with |- context [distributeOrDrop p stream ?x] =>
      destruct (distributeOrDrop_effect p stream x)
        as ((_ & _ & E1 & E2 & E3 & E4 & E5 & _ & E6) & _) end.
    cbv zeta. rewrite E1, E2, E3, E4, E5, E6. repeat split.
  - match goal with |- context [distributeOrDrop p stream ?x] =>
      destruct (distributeOrDrop_effect p stream x)
        as ((_ & _ & E1 & E2 & E3 & E4 & E5 & _ & E6) & _) end.
    cbv zeta. rewrite E1, E2, E3, E4, E5, E6. repeat split.
  - repeat split.
Qed.

(** The deliveries of a feed turn: none, or one, to the selected stream,
    which is the destination of the packet. *)
Lemma feedStream_body_pushed stream d :
  let d' := feedStream_body stream d in
  exists new,
    h_pushed d' = h_pushed d ++ new
    /\ forall target packet, (target, packet) ∈ new ->
         m_streams d !! stream_index packet = Some target
         /\ m_connectedVideoStream d = Some target.
Proof.
  assert (Hnil : forall target packet, (target, packet) ∈ @nil (ptr * AVPacket) ->
                 m_streams d !! stream_index packet = Some target
                 /\ m_connectedVideoStream d = Some target).
  { intros t p Hin. inversion Hin. }
  assert (Hd : forall p x,
             m_streams x = m_streams d ->
             m_connectedVideoStream x = m_connectedVideoStream d ->
             h_pushed x = h_pushed d ->
             exists new,
               h_pushed (distributeOrDrop p stream x) = h_pushed d ++ new
               /\ forall target packet, (target, packet) ∈ new ->
                    m_streams d !! stream_index packet = Some target
                    /\ m_connectedVideoStream d = Some target).
  { intros p x Hs Hc Hpu.
    destruct (distributeOrDrop_effect p stream x)
      as (_ & [(t & Ht & Hsel & _ & E & _)
              |[(t & _ & _ & _ & _ & E & _) | (_ & E & _)]]).
    - exists [(t, p)]. rewrite E, Hpu. split; [reflexivity|].
      intros t' p' Hin. apply list_elem_of_singleton in Hin.
      injection Hin as -> ->. rewrite <- Hs, <- Hc. auto.
    - exists []. rewrite E, Hpu, app_nil_r. auto.
    - exists []. rewrite E, Hpu, app_nil_r. auto. }
  destruct (feedStream_body_cases stream d)
    as [(l1 & p & l2 & _ & _ & _ & ->)
       |[(p & rest & _ & _ & ->) | (_ & _ & ->)]].
  - apply Hd; reflexivity.
  - apply Hd; reflexivity.
  - exists []. simpl. rewrite app_nil_r. auto.
Qed.

(** ** Isolation of the streams that are not selected *)

Lemma feedStream_pushed turns stream d d' :
  feedStream turns stream d = Some d' ->
  m_streams d' = m_streams d
  /\ m_connectedVideoStream d' = m_connectedVideoStream d
  /\ exists new,
       h_pushed d' = h_pushed d ++ new
       /\ forall target packet, (target, packet) ∈ new ->
            m_streams d !! stream_index packet = Some target
            /\ m_connectedVideoStream d = Some target.
Proof.
  apply (feedStream_invariant
           (fun x => m_streams x = m_streams d
                     /\ m_connectedVideoStream x = m_connectedVideoStream d
                     /\ exists new,
                          h_pushed x = h_pushed d ++ new
                          /\ forall target packet, (target, packet) ∈ new ->
                               m_streams d !! stream_index packet = Some target
                               /\ m_connectedVideoStream d = Some target)).
  - intros x (Hs & Hc & new & Hp & Hnew).
    destruct (feedStream_body_frame stream x) as (F1 & _ & _ & F2 & _).
    destruct (feedStream_body_pushed stream x) as (new' & Hp' & Hnew').
    rewrite F1, F2. repeat split; auto.
    exists (new ++ new'). rewrite Hp', Hp, app_assoc. split; [reflexivity|].
    intros t p Hin. apply elem_of_app in Hin as [Hin|Hin].
    + apply Hnew, Hin.
    + rewrite <- Hs, <- Hc. apply Hnew', Hin.
  - repeat split. exists []. rewrite app_nil_r. split; [reflexivity|].
    intros t p Hin. inversion Hin.
Qed.

(** C5: over any sequence of feed calls (with the streams using up their
    data in between), every packet that is pushed to a stream is pushed to
    the selected stream, and that stream is the packet's destination in the
    stream table; so a packet whose destination is not the selected stream
    is pushed to no stream at all, whoever asked for data. *)
Theorem unselected_never_delivered turns (cs : list (Call Str)) d d' :
  forallb feedOnly cs = true ->
  calls' turns cs d = Some d' ->
  m_streams d' = m_streams d
  /\ m_connectedVideoStream d' = m_connectedVideoStream d
  /\ exists new,
       h_pushed d' = h_pushed d ++ new
       /\ (forall target packet, (target, packet) ∈ new ->
             m_streams d !! stream_index packet = Some target
             /\ m_connectedVideoStream d = Some target)
       /\ (forall packet,
             m_streams d !! stream_index packet <> m_connectedVideoStream d ->
             forall target, (target, packet) ∉ new).
Proof.
  intros Hcs Hrun.
  assert (G : m_streams d' = m_streams d
              /\ m_connectedVideoStream d' = m_connectedVideoStream d
              /\ exists new,
                   h_pushed d' = h_pushed d ++ new
                   /\ forall target packet, (target, packet) ∈ new ->
                        m_streams d !! stream_index packet = Some target
                        /\ m_connectedVideoStream d = Some target).
  { revert d Hrun. induction cs as [|c cs IH]; intros d Hrun.
    - injection Hrun as <-. repeat split. exists [].
      rewrite app_nil_r. split; [reflexivity|]. intros t p Hin. inversion Hin.
    - simpl in Hcs. apply andb_true_iff in Hcs as [Hc Hcs].
      simpl in Hrun. destruct (call' turns c d) as [d1|] eqn:Hcall;
        [|discriminate].
      destruct (IH Hcs d1 Hrun) as (Hs & Hsel & new & Hp & Hnew).
      assert (Hstep : m_streams d1 = m_streams d
                      /\ m_connectedVideoStream d1 = m_connectedVideoStream d
                      /\ exists new1,
                           h_pushed d1 = h_pushed d ++ new1
                           /\ forall target packet, (target, packet) ∈ new1 ->
                                m_streams d !! stream_index packet = Some target
                                /\ m_connectedVideoStream d = Some target).
      { destruct c; simpl in Hc; try discriminate; simpl in Hcall.
        - apply feedStream_pushed with (turns := turns) (stream := starvingStream).
          exact Hcall.
        - injection Hcall as <-. simpl. repeat split. exists [].
          rewrite app_nil_r. split; [reflexivity|].
          intros t p Hin. inversion Hin. }
      destruct Hstep as (Hs1 & Hsel1 & new1 & Hp1 & Hnew1).
      rewrite Hs, Hsel, Hs1, Hsel1. repeat split.
      exists (new1 ++ new). rewrite Hp, Hp1, app_assoc. split; [reflexivity|].
      intros t p Hin. apply elem_of_app in Hin as [Hin|Hin].
      + apply Hnew1, Hin.
      + rewrite <- Hs1, <- Hsel1. apply Hnew, Hin. }
  destruct G as (Hs & Hsel & new & Hp & Hnew).
  split; [exact Hs|]. split; [exact Hsel|].
  exists new. split; [exact Hp|]. split; [exact Hnew|].
  - intros packet Hne target Hin.
    destruct (Hnew target packet Hin) as [E1 E2]. congruence.
Qed.

(** The queue search written with the list library: the first packet the
    stream can use, found by [list_find], and the queue with that one
    position deleted. *)
Lemma gather_list_find (canUse : AVPacket -> bool) (l : list AVPacket) :
  gather canUse l =
  match list_find (fun q => canUse q = true) l with
  | Some (i, p) => (Some p, delete i l)
  | None => (None, l)
  end.
Proof.
  induction l as [|q l IH]; simpl; [reflexivity|].
  destruct (canUse q) eqn:Hq.
  - rewrite decide_True by reflexivity. reflexivity.
  - rewrite decide_False by discriminate.
    rewrite IH. destruct (list_find _ l) as [[i p]|]; reflexivity.
Qed.

(** C2: [feedStream] turns exactly while the end-of-file flag is false and
    the requester needs data.  A turn takes the first queued packet the
    requester can use, leaving the other queued packets in their order; with
    no such packet it reads the next packet of the container; with no packet
    there either it sets the end-of-file flag, which ends the loop.  The
    packet taken or read is distributed, and freed when [distributePacket]
    does not accept it. *)
Theorem feedStream_contract turns stream d :
  (* the loop condition *)
  (m_eofReached d = true \/ needsMoreData (objects d stream) = false ->
   feedStream turns stream d = Some d)
  /\ (m_eofReached d = false -> needsMoreData (objects d stream) = true ->
      feedStream (S turns) stream d
      = feedStream turns stream (feedStream_body stream d))
  /\ (forall d', feedStream turns stream d = Some d' ->
        m_eofReached d' = true \/ needsMoreData (objects d' stream) = false)
  (* one turn: from the queue, from the container, or end of file *)
  /\ ((exists l1 packet l2,
         m_pendingDataForActiveStreams d = l1 ++ packet :: l2
         /\ canUsePacket (objects d stream) packet = true
         /\ Forall (fun q => canUsePacket (objects d stream) q = false) l1
         /\ list_find (fun q => canUsePacket (objects d stream) q = true)
                      (m_pendingDataForActiveStreams d)
            = Some (length l1, packet)
         /\ feedStream_body stream d
            = distributeOrDrop packet stream
                (set_m_pendingDataForActiveStreams (l1 ++ l2) d))
      \/ (exists packet rest,
            Forall (fun q => canUsePacket (objects d stream) q = false)
                   (m_pendingDataForActiveStreams d)
            /\ packets (m_formatCtx d) = packet :: rest
            /\ feedStream_body stream d
               = distributeOrDrop packet stream
                   (set_h_read (h_read d ++ [packet])
                      (set_m_formatCtx
                         {| duration := duration (m_formatCtx d);
                            start_time := start_time (m_formatCtx d);
                            iformat_flags := iformat_flags (m_formatCtx d);
                            streams := streams (m_formatCtx d);
                            packets := rest |} d)))
      \/ (Forall (fun q => canUsePacket (objects d stream) q = false)
                 (m_pendingDataForActiveStreams d)
          /\ packets (m_formatCtx d) = []
          /\ feedStream_body stream d = set_m_eofReached true d
          /\ feedStream turns stream (feedStream_body stream d)
             = Some (set_m_eofReached true d)))
  (* a packet that is not accepted is freed, an accepted one is not *)
  /\ (forall packet x,
        let x' := distributeOrDrop packet stream x in
        if fst (distributePacket packet stream x)
        then h_freed x' = h_freed x
        else h_freed x' = h_freed x ++ [packet]
             /\ h_pushed x' = h_pushed x
             /\ m_pendingDataForActiveStreams x'
                = m_pendingDataForActiveStreams x).
Proof.
  split; [|split; [|split; [|split]]].
  - intros Hc. rewrite feedStream_unfold.
    destruct Hc as [-> | ->]; [reflexivity|].
    rewrite andb_false_r. reflexivity.
  - intros He Hn. simpl. unfold didReachEndOfFile. rewrite He, Hn. reflexivity.
  - intros d'. apply feedStream_exit.
  - destruct (feedStream_body_cases stream d)
      as [(l1 & p & l2 & Hl & Hp & Hl1 & Hb)
         |[(p & rest & Hall & Hpk & Hb) | (Hall & Hpk & Hb)]].
    + left. exists l1, p, l2. repeat split; auto.
      rewrite Hl. rewrite list_find_app_r.
      * simpl. rewrite decide_True by exact Hp. reflexivity.
      * apply list_find_None. eapply Forall_impl; [exact Hl1|].
        simpl. intros q ->. discriminate.
    + right. left. exists p, rest. auto.
    + right. right. repeat split; auto.
      rewrite Hb, feedStream_unfold. reflexivity.
  - intros packet x. unfold distributeOrDrop.
    destruct (distributePacket packet stream x) as [[|] x1] eqn:Hd; simpl.
    + unfold distributePacket in Hd.
      destruct (m_streams x !! stream_index packet); [|discriminate].
      destruct (bool_decide _); [|discriminate].
      destruct (_ || _); injection Hd as <-; reflexivity.
    + unfold distributePacket in Hd.
      destruct (m_streams x !! stream_index packet).
      * destruct (bool_decide _).
        -- destruct (_ || _); discriminate.
        -- injection Hd as <-. auto.
      * injection Hd as <-. auto.
Qed.

(** ** Termination of the feed loop *)

(** The loop returns when the requester owns what it can use: every packet
    it can use has the requester as its destination in the stream table
    (as with a stream that matches packets by its own identifier and sits in
    the table under that identifier), and being pushed a packet does not
    change what a stream can use.  Each turn then shortens the queue or the
    container; a packet taken from the queue is never put back. *)
Theorem feedStream_terminates stream d :
  (forall (o : Str) p q,
     canUsePacket (pushEncodedData p o) q = canUsePacket o q) ->
  (forall q, canUsePacket (objects d stream) q = true ->
             m_streams d !! stream_index q = Some stream) ->
  exists d',
    feedStream (S (2 * length (packets (m_formatCtx d))
                   + length (m_pendingDataForActiveStreams d))) stream d
    = Some d'.
Proof.
  intros Hstable Hown.
  assert (G : forall n x,
             m_streams x = m_streams d ->
             (forall q, canUsePacket (objects x stream) q
                        = canUsePacket (objects d stream) q) ->
             (2 * length (packets (m_formatCtx x))
              + length (m_pendingDataForActiveStreams x) <= n)%nat ->
             exists d', feedStream (S n) stream x = Some d').
  { assert (Step : forall p x,
               m_streams x = m_streams d ->
               (forall q, canUsePacket (objects x stream) q
                          = canUsePacket (objects d stream) q) ->
               let x' := distributeOrDrop p stream x in
               m_streams x' = m_streams d
               /\ (forall q, canUsePacket (objects x' stream) q
                             = canUsePacket (objects d stream) q)
               /\ m_formatCtx x' = m_formatCtx x
               /\ (length (m_pendingDataForActiveStreams x')
                   <= S (length (m_pendingDataForActiveStreams x)))%nat
               /\ (canUsePacket (objects x stream) p = true ->
                   m_pendingDataForActiveStreams x'
                   = m_pendingDataForActiveStreams x)).
    { intros p x Hs Hc.
      destruct (distributeOrDrop_effect p stream x)
        as ((F1 & _ & F2 & _) &
            [(t & Ht & _ & _ & _ & Eo & Ep & _)
            |[(t & Ht & _ & Hne & _ & _ & Eo & Ep & _) | (_ & _ & Eo & Ep & _)]]);
        cbv zeta; rewrite F1, F2, Eo, Ep.
      - split; [exact Hs|]. split.
        + intros q. unfold store_set. destruct (decide (stream = t)) as [<-|].
          * rewrite Hstable. apply Hc.
          * apply Hc.
        + repeat split; auto.
      - split; [exact Hs|]. split; [exact Hc|]. split; [reflexivity|].
        split; [rewrite length_app; simpl; lia|].
        intros Hcan. rewrite Hc in Hcan. apply Hown in Hcan.
        rewrite <- Hs, Ht in Hcan. congruence.
      - repeat split; auto. }
    induction n as [|n IH]; intros x Hs Hc Hlen.
    - rewrite feedStream_unfold.
      destruct (negb (m_eofReached x) && needsMoreData (objects x stream));
        [|eauto].
      destruct (feedStream_body_cases stream x)
        as [(l1 & p & l2 & Hl & _)
           |[(p & rest & _ & Hpk & _) | (_ & _ & ->)]].
      + rewrite Hl, length_app in Hlen. simpl in Hlen. lia.
      + rewrite Hpk in Hlen. simpl in Hlen. lia.
      + simpl. eauto.
    - rewrite feedStream_unfold.
      destruct (negb (m_eofReached x) && needsMoreData (objects x stream));
        [|eauto].
      destruct (feedStream_body_cases stream x)
        as [(l1 & p & l2 & Hl & Hp & _ & ->)
           |[(p & rest & _ & Hpk & ->) | (_ & _ & ->)]].
      + match goal with |- context [distributeOrDrop p stream ?y] =>
          destruct (Step p y Hs Hc) as (S1 & S2 & S3 & _ & S5) end.
        apply IH; [exact S1 | exact S2 |].
        rewrite S3, (S5 Hp). simpl. rewrite Hl, !length_app in Hlen.
        rewrite length_app. simpl in Hlen. lia.
      + match goal with |- context [distributeOrDrop p stream ?y] =>
          destruct (Step p y Hs Hc) as (S1 & S2 & S3 & S4 & _) end.
        apply IH; [exact S1 | exact S2 |].
        rewrite S3. simpl in *. rewrite Hpk in Hlen. simpl in Hlen. lia.
      + rewrite feedStream_unfold. simpl. eauto. }
  apply G; [reflexivity | reflexivity | lia].
Qed.

(** ** Feeding with no stream selected *)

Lemma distributePacket_unselected packet stream d :
  m_connectedVideoStream d = None ->
  distributePacket packet stream d = (false, d).
Proof.
  intros Hsel. unfold distributePacket, getSelectedVideoStream.
  destruct (m_streams d !! stream_index packet) as [t|]; [|reflexivity].
  rewrite Hsel. rewrite bool_decide_eq_false_2 by discriminate. reflexivity.
Qed.

Lemma distributeOrDrop_unselected packet stream d :
  m_connectedVideoStream d = None ->
  let d' := distributeOrDrop packet stream d in
  m_connectedVideoStream d' = None
  /\ m_eofReached d' = m_eofReached d /\ m_formatCtx d' = m_formatCtx d
  /\ objects d' = objects d /\ h_pushed d' = h_pushed d
  /\ h_read d' = h_read d
  /\ m_pendingDataForActiveStreams d' = m_pendingDataForActiveStreams d
  /\ h_freed d' = h_freed d ++ [packet].
Proof.
  intros Hsel. unfold distributeOrDrop.
  rewrite (distributePacket_unselected _ _ _ Hsel). simpl. auto 10.
Qed.

Lemma filter_none (f : AVPacket -> bool) (l : list AVPacket) :
  Forall (fun q => f q = false) l ->
  List.filter f l = [] /\ List.filter (fun q => negb (f q)) l = l.
Proof.
  induction 1 as [|q l Hq _ [IH1 IH2]]; simpl; [auto|].
  rewrite Hq. simpl. rewrite IH1, IH2. auto.
Qed.

Lemma feedStream_unselected_run stream (n : nat) : forall d,
  m_connectedVideoStream d = None ->
  m_eofReached d = false ->
  needsMoreData (objects d stream) = true ->
  (length (m_pendingDataForActiveStreams d)
   + length (packets (m_formatCtx d)) <= n)%nat ->
  exists d',
    feedStream (S n) stream d = Some d'
    /\ h_pushed d' = h_pushed d /\ objects d' = objects d
    /\ m_eofReached d' = true /\ packets (m_formatCtx d') = []
    /\ h_read d' = h_read d ++ packets (m_formatCtx d)
    /\ h_freed d'
       = h_freed d
         ++ List.filter (canUsePacket (objects d stream))
                        (m_pendingDataForActiveStreams d)
         ++ packets (m_formatCtx d)
    /\ m_pendingDataForActiveStreams d'
       = List.filter (fun q => negb (canUsePacket (objects d stream) q))
                     (m_pendingDataForActiveStreams d).
Proof.
  induction n as [|n IH]; intros d Hsel He Hn Hlen.
  - change (feedStream 1 stream d)
      with (if negb (didReachEndOfFile d) && needsMoreData (objects d stream)
            then feedStream 0 stream (feedStream_body stream d)
            else Some d).
    unfold didReachEndOfFile. rewrite He, Hn. simpl negb. simpl andb. cbv iota.
    destruct (feedStream_body_cases stream d)
      as [(l1 & p & l2 & Hl & _)
         |[(p & rest & _ & Hpk & _) | (Hall & Hpk & ->)]].
    + rewrite Hl, length_app in Hlen. simpl in Hlen. lia.
    + rewrite Hpk in Hlen. simpl in Hlen. lia.
    + exists (set_m_eofReached true d). simpl.
      destruct (filter_none _ _ Hall) as [F1 F2].
      rewrite Hpk, F1, F2, !app_nil_r. repeat split.
  - change (feedStream (S (S n)) stream d)
      with (if negb (didReachEndOfFile d) && needsMoreData (objects d stream)
            then feedStream (S n) stream (feedStream_body stream d)
            else Some d).
    unfold didReachEndOfFile. rewrite He, Hn. simpl negb. simpl andb. cbv iota.
    destruct (feedStream_body_cases stream d)
      as [(l1 & p & l2 & Hl & Hp & Hl1 & ->)
         |[(p & rest & Hall & Hpk & ->) | (Hall & Hpk & ->)]].
    + match goal with |- context [distributeOrDrop p stream ?x] =>
        destruct (distributeOrDrop_unselected p stream x Hsel)
          as (E1 & E2 & E3 & E4 & E5 & E6 & E7 & E8);
        destruct (IH (distributeOrDrop p stream x)) as (d' & Hf & R)
      end; simpl in *.
      * exact E1.
      * rewrite E2. exact He.
      * rewrite E4. exact Hn.
      * rewrite E7, E3. rewrite Hl in Hlen.
        rewrite length_app in *. simpl in Hlen. lia.
      * exists d'. split; [exact Hf|].
        destruct R as (R1 & R2 & R3 & R4 & R5 & R6 & R7).
        rewrite R1, R2, R3, R4, R5, R6, R7, E3, E4, E5, E6, E7, E8.
        destruct (filter_none _ _ Hl1) as [F1 F2].
        rewrite Hl, !List.filter_app. simpl. rewrite Hp. simpl.
        rewrite F1. simpl. rewrite <- !app_assoc. repeat split.
    + match goal with |- context [distributeOrDrop p stream ?x] =>
        destruct (distributeOrDrop_unselected p stream x Hsel)
          as (E1 & E2 & E3 & E4 & E5 & E6 & E7 & E8);
        destruct (IH (distributeOrDrop p stream x)) as (d' & Hf & R)
      end; simpl in *.
      * exact E1.
      * rewrite E2. exact He.
      * rewrite E4. exact Hn.
      * rewrite E7, E3. simpl. rewrite Hpk in Hlen. simpl in Hlen. lia.
      * exists d'. split; [exact Hf|].
        destruct R as (R1 & R2 & R3 & R4 & R5 & R6 & R7).
        rewrite R1, R2, R3, R4, R5, R6, R7, E3, E4, E5, E6, E7, E8.
        destruct (filter_none _ _ Hall) as [F1 F2].
        rewrite Hpk, F1. simpl. rewrite <- !app_assoc. repeat split.
    + exists (set_m_eofReached true d). simpl.
      destruct (filter_none _ _ Hall) as [F1 F2].
      rewrite Hpk, F1, F2, !app_nil_r. repeat split.
Qed.

(** C10: with no video stream selected, [distributePacket] accepts no
    packet, also not one whose destination is in the stream table.  A feed
    call then returns, pushes nothing to any stream and changes no stream
    object; when the loop runs at all it runs until the end of the container:
    every packet it reads and every queued packet of the requester is freed,
    and it ends with the end-of-file flag set. *)
Theorem feed_without_selection stream d :
  m_connectedVideoStream d = None ->
  (forall packet, distributePacket packet stream d = (false, d))
  /\ exists d',
       feedStream (S (length (m_pendingDataForActiveStreams d)
                      + length (packets (m_formatCtx d)))) stream d = Some d'
       /\ h_pushed d' = h_pushed d /\ objects d' = objects d
       /\ (m_eofReached d' = true \/ needsMoreData (objects d' stream) = false)
       /\ if negb (m_eofReached d) && needsMoreData (objects d stream) then
            m_eofReached d' = true /\ packets (m_formatCtx d') = []
            /\ h_read d' = h_read d ++ packets (m_formatCtx d)
            /\ h_freed d'
               = h_freed d
                 ++ List.filter (canUsePacket (objects d stream))
                                (m_pendingDataForActiveStreams d)
                 ++ packets (m_formatCtx d)
            /\ m_pendingDataForActiveStreams d'
               = List.filter (fun q => negb (canUsePacket (objects d stream) q))
                             (m_pendingDataForActiveStreams d)
          else d' = d.
Proof.
  intros Hsel. split.
  - intros packet. apply distributePacket_unselected, Hsel.
  - destruct (m_eofReached d) eqn:He.
    + exists d. rewrite feedStream_unfold, He. simpl. auto 10.
    + destruct (needsMoreData (objects d stream)) eqn:Hn.
      * destruct (feedStream_unselected_run stream _ d Hsel He Hn (le_n _))
          as (d' & Hf & R1 & R2 & R3 & R4 & R5 & R6 & R7).
        exists d'. simpl negb. simpl andb. cbv iota. auto 12.
      * exists d. rewrite feedStream_unfold, He, Hn. simpl. auto 10.
Qed.

(** ** What the other calls leave alone *)

Lemma selectVideoStream_frame (stream : option ptr) d :
  let d' := snd (selectVideoStream stream d) in
  m_streams d' = m_streams d /\ m_duration d' = m_duration d
  /\ m_formatCtx d' = m_formatCtx d /\ m_eofReached d' = m_eofReached d
  /\ m_pendingDataForActiveStreams d' = m_pendingDataForActiveStreams d
  /\ h_read d' = h_read d /\ h_freed d' = h_freed d
  /\ h_pushed d' = h_pushed d.
Proof.
  unfold selectVideoStream, CHECK.
  destruct (bool_decide (getStatus (m_timer d) = Stopped)); simpl;
    [|repeat split].
  destruct (bool_decide (getStatus (m_timer d) = Playing)); simpl;
    destruct (bool_decide _); simpl;
    try destruct (m_connectedVideoStream d); destruct stream; simpl;
    repeat split.
Qed.

Lemma selectFirstVideoStream_frame d :
  let d' := snd (selectFirstVideoStream d) in
  m_streams d' = m_streams d /\ m_duration d' = m_duration d
  /\ m_formatCtx d' = m_formatCtx d /\ m_eofReached d' = m_eofReached d
  /\ m_pendingDataForActiveStreams d' = m_pendingDataForActiveStreams d
  /\ h_read d' = h_read d /\ h_freed d' = h_freed d
  /\ h_pushed d' = h_pushed d.
Proof.
  unfold selectFirstVideoStream.
  destruct (negb _); [apply selectVideoStream_frame | simpl; repeat split].
Qed.

(** ** Accounting for the packets *)

Lemma distributeOrDrop_accounted packet stream d :
  h_read d ≡ₚ packet :: (map snd (h_pushed d) ++ h_freed d
                          ++ m_pendingDataForActiveStreams d) ->
  let d' := distributeOrDrop packet stream d in
  h_read d' ≡ₚ map snd (h_pushed d') ++ h_freed d'
               ++ m_pendingDataForActiveStreams d'.
Proof.
  intros Hacc.
  destruct (distributeOrDrop_effect packet stream d)
    as ((_ & _ & _ & _ & _ & _ & _ & Hr & _)
        & [(t & _ & _ & _ & E1 & _ & E2 & E3)
          |[(t & _ & _ & _ & _ & E1 & _ & E2 & E3) | (_ & E1 & _ & E2 & E3)]]);
    cbv zeta; rewrite Hr, E1, E2, E3, Hacc; rewrite ?map_app; simpl;
    solve_Permutation.
Qed.

Lemma feedStream_body_accounted stream d :
  h_read d ≡ₚ map snd (h_pushed d) ++ h_freed d
              ++ m_pendingDataForActiveStreams d ->
  let d' := feedStream_body stream d in
  h_read d' ≡ₚ map snd (h_pushed d') ++ h_freed d'
               ++ m_pendingDataForActiveStreams d'.
Proof.
  intros Hacc.
  destruct (feedStream_body_cases stream d)
    as [(l1 & p & l2 & Hl & _ & _ & ->)
       |[(p & rest & _ & _ & ->) | (_ & _ & ->)]]; cbv zeta.
  - apply distributeOrDrop_accounted. simpl. rewrite Hacc, Hl.
    solve_Permutation.
  - apply distributeOrDrop_accounted. simpl. rewrite Hacc.
    solve_Permutation.
  - simpl. exact Hacc.
Qed.

Lemma call_accounted turns (c : Call Str) d d' :
  call' turns c d = Some d' ->
  h_read d ≡ₚ map snd (h_pushed d) ++ h_freed d
              ++ m_pendingDataForActiveStreams d ->
  h_read d' ≡ₚ map snd (h_pushed d') ++ h_freed d'
               ++ m_pendingDataForActiveStreams d'.
Proof.
  intros Hcall Hacc. destruct c; simpl in Hcall.
  - revert Hacc Hcall. unfold requestMoreData.
    apply (feedStream_invariant
             (fun x => h_read x ≡ₚ map snd (h_pushed x) ++ h_freed x
                                   ++ m_pendingDataForActiveStreams x)).
    intros x. apply feedStream_body_accounted.
  - injection Hcall as <-.
    destruct (willSeek_effect position d)
      as ((E1 & _ & E2 & E3) & _ & _ & _ & _ & _ & E4 & _).
    rewrite E1, E2, E3, E4, Hacc, app_nil_r. reflexivity.
  - injection Hcall as <-.
    destruct (selectVideoStream_frame stream d)
      as (_ & _ & _ & _ & E1 & E2 & E3 & E4).
    rewrite E1, E2, E3, E4. exact Hacc.
  - injection Hcall as <-.
    destruct (selectFirstVideoStream_frame d)
      as (_ & _ & _ & _ & E1 & E2 & E3 & E4).
    rewrite E1, E2, E3, E4. exact Hacc.
  - injection Hcall as <-. simpl. exact Hacc.
Qed.

Lemma calls_accounted turns (cs : list (Call Str)) : forall d d',
  calls' turns cs d = Some d' ->
  h_read d ≡ₚ map snd (h_pushed d) ++ h_freed d
              ++ m_pendingDataForActiveStreams d ->
  h_read d' ≡ₚ map snd (h_pushed d') ++ h_freed d'
               ++ m_pendingDataForActiveStreams d'.
Proof.
  induction cs as [|c cs IH]; intros d d' Hrun Hacc; simpl in Hrun.
  - injection Hrun as <-. exact Hacc.
  - destruct (call' turns c d) as [d1|] eqn:Hc; [|discriminate].
    apply (IH d1 d' Hrun). apply (call_accounted turns c d d1 Hc Hacc).
Qed.

(** No call changes the duration or the membership of the stream table. *)
Lemma call_frame turns (c : Call Str) d d' :
  call' turns c d = Some d' ->
  m_duration d' = m_duration d /\ m_streams d' = m_streams d.
Proof.
  intros Hcall. destruct c; simpl in Hcall.
  - revert Hcall. unfold requestMoreData.
    apply (feedStream_invariant
             (fun x => m_duration x = m_duration d /\ m_streams x = m_streams d));
      [|auto].
    intros x [E1 E2].
    destruct (feedStream_body_frame starvingStream x)
      as (F1 & _ & _ & _ & F2 & _).
    rewrite F1, F2. auto.
  - injection Hcall as <-.
    destruct (willSeek_effect position d) as (_ & E1 & _ & E2 & _). auto.
  - injection Hcall as <-.
    destruct (selectVideoStream_frame stream d) as (E1 & E2 & _). auto.
  - injection Hcall as <-.
    destruct (selectFirstVideoStream_frame d) as (E1 & E2 & _). auto.
  - injection Hcall as <-. auto.
Qed.

Lemma calls_frame turns (cs : list (Call Str)) : forall d d',
  calls' turns cs d = Some d' ->
  m_duration d' = m_duration d /\ m_streams d' = m_streams d.
Proof.
  induction cs as [|c cs IH]; intros d d' Hrun; simpl in Hrun.
  - injection Hrun as <-. auto.
  - destruct (call' turns c d) as [d1|] eqn:Hc; [|discriminate].
    destruct (IH d1 d' Hrun) as [E1 E2].
    destruct (call_frame turns c d d1 Hc) as [F1 F2].
    rewrite E1, E2. auto.
Qed.

(** ** Construction *)

Lemma extractDurationFromStream_frame (ffstream : AVStream) d :
  let d' := extractDurationFromStream ffstream d in
  m_formatCtx d' = m_formatCtx d /\ m_streams d' = m_streams d
  /\ m_ignoredStreams d' = m_ignoredStreams d
  /\ m_pendingDataForActiveStreams d' = m_pendingDataForActiveStreams d
  /\ h_read d' = h_read d /\ h_freed d' = h_freed d
  /\ h_pushed d' = h_pushed d /\ h_log d' = h_log d.
Proof.
  unfold extractDurationFromStream.
  destruct (negb (m_duration d =? Time_Zero)); [repeat split|].
  destruct (negb (st_duration ffstream =? AV_NOPTS_VALUE)); repeat split.
Qed.

Lemma discoverStream_frame (ffstream : AVStream) d :
  let d' := discoverStream_state new_VideoStream ffstream d in
  m_formatCtx d' = m_formatCtx d
  /\ m_pendingDataForActiveStreams d' = m_pendingDataForActiveStreams d
  /\ h_read d' = h_read d /\ h_freed d' = h_freed d
  /\ h_pushed d' = h_pushed d.
Proof.
  unfold discoverStream_state.
  destruct (codec_type ffstream); try (simpl; repeat split; fail).
  destruct (new_VideoStream (m_formatCtx d) ffstream) as [what|[a o]];
    [simpl; repeat split|].
  simpl. destruct (m_duration d =? Time_Zero); [|simpl; repeat split].
  match goal with |- context [extractDurationFromStream ffstream ?x] =>
    destruct (extractDurationFromStream_frame ffstream x)
      as (E1 & _ & _ & E2 & E3 & E4 & E5 & _) end.
  simpl in *. rewrite E1, E2, E3, E4, E5. repeat split.
Qed.

Lemma discoverStreams_frame (l : list AVStream) : forall d,
  let d' := discoverStreams_state new_VideoStream l d in
  m_formatCtx d' = m_formatCtx d
  /\ m_pendingDataForActiveStreams d' = m_pendingDataForActiveStreams d
  /\ h_read d' = h_read d /\ h_freed d' = h_freed d
  /\ h_pushed d' = h_pushed d.
Proof.
  induction l as [|st l IH]; intros d; simpl; [repeat split|].
  destruct (IH (discoverStream_state new_VideoStream st d)) as (E1 & E2 & E3 & E4 & E5).
  destruct (discoverStream_frame st d) as (F1 & F2 & F3 & F4 & F5).
  unfold discoverStreams_state in *. simpl.
  rewrite E1, E2, E3, E4, E5. auto.
Qed.

(** Only the unknown media type has no name. *)
Lemma av_get_media_type_string_None (t : AVMediaType) :
  av_get_media_type_string t = None <-> t = AVMEDIA_TYPE_UNKNOWN.
Proof.
  destruct t; simpl; split; intros E; try discriminate; reflexivity.
Qed.

(** The body of the loop throws exactly on a stream whose media type has no
    name, and leaves [discoverStream_state] otherwise. *)
Lemma discoverStream_outcome (ffstream : AVStream) d :
  discoverStream new_VideoStream ffstream d =
  match av_get_media_type_string (codec_type ffstream) with
  | Some _ => Returns (discoverStream_state new_VideoStream ffstream d)
  | None => Throws "basic_string: construction from null is not valid"
  end.
Proof.
  unfold discoverStream, discoverStream_state, describeStream, streamName.
  destruct (codec_type ffstream); simpl; try reflexivity.
  destruct (new_VideoStream (m_formatCtx d) ffstream) as [what|[a o]];
    reflexivity.
Qed.

Lemma discoverStreams_outcome (l : list AVStream) : forall d d',
  discoverStreams new_VideoStream l d = Returns d' <->
  Forall (fun ffstream => codec_type ffstream <> AVMEDIA_TYPE_UNKNOWN) l
  /\ d' = discoverStreams_state new_VideoStream l d.
Proof.
  induction l as [|st l IH]; intros d d'; simpl.
  - split.
    + intros [= <-]. split; [constructor | reflexivity].
    + intros [_ ->]. reflexivity.
  - rewrite discoverStream_outcome.
    destruct (av_get_media_type_string (codec_type st)) as [name|] eqn:E;
      simpl.
    + rewrite IH. split.
      * intros [Hl ->]. split; [|reflexivity].
        constructor; [|exact Hl].
        intros U. apply av_get_media_type_string_None in U. congruence.
      * intros [Hl ->]. split; [|reflexivity].
        apply Forall_cons in Hl as [_ Hl]. exact Hl.
    + split; [discriminate|].
      intros [Hl _]. apply Forall_cons in Hl as [Hst _].
      apply av_get_media_type_string_None in E. contradiction.
Qed.

Lemma Demuxer_discover_outcome (t : Timer) (ctx : AVFormatContext)
    (store : ptr -> Str) d :
  Demuxer_discover new_VideoStream t ctx store = Returns d <->
  Forall (fun ffstream => codec_type ffstream <> AVMEDIA_TYPE_UNKNOWN)
         (streams ctx)
  /\ d = Demuxer_discover_state new_VideoStream t ctx store.
Proof.
  unfold Demuxer_discover, Demuxer_discover_state. cbv zeta.
  match goal with |- context [discoverStreams new_VideoStream ?l ?x] =>
    pose proof (discoverStreams_outcome l x) as O;
    destruct (discoverStreams new_VideoStream l x) as [d2|what] eqn:E
  end; simpl.
  - destruct (O d2) as [[Hl ->] _]; [reflexivity|].
    split.
    + intros [= <-]. split; [exact Hl | reflexivity].
    + intros [_ ->]. reflexivity.
  - split; [discriminate|].
    intros [Hl _].
    match type of E with discoverStreams _ ?l ?x = _ =>
      destruct (O (discoverStreams_state new_VideoStream l x)) as [_ O'] end.
    specialize (O' (conj Hl eq_refl)). discriminate.
Qed.

(** The constructor returns exactly when its arguments are valid, the
    container opens and can be probed, and the media type of each of its
    streams has a name; the object is then the one that
    [Demuxer_discover_state] gives on the probed context. *)
Lemma Demuxer_new_returns (sourceFile : string) (timer : option Timer)
    (store : ptr -> Str) d :
  Demuxer_new' sourceFile timer store = Returns d <->
  exists t ctx0 ctx,
    sourceFile <> "" /\ timer = Some t
    /\ avformat_open_input sourceFile = (0, Some ctx0)
    /\ avformat_find_stream_info ctx0 = (0, ctx)
    /\ Forall (fun ffstream => codec_type ffstream <> AVMEDIA_TYPE_UNKNOWN)
              (streams ctx)
    /\ d = Demuxer_discover_state new_VideoStream t ctx store.
Proof.
  unfold Demuxer_new, CHECK0, CHECK, Outcome_bind. split.
  - destruct sourceFile as [|c src]; simpl; [discriminate|].
    destruct timer as [t|]; simpl; [|discriminate].
    destruct (avformat_open_input (String c src)) as [err [ctx0|]] eqn:Ho;
      destruct (err =? 0) eqn:He; simpl; try discriminate.
    destruct (avformat_find_stream_info ctx0) as [err' ctx] eqn:Hp.
    destruct (err' =? 0) eqn:He'; [|discriminate].
    intros Hd. apply Demuxer_discover_outcome in Hd as [Hl ->].
    apply Z.eqb_eq in He, He'. subst.
    exists t, ctx0, ctx. repeat split; auto.
  - intros (t & ctx0 & ctx & Hs & -> & -> & Hp & Hl & ->).
    destruct sourceFile as [|c src]; [contradiction|]. simpl.
    rewrite Hp. simpl. apply Demuxer_discover_outcome. auto.
Qed.

Lemma Demuxer_discover_fresh (t : Timer) (ctx : AVFormatContext)
    (store : ptr -> Str) :
  let d := Demuxer_discover_state new_VideoStream t ctx store in
  m_formatCtx d = ctx /\ m_pendingDataForActiveStreams d = []
  /\ h_read d = [] /\ h_freed d = [] /\ h_pushed d = [].
Proof.
  unfold Demuxer_discover_state. cbv zeta.
  match goal with |- context [discoverStreams_state new_VideoStream ?l ?x] =>
    destruct (discoverStreams_frame l x) as (E1 & E2 & E3 & E4 & E5);
    set (d2 := discoverStreams_state new_VideoStream l x) in *
  end.
  assert (G : m_formatCtx d2 = ctx /\ m_pendingDataForActiveStreams d2 = []
              /\ h_read d2 = [] /\ h_freed d2 = [] /\ h_pushed d2 = []).
  { rewrite E1, E2, E3, E4, E5.
    destruct (negb (duration ctx =? AV_NOPTS_VALUE)); simpl; repeat split. }
  clearbody d2. destruct (m_duration d2 =? Time_Zero); simpl; exact G.
Qed.

Lemma Demuxer_destroy_effect d :
  let d' := Demuxer_destroy d in
  m_pendingDataForActiveStreams d' = []
  /\ h_freed d' = h_freed d ++ m_pendingDataForActiveStreams d
  /\ h_read d' = h_read d /\ h_pushed d' = h_pushed d
  /\ m_duration d' = m_duration d.
Proof.
  unfold Demuxer_destroy. cbv zeta.
  rewrite flushBuffers_freed. unfold flushBuffers. simpl.
  match goal with |- context [fold_left _ ?l ?x] =>
    pose proof (free_all_fields l x) as F end.
  simpl in F.
  destruct F as (_ & _ & _ & _ & _ & _ & _ & _ & F1 & _ & F2 & F3 & _).
  rewrite F1, F2, F3.
  destruct (bool_decide (getStatus (m_timer d) = Stopped)); simpl;
    repeat split.
Qed.

Lemma pushed_once (l : list (ptr * AVPacket)) (t1 t2 : ptr) (p : AVPacket) :
  NoDup (map snd l) -> (t1, p) ∈ l -> (t2, p) ∈ l -> t1 = t2.
Proof.
  induction l as [|[t q] l IH]; simpl; intros Hnd H1 H2.
  - inversion H1.
  - apply NoDup_cons in Hnd as [Hq Hnd].
    apply elem_of_cons in H1 as [H1|H1]; apply elem_of_cons in H2 as [H2|H2].
    + congruence.
    + injection H1 as -> ->. exfalso. apply Hq.
      change q with (snd (t2, q)). apply list_elem_of_fmap_2. exact H2.
    + injection H2 as -> ->. exfalso. apply Hq.
      change q with (snd (t1, q)). apply list_elem_of_fmap_2. exact H1.
    + apply IH; assumption.
Qed.

(** C3: a packet that is distributed is pushed to one stream, or queued, or
    freed, and only one of the three.  Over the life of a demuxer
    (construction, any calls, destruction) the packets read from the
    container are, counted with multiplicity, the packets pushed to a
    stream, the packets freed and the packets still queued; destruction
    frees what is queued, so that in the end the packets read are the
    packets pushed together with the packets freed.
    When the packets read are pairwise distinct, each of them was in the end
    either freed and pushed to no stream, or pushed to one single stream and
    not freed. *)
Theorem every_packet_delivered_or_freed (sourceFile : string)
    (timer : option Timer) (store : ptr -> Str) turns (cs : list (Call Str))
    d d' :
  Demuxer_new' sourceFile timer store = Returns d ->
  calls' turns cs d = Some d' ->
  let final := Demuxer_destroy d' in
  (forall packet stream x,
     let x' := distributeOrDrop packet stream x in
     (exists target,
        h_pushed x' = h_pushed x ++ [(target, packet)]
        /\ m_pendingDataForActiveStreams x' = m_pendingDataForActiveStreams x
        /\ h_freed x' = h_freed x)
     \/ (h_pushed x' = h_pushed x
         /\ m_pendingDataForActiveStreams x'
            = m_pendingDataForActiveStreams x ++ [packet]
         /\ h_freed x' = h_freed x)
     \/ (h_pushed x' = h_pushed x
         /\ m_pendingDataForActiveStreams x' = m_pendingDataForActiveStreams x
         /\ h_freed x' = h_freed x ++ [packet]))
  /\ h_read d' ≡ₚ map snd (h_pushed d') ++ h_freed d'
                  ++ m_pendingDataForActiveStreams d'
  /\ h_read final = h_read d'
  /\ m_pendingDataForActiveStreams final = []
  /\ h_read final ≡ₚ map snd (h_pushed final) ++ h_freed final
  /\ (NoDup (h_read final) ->
      forall packet, packet ∈ h_read final ->
        (packet ∈ h_freed final
         /\ forall t, (t, packet) ∉ h_pushed final)
        \/ ((packet ∉ h_freed final)
            /\ exists t, (t, packet) ∈ h_pushed final
                 /\ forall t', (t', packet) ∈ h_pushed final -> t' = t)).
Proof.
  intros Hnew Hrun final.
  apply Demuxer_new_returns in Hnew as (tm & ctx0 & ctx & _ & _ & _ & _ & _ & ->).
  destruct (Demuxer_discover_fresh tm ctx store) as (_ & I1 & I2 & I3 & I4).
  assert (Hacc : h_read d' ≡ₚ map snd (h_pushed d') ++ h_freed d'
                              ++ m_pendingDataForActiveStreams d').
  { apply (calls_accounted turns cs _ d' Hrun).
    rewrite I1, I2, I3, I4. reflexivity. }
  destruct (Demuxer_destroy_effect d') as (E1 & E2 & E3 & E4 & _).
  fold final in E1, E2, E3, E4.
  assert (Hfin : h_read final ≡ₚ map snd (h_pushed final) ++ h_freed final).
  { rewrite E2, E3, E4. exact Hacc. }
  split.
  { intros packet stream x.
    destruct (distributeOrDrop_effect packet stream x)
      as (_ & [(t & _ & _ & _ & P1 & _ & P2 & P3)
              |[(t & _ & _ & _ & _ & P1 & _ & P2 & P3) | (_ & P1 & _ & P2 & P3)]]);
      cbv zeta; eauto 10. }
  split; [exact Hacc|]. split; [exact E3|]. split; [exact E1|].
  split; [exact Hfin|].
  intros Hnd packet Hin.
  rewrite Hfin in Hnd. rewrite Hfin in Hin.
  apply NoDup_app in Hnd as (Hnd1 & Hdisj & Hnd2).
  apply elem_of_app in Hin as [Hin|Hin].
  - right. split; [apply Hdisj, Hin|].
    apply list_elem_of_fmap in Hin as ([t q] & -> & Hin). simpl.
    exists t. split; [exact Hin|].
    intros t' Hin'. apply (pushed_once _ _ _ _ Hnd1 Hin' Hin).
  - left. split; [exact Hin|].
    intros t Ht. apply (Hdisj packet); [|exact Hin].
    change packet with (snd (t, packet)). apply list_elem_of_fmap_2. exact Ht.
Qed.

(** ** Selection *)

(** C6: while the timer is Playing or Paused, [selectVideoStream] throws and
    leaves the whole object as it was: the selected stream is the same and
    no stream is connected or disconnected.  While the timer is Stopped the
    call returns with the given stream selected; when that stream differs
    from the one selected before, the old one (if any) is disconnected and
    then the new one (if any) is connected. *)
Theorem selectVideoStream_only_when_stopped (stream : option ptr) d :
  (getStatus (m_timer d) = Playing \/ getStatus (m_timer d) = Paused ->
   exists what, selectVideoStream stream d = (Throws what, d))
  /\ (getStatus (m_timer d) = Stopped ->
      exists d',
        selectVideoStream stream d = (Returns tt, d')
        /\ m_connectedVideoStream d' = stream
        /\ m_timer d' = m_timer d
        /\ (stream = m_connectedVideoStream d -> d' = d)
        /\ (stream <> m_connectedVideoStream d ->
            let released :=
              match m_connectedVideoStream d with
              | Some old => store_set old (disconnect (objects d old)) (objects d)
              | None => objects d
              end in
            h_conn d'
            = h_conn d
              ++ match m_connectedVideoStream d with
                 | Some old => [EvDisconnect old]
                 | None => []
                 end
              ++ match stream with
                 | Some new => [EvConnect new]
                 | None => []
                 end
            /\ objects d'
               = match stream with
                 | Some new => store_set new (connect (released new)) released
                 | None => released
                 end)).
Proof.
  split.
  - intros Hst. eexists. unfold selectVideoStream, CHECK.
    rewrite bool_decide_eq_false_2; [reflexivity|].
    destruct Hst as [-> | ->]; discriminate.
  - intros Hst. unfold selectVideoStream, CHECK. rewrite Hst. simpl.
    destruct (bool_decide (stream = m_connectedVideoStream d)) eqn:Heq.
    + apply bool_decide_eq_true in Heq. exists d.
      split; [reflexivity|]. split; [symmetry; exact Heq|].
      split; [reflexivity|]. split; [reflexivity|].
      intros Hne. contradiction.
    + apply bool_decide_eq_false in Heq. eexists. split; [reflexivity|].
      destruct (m_connectedVideoStream d) as [old|] eqn:Hold;
        destruct stream as [new|]; simpl;
        rewrite ?app_nil_r, <- ?app_assoc;
        (split; [reflexivity|]); (split; [reflexivity|]);
        (split; [intros E; contradiction|]); intros _; split; reflexivity.
Qed.

(** ** Stream discovery *)

(** What the loop body does for its own stream: a table entry, an ignored
    entry, or an error line and no entry. *)
Lemma discoverStream_own (ffstream : AVStream) d :
  let d' := discoverStream_state new_VideoStream ffstream d in
  match codec_type ffstream with
  | AVMEDIA_TYPE_VIDEO =>
      match new_VideoStream (m_formatCtx d) ffstream with
      | inr (address, object) =>
          m_streams d' = <[index ffstream := address]> (m_streams d)
          /\ m_ignoredStreams d' = m_ignoredStreams d
          /\ exists e, h_log d' = h_log d ++ [e]
      | inl what =>
          m_streams d' = m_streams d
          /\ m_ignoredStreams d' = m_ignoredStreams d
          /\ h_log d'
             = h_log d
               ++ [sfeLogError
                     (String.append "error while loading "
                        (String.append (String.append (streamName ffstream) "'")
                           (String.append " stream: " what)))]
      end
  | _ =>
      m_streams d' = m_streams d
      /\ m_ignoredStreams d'
         = <[index ffstream := streamName ffstream]> (m_ignoredStreams d)
      /\ exists e, h_log d' = h_log d ++ [e]
  end.
Proof.
  unfold discoverStream_state.
  destruct (codec_type ffstream); try (simpl; eauto; fail).
  destruct (new_VideoStream (m_formatCtx d) ffstream) as [what|[a o]];
    [simpl; auto|].
  simpl. destruct (m_duration d =? Time_Zero); [|simpl; eauto].
  match goal with |- context [extractDurationFromStream ffstream ?x] =>
    destruct (extractDurationFromStream_frame ffstream x)
      as (_ & E1 & E2 & _ & _ & _ & _ & E3) end.
  simpl in *. rewrite E1, E2, E3. eauto.
Qed.

Lemma discoverStream_other (ffstream : AVStream) d (k : Z) :
  k <> index ffstream ->
  let d' := discoverStream_state new_VideoStream ffstream d in
  m_streams d' !! k = m_streams d !! k
  /\ m_ignoredStreams d' !! k = m_ignoredStreams d !! k.
Proof.
  intros Hk. pose proof (discoverStream_own ffstream d) as O. cbv zeta in *.
  destruct (codec_type ffstream);
    try (destruct O as (-> & -> & _); rewrite lookup_insert_ne by auto;
         auto; fail).
  destruct (new_VideoStream (m_formatCtx d) ffstream) as [what|[a o]];
    destruct O as (-> & -> & _); rewrite ?lookup_insert_ne by auto; auto.
Qed.

Lemma discoverStream_log (ffstream : AVStream) d :
  exists e, h_log (discoverStream_state new_VideoStream ffstream d) = h_log d ++ [e].
Proof.
  pose proof (discoverStream_own ffstream d) as O. cbv zeta in *.
  destruct (codec_type ffstream); try (destruct O as (_ & _ & O); exact O).
  destruct (new_VideoStream (m_formatCtx d) ffstream) as [what|[a o]];
    destruct O as (_ & _ & O); eauto.
Qed.

Lemma discoverStreams_other (l : list AVStream) (k : Z) : forall d,
  k ∉ map index l ->
  let d' := discoverStreams_state new_VideoStream l d in
  m_streams d' !! k = m_streams d !! k
  /\ m_ignoredStreams d' !! k = m_ignoredStreams d !! k.
Proof.
  induction l as [|st l IH]; intros d Hk; simpl; [auto|].
  simpl in Hk. apply not_elem_of_cons in Hk as [Hk1 Hk2].
  destruct (IH (discoverStream_state new_VideoStream st d) Hk2) as [E1 E2].
  destruct (discoverStream_other st d k Hk1) as [F1 F2].
  unfold discoverStreams_state in *. simpl. rewrite E1, E2. auto.
Qed.

Lemma discoverStreams_log (l : list AVStream) : forall d e,
  e ∈ h_log d -> e ∈ h_log (discoverStreams_state new_VideoStream l d).
Proof.
  induction l as [|st l IH]; intros d e He; simpl; [exact He|].
  apply IH. destruct (discoverStream_log st d) as [e' ->].
  apply elem_of_app. left. exact He.
Qed.

Lemma discoverStreams_tables (l : list AVStream) : forall d,
  NoDup (map index l) ->
  (forall st, st ∈ l ->
     m_streams d !! index st = None /\ m_ignoredStreams d !! index st = None) ->
  forall st, st ∈ l ->
    discovered (m_formatCtx d) st (discoverStreams_state new_VideoStream l d).
Proof.
  induction l as [|st0 l IH]; intros d Hnd Hnone st Hin.
  - inversion Hin.
  - simpl in Hnd. apply NoDup_cons in Hnd as [Hfresh Hnd].
    change (discoverStreams_state new_VideoStream (st0 :: l) d)
      with (discoverStreams_state new_VideoStream l
              (discoverStream_state new_VideoStream st0 d)).
    set (d1 := discoverStream_state new_VideoStream st0 d).
    assert (Hctx : m_formatCtx d1 = m_formatCtx d)
      by apply discoverStream_frame.
    apply elem_of_cons in Hin as [-> | Hin].
    + destruct (discoverStreams_other l (index st0) d1 Hfresh) as [E1 E2].
      cbv zeta in E1, E2. rewrite E1, E2.
      pose proof (discoverStream_own st0 d) as O. cbv zeta in O. fold d1 in O.
      destruct (Hnone st0 (list_elem_of_here _ _)) as [N1 N2].
      destruct (codec_type st0);
        try (destruct O as (-> & -> & _); rewrite lookup_insert_eq; auto; fail).
      destruct (new_VideoStream (m_formatCtx d) st0) as [what|[a o]].
      * destruct O as (-> & -> & L). repeat split; auto.
        apply discoverStreams_log. rewrite L. apply elem_of_app. right.
        apply list_elem_of_here.
      * destruct O as (-> & -> & _). rewrite lookup_insert_eq. auto.
    + rewrite <- Hctx. apply IH; [exact Hnd| |exact Hin].
      intros st' Hin'.
      assert (Hne : index st' <> index st0).
      { intros E. apply Hfresh. rewrite <- E.
        apply list_elem_of_fmap_2. exact Hin'. }
      destruct (discoverStream_other st0 d (index st') Hne) as [E1 E2].
      fold d1 in E1, E2. rewrite E1, E2. apply Hnone. right. exact Hin'.
Qed.


(** ** The duration *)

Lemma discoverStream_duration (ffstream : AVStream) d :
  m_duration (discoverStream_state new_VideoStream ffstream d)
  = if (m_duration d =? Time_Zero) && durationSource (m_formatCtx d) ffstream
    then resolveDuration (st_duration ffstream)
    else m_duration d.
Proof.
  unfold discoverStream_state.
  destruct (codec_type ffstream); simpl; rewrite ?andb_false_r; try reflexivity.
  destruct (new_VideoStream (m_formatCtx d) ffstream) as [what|[a o]]; simpl;
    rewrite ?andb_false_r; try reflexivity.
  destruct (m_duration d =? Time_Zero) eqn:Hz; simpl; [|reflexivity].
  unfold extractDurationFromStream. simpl. rewrite Hz. simpl.
  apply Z.eqb_eq in Hz.
  destruct (st_duration ffstream =? AV_NOPTS_VALUE); simpl; [reflexivity|].
  destruct (resolveDuration (st_duration ffstream) =? Time_Zero) eqn:Hr; simpl;
    [|reflexivity].
  apply Z.eqb_eq in Hr. congruence.
Qed.

Lemma discoverStreams_duration (l : list AVStream) : forall d,
  m_duration (discoverStreams_state new_VideoStream l d)
  = if m_duration d =? Time_Zero then
      match List.find (durationSource (m_formatCtx d)) l with
      | Some ffstream => resolveDuration (st_duration ffstream)
      | None => Time_Zero
      end
    else m_duration d.
Proof.
  induction l as [|st l IH]; intros d.
  - simpl. destruct (m_duration d =? Time_Zero) eqn:Hz; [|reflexivity].
    apply Z.eqb_eq in Hz. exact Hz.
  - change (discoverStreams_state new_VideoStream (st :: l) d)
      with (discoverStreams_state new_VideoStream l
              (discoverStream_state new_VideoStream st d)).
    rewrite IH, discoverStream_duration.
    assert (Hctx : m_formatCtx (discoverStream_state new_VideoStream st d)
                   = m_formatCtx d) by apply discoverStream_frame.
    rewrite Hctx. simpl List.find.
    destruct (m_duration d =? Time_Zero) eqn:Hz; simpl andb.
    + destruct (durationSource (m_formatCtx d) st) eqn:Hs.
      * assert (Hr : (resolveDuration (st_duration st) =? Time_Zero) = false).
        { destruct (codec_type st); try discriminate.
          destruct (new_VideoStream (m_formatCtx d) st); try discriminate.
          apply andb_true_iff in Hs as [_ Hs].
          apply negb_true_iff in Hs. exact Hs. }
        rewrite Hr. reflexivity.
      * cbv iota. rewrite ?Hz. reflexivity.
    + cbv iota. rewrite ?Hz. reflexivity.
Qed.

(** A resolved duration is a value of [sf::Time]. *)
Lemma resolveDuration_Int64 (d : Z) :
  INT64_MIN <= resolveDuration d <= INT64_MAX.
Proof.
  unfold resolveDuration, sf_seconds, F32.to_Int64. cbv zeta.
  match goal with |- context [F32.fits_Int64 ?x] => generalize x end.
  intros y. destruct (F32.fits_Int64 y) eqn:F.
  - destruct y as [sg| | |sg m e]; simpl in F; try discriminate.
    + simpl. unfold INT64_MIN, INT64_MAX. lia.
    + apply andb_true_iff in F as [F1 F2].
      apply Z.leb_le in F1, F2. split; assumption.
  - unfold INT64_MIN, INT64_MAX. lia.
Qed.

(** C8 (amended): for durations that [sf::Time] can hold (the conversion of
    [sf::seconds] is defined for the duration of the container, when it has
    one, and for the duration of each video stream that has one),
    [getDuration] returns the duration resolved from the container when the
    container has one and it does not resolve to zero; otherwise the
    duration resolved from the first stream, in container order, that is a
    video stream whose object could be built and whose own duration is
    present and does not resolve to zero; and zero when there is no such
    stream.  No call on the demuxer changes the value, nor does its
    destruction. *)
Theorem duration_resolution (sourceFile : string) (timer : option Timer)
    (store : ptr -> Str) d :
  Demuxer_new' sourceFile timer store = Returns d ->
  let ctx := m_formatCtx d in
  (duration ctx <> AV_NOPTS_VALUE ->
   resolveDuration_defined (duration ctx) = true) ->
  Forall (fun ffstream =>
            codec_type ffstream = AVMEDIA_TYPE_VIDEO ->
            st_duration ffstream <> AV_NOPTS_VALUE ->
            resolveDuration_defined (st_duration ffstream) = true)
         (streams ctx) ->
  let container :=
    if duration ctx =? AV_NOPTS_VALUE then Time_Zero
    else resolveDuration (duration ctx) in
  INT64_MIN <= getDuration d <= INT64_MAX
  /\ getDuration d
     = (if container =? Time_Zero then
          match List.find (durationSource ctx) (streams ctx) with
          | Some ffstream => resolveDuration (st_duration ffstream)
          | None => Time_Zero
          end
        else container)
  /\ forall turns (cs : list (Call Str)) d',
       calls' turns cs d = Some d' ->
       getDuration d' = getDuration d
       /\ getDuration (Demuxer_destroy d') = getDuration d.
Proof.
  intros Hnew.
  apply Demuxer_new_returns in Hnew as (t & ctx0 & ctx & _ & _ & _ & _ & _ & ->).
  destruct (Demuxer_discover_fresh t ctx store) as (-> & _).
  cbv zeta. intros _ _.
  assert (Hvalue :
    getDuration (Demuxer_discover_state new_VideoStream t ctx store)
    = (if (if duration ctx =? AV_NOPTS_VALUE then Time_Zero
           else resolveDuration (duration ctx)) =? Time_Zero then
         match List.find (durationSource ctx) (streams ctx) with
         | Some ffstream => resolveDuration (st_duration ffstream)
         | None => Time_Zero
         end
       else if duration ctx =? AV_NOPTS_VALUE then Time_Zero
            else resolveDuration (duration ctx))).
  { unfold getDuration, Demuxer_discover_state. cbv zeta.
    match goal with |- context [discoverStreams_state new_VideoStream _ ?x] =>
      set (d1 := x) end.
    assert (Hd1 : m_formatCtx d1 = ctx
                  /\ m_duration d1
                     = if duration ctx =? AV_NOPTS_VALUE then Time_Zero
                       else resolveDuration (duration ctx)).
    { subst d1. destruct (duration ctx =? AV_NOPTS_VALUE); simpl; auto. }
    destruct Hd1 as [Hctx Hdur].
    pose proof (discoverStreams_duration (streams ctx) d1) as D.
    rewrite Hctx, Hdur in D.
    set (d2 := discoverStreams_state new_VideoStream (streams ctx) d1) in *.
    clearbody d2.
    destruct (m_duration d2 =? Time_Zero); simpl; exact D. }
  split; [|split].
  - rewrite Hvalue.
    assert (Hzero : INT64_MIN <= Time_Zero <= INT64_MAX)
      by (unfold INT64_MIN, INT64_MAX, Time_Zero; lia).
    destruct (duration ctx =? AV_NOPTS_VALUE); simpl.
    + destruct (List.find (durationSource ctx) (streams ctx));
        [apply resolveDuration_Int64 | exact Hzero].
    + destruct (resolveDuration (duration ctx) =? Time_Zero);
        [|apply resolveDuration_Int64].
      destruct (List.find (durationSource ctx) (streams ctx));
        [apply resolveDuration_Int64 | exact Hzero].
  - exact Hvalue.
  - intros turns cs d' Hrun.
    destruct (calls_frame turns cs _ d' Hrun) as [E _].
    destruct (Demuxer_destroy_effect d') as (_ & _ & _ & _ & E').
    unfold getDuration. rewrite E', E. auto.
Qed.

End Properties.

(** * The properties on the concrete movie *)

(** C1, instance: with the stream of identifier 0 selected and asking, the
    first packet of the movie (for stream 0) is pushed to it. *)
Lemma feed_dispatch_policy_witness :
  Forall (fun q => canUsePacket (objects Movie.playing0 2%positive) q = false)
         (m_pendingDataForActiveStreams Movie.playing0)
  /\ packets (m_formatCtx Movie.playing0)
     = Movie.p1 :: [Movie.p2; Movie.p3; Movie.p4]
  /\ m_streams Movie.playing0 !! stream_index Movie.p1 = Some 2%positive
  /\ h_read (feedStream_body 2%positive Movie.playing0) = [Movie.p1]
  /\ h_pushed (feedStream_body 2%positive Movie.playing0)
     = [(2%positive, Movie.p1)].
Proof.
  assert (H1 : Forall (fun q => canUsePacket (objects Movie.playing0 2%positive) q = false)
                      (m_pendingDataForActiveStreams Movie.playing0))
    by constructor.
  assert (H2 : packets (m_formatCtx Movie.playing0)
               = Movie.p1 :: [Movie.p2; Movie.p3; Movie.p4]) by reflexivity.
  assert (H3 : m_streams Movie.playing0 !! stream_index Movie.p1
               = Some 2%positive) by reflexivity.
  split; [exact H1|]. split; [exact H2|]. split; [exact H3|].
  destruct (feed_dispatch_policy Movie.seek_file Movie.p1
              [Movie.p2; Movie.p3; Movie.p4] 2%positive 2%positive
              Movie.playing0 H1 H2 H3) as [W1 W2].
  split; [exact W1|].
  vm_compute in W2. destruct W2 as (W2 & _). exact W2.
Defined.

(** C1, as stated, fails: a packet whose destination is in the stream table
    but is not the selected stream is not queued; the feed turn frees it.
    Here stream 0 is selected and asks, and the container yields a packet
    for stream 1. *)
Lemma queued_unless_delivered_counterexample :
  ~ (forall (packet : AVPacket) (rest : list AVPacket) (stream target : ptr)
            (d : Demuxer BufferedStream),
       Forall (fun q => canUsePacket (objects d stream) q = false)
              (m_pendingDataForActiveStreams d) ->
       packets (m_formatCtx d) = packet :: rest ->
       m_streams d !! stream_index packet = Some target ->
       m_connectedVideoStream d <> Some target ->
       let d' := feedStream_body stream d in
       packet ∈ m_pendingDataForActiveStreams d' /\ h_freed d' = h_freed d).
Proof.
  intros C.
  assert (H1 : Forall (fun q => canUsePacket
                                  (objects Movie.playing0_at_p3 2%positive) q
                                = false)
                      (m_pendingDataForActiveStreams Movie.playing0_at_p3))
    by constructor.
  destruct (C Movie.p3 [Movie.p4] 2%positive 1%positive Movie.playing0_at_p3
              H1 eq_refl eq_refl ltac:(discriminate)) as [_ Hfreed].
  vm_compute in Hfreed. discriminate.
Qed.

(** The termination theorem applies to the streams of the movie: stream 1
    (at address 1) can use the packets of index 1, and index 1 is its entry
    in the table. *)
Example Movie_feed_terminates :
  exists d', feedStream 9 1%positive Movie.playing0 = Some d'.
Proof.
  apply (feedStream_terminates 1%positive Movie.playing0).
  - reflexivity.
  - intros q Hq. simpl in Hq. apply Z.eqb_eq in Hq. rewrite Hq. reflexivity.
Qed.

(** C2, instance: stream 0 is selected and asks, with room for two packets.
    The loop takes four turns: it pushes the two packets of stream 0, frees
    the packet of the audio stream and the packet of stream 1, and stops
    because the stream needs no more data. *)
Lemma feedStream_contract_witness :
  exists d',
    feedStream 4 2%positive Movie.playing0 = Some d'
    /\ (m_eofReached d' = true \/ needsMoreData (objects d' 2%positive) = false)
    /\ h_pushed d' = [(2%positive, Movie.p1); (2%positive, Movie.p4)]
    /\ h_freed d' = [Movie.p2; Movie.p3].
Proof.
  destruct (feedStream_contract 4 2%positive Movie.playing0)
    as (_ & _ & W & _).
  eexists. split; [vm_compute; reflexivity|].
  split; [apply W; vm_compute; reflexivity|].
  split; reflexivity.
Defined.

(** C3, instance: the movie is opened, stream 0 is selected and fed, and the
    demuxer is destroyed.  The four packets read are the two pushed and the
    two freed. *)
Lemma every_packet_delivered_or_freed_witness :
  exists d',
    Demuxer_new Movie.open_input Movie.find_stream_info Movie.new_stream
      "movie.mkv" (Some Movie.timer) Movie.store = Returns Movie.demuxer
    /\ calls Movie.seek_file 4
         [CallSelectVideoStream (Some 2%positive);
          CallRequestMoreData 2%positive] Movie.demuxer = Some d'
    /\ h_read (Demuxer_destroy d')
       = [Movie.p1; Movie.p2; Movie.p3; Movie.p4]
    /\ h_pushed (Demuxer_destroy d')
       = [(2%positive, Movie.p1); (2%positive, Movie.p4)]
    /\ h_freed (Demuxer_destroy d') = [Movie.p2; Movie.p3]
    /\ h_read (Demuxer_destroy d')
       ≡ₚ map snd (h_pushed (Demuxer_destroy d')) ++ h_freed (Demuxer_destroy d').
Proof.
  eexists. split; [exact Movie_construction|].
  split; [vm_compute; reflexivity|].
  split; [reflexivity|]. split; [reflexivity|]. split; [reflexivity|].
  refine (proj1 (proj2 (proj2 (proj2 (proj2
            (every_packet_delivered_or_freed Movie.seek_file Movie.open_input
               Movie.find_stream_info Movie.new_stream
               "movie.mkv" (Some Movie.timer) Movie.store 4
               [CallSelectVideoStream (Some 2%positive);
                CallRequestMoreData 2%positive]
               Movie.demuxer _ Movie_construction _)))))).
  vm_compute. reflexivity.
Defined.

(** C5, instance: stream 0 is selected; stream 0 asks, then stream 1 asks.
    The packet of stream 1 is pushed to no stream. *)
Lemma unselected_never_delivered_witness :
  exists d',
    forallb (@feedOnly BufferedStream)
      [CallRequestMoreData 2%positive; CallRequestMoreData 1%positive] = true
    /\ calls Movie.seek_file 4
         [CallRequestMoreData 2%positive; CallRequestMoreData 1%positive]
         Movie.playing0 = Some d'
    /\ exists new,
         h_pushed d' = h_pushed Movie.playing0 ++ new
         /\ forall target, (target, Movie.p3) ∉ new.
Proof.
  eexists. split; [reflexivity|]. split; [vm_compute; reflexivity|].
  match goal with |- context [h_pushed ?x = _] =>
    destruct (unselected_never_delivered Movie.seek_file 4
                [CallRequestMoreData 2%positive; CallRequestMoreData 1%positive]
                Movie.playing0 x eq_refl)
      as (_ & _ & new & Hp & _ & Hno)
  end.
  - vm_compute. reflexivity.
  - exists new. split; [exact Hp|].
    apply Hno. vm_compute. discriminate.
Defined.

(** C6, instance: while the movie plays, selecting stream 1 throws and the
    demuxer is as before. *)
Lemma selectVideoStream_only_when_stopped_witness :
  getStatus (m_timer Movie.playing0_running) = Playing
  /\ exists what,
       selectVideoStream (Some 1%positive) Movie.playing0_running
       = (Throws what, Movie.playing0_running).
Proof.
  split; [reflexivity|].
  apply (proj1 (selectVideoStream_only_when_stopped (Some 1%positive)
                  Movie.playing0_running)).
  left. reflexivity.
Defined.



(** C8, instance: the movie has no container duration and its first video
    stream has none either; the five seconds of the second video stream are
    a duration that [sf::Time] can hold, the duration is those five
    seconds, and feeding and seeking do not change it. *)
Lemma duration_resolution_witness :
  Demuxer_new Movie.open_input Movie.find_stream_info Movie.new_stream
    "movie.mkv" (Some Movie.timer) Movie.store = Returns Movie.demuxer
  /\ duration (m_formatCtx Movie.demuxer) = AV_NOPTS_VALUE
  /\ map (fun ffstream => (st_duration ffstream,
                           resolveDuration_defined (st_duration ffstream)))
         (streams (m_formatCtx Movie.demuxer))
     = [(AV_NOPTS_VALUE, true); (5000000, true); (5000000, true);
        (5000000, true)]
  /\ getDuration Movie.demuxer = resolveDuration (st_duration Movie.v1)
  /\ getDuration Movie.demuxer = 5000000
  /\ forall turns (cs : list (Call BufferedStream)) d',
       calls Movie.seek_file turns cs Movie.demuxer = Some d' ->
       getDuration d' = getDuration Movie.demuxer
       /\ getDuration (Demuxer_destroy d') = getDuration Movie.demuxer.
Proof.
  assert (Hcontainer : duration (m_formatCtx Movie.demuxer) = AV_NOPTS_VALUE)
    by reflexivity.
  assert (Hstreams :
    Forall (fun ffstream =>
              codec_type ffstream = AVMEDIA_TYPE_VIDEO ->
              st_duration ffstream <> AV_NOPTS_VALUE ->
              resolveDuration_defined (st_duration ffstream) = true)
           (streams (m_formatCtx Movie.demuxer))).
  { repeat constructor; intros _ _; vm_compute; reflexivity. }
  split; [exact Movie_construction|].
  split; [exact Hcontainer|].
  split; [vm_compute; reflexivity|].
  destruct (duration_resolution Movie.seek_file Movie.open_input
              Movie.find_stream_info Movie.new_stream
              "movie.mkv" (Some Movie.timer) Movie.store Movie.demuxer
              Movie_construction
              (fun present => False_ind _ (present Hcontainer))
              Hstreams) as (_ & W1 & W2).
  split; [|split; [vm_compute; reflexivity | exact W2]].
  vm_compute in W1. vm_compute. exact W1.
Defined.

(** C8, as stated, fails: with no container duration, the duration is not
    always the one of the first video stream.  In the movie the first video
    stream has no duration, and the duration returned is not zero but the
    five seconds of the second video stream. *)
Lemma first_video_stream_duration_counterexample :
  ~ (forall (sourceFile : string) (timer : option Timer)
            (store : ptr -> BufferedStream) (d : Demuxer BufferedStream)
            (first : AVStream),
       Demuxer_new Movie.open_input Movie.find_stream_info Movie.new_stream
         sourceFile timer store = Returns d ->
       duration (m_formatCtx d) = AV_NOPTS_VALUE ->
       List.find (fun ffstream =>
                    match codec_type ffstream with
                    | AVMEDIA_TYPE_VIDEO => true
                    | _ => false
                    end) (streams (m_formatCtx d)) = Some first ->
       getDuration d
       = if st_duration first =? AV_NOPTS_VALUE then Time_Zero
         else resolveDuration (st_duration first)).
Proof.
  intros C.
  specialize (C "movie.mkv" (Some Movie.timer) Movie.store Movie.demuxer
                Movie.v0 Movie_construction eq_refl eq_refl).
  vm_compute in C. discriminate.
Qed.

(** C9: on the movie, whose stream 0 was discovered first and whose stream
    objects lie at addresses 2 (stream 0) and 1 (stream 1),
    [selectFirstVideoStream] selects the object at address 1, that is
    stream 1: the first element of the address-ordered set, not the
    first-discovered stream. *)
Theorem selectFirstVideoStream_takes_lowest_address :
  m_streams Movie.demuxer !! 0 = Some 2%positive
  /\ m_streams Movie.demuxer !! 1 = Some 1%positive
  /\ getStatus (m_timer Movie.demuxer) = Stopped
  /\ fst (selectFirstVideoStream Movie.demuxer) = Returns tt
  /\ m_connectedVideoStream (snd (selectFirstVideoStream Movie.demuxer))
     = m_streams Movie.demuxer !! 1
  /\ m_connectedVideoStream (snd (selectFirstVideoStream Movie.demuxer))
     <> m_streams Movie.demuxer !! 0.
Proof.
  repeat split; try reflexivity.
  vm_compute. discriminate.
Qed.

(** C10, instance: nothing is selected and stream 0 asks; the loop reads the
    four packets of the movie, frees them all, pushes none and ends at the
    end of the file. *)
Lemma feed_without_selection_witness :
  m_connectedVideoStream Movie.demuxer = None
  /\ exists d',
       feedStream 5 2%positive Movie.demuxer = Some d'
       /\ h_pushed d' = []
       /\ m_eofReached d' = true
       /\ h_read d' = [Movie.p1; Movie.p2; Movie.p3; Movie.p4]
       /\ h_freed d' = [Movie.p1; Movie.p2; Movie.p3; Movie.p4].
Proof.
  split; [reflexivity|].
  destruct (feed_without_selection 2%positive Movie.demuxer eq_refl)
    as (_ & d' & Hf & Hp & _ & _ & Hrun).
  exists d'. split; [exact Hf|]. split; [exact Hp|].
  simpl in Hrun. destruct Hrun as (He & _ & Hr & Hfr & _).
  split; [exact He|]. split; [exact Hr | exact Hfr].
Defined.

(** * Further properties of Demuxer.cpp *)

Section MoreProperties.
Context {Str : Type} `{StreamInterface Str}.
Variable avformat_seek_file :
  AVFormatContext -> Z -> Z -> Z -> Z -> Z -> Z * AVFormatContext.
Variable avformat_open_input : string -> Z * option AVFormatContext.
Variable avformat_find_stream_info : AVFormatContext -> Z * AVFormatContext.
Variable new_VideoStream : AVFormatContext -> AVStream -> string + (ptr * Str).
Variable getLanguage : Str -> string.

Abbreviation willSeek' := (willSeek avformat_seek_file).
Abbreviation call' := (call avformat_seek_file).
Abbreviation calls' := (calls avformat_seek_file).
Abbreviation Demuxer_new' :=
  (Demuxer_new avformat_open_input avformat_find_stream_info new_VideoStream).

Implicit Types (d : Demuxer Str) (stream target : ptr) (packet : AVPacket).

(** ** Streams of a kind, and the first of them *)

Lemma getStreamsOfType_elem (type : MediaType) d (p : ptr) :
  p ∈ getStreamsOfType type d <->
  exists k, m_streams d !! k = Some p /\ getStreamKind (objects d p) = type.
Proof.
  unfold getStreamsOfType.
  apply (map_fold_weak_ind
           (fun (r : gset ptr) (m : gmap Z ptr) =>
              p ∈ r <-> exists k, m !! k = Some p
                                  /\ getStreamKind (objects d p) = type)).
  - split; [set_solver|]. intros (k & Hk & _). rewrite lookup_empty in Hk.
    discriminate.
  - intros i x m r Hi IH.
    destruct (decide (getStreamKind (objects d x) = type)) as [Hx|Hx].
    + rewrite elem_of_union, elem_of_singleton, IH. split.
      * intros [-> | (k & Hk & Hkind)].
        -- exists i. rewrite lookup_insert_eq. auto.
        -- exists k. rewrite lookup_insert_ne; [auto|]. congruence.
      * intros (k & Hk & Hkind).
        destruct (decide (i = k)) as [->|Hne].
        -- rewrite lookup_insert_eq in Hk. left. congruence.
        -- rewrite lookup_insert_ne in Hk by exact Hne. right. eauto.
    + rewrite IH. split.
      * intros (k & Hk & Hkind). exists k.
        rewrite lookup_insert_ne; [auto|]. congruence.
      * intros (k & Hk & Hkind).
        destruct (decide (i = k)) as [->|Hne].
        -- rewrite lookup_insert_eq in Hk. congruence.
        -- rewrite lookup_insert_ne in Hk by exact Hne. eauto.
Qed.

Lemma foldr_min (l : list ptr) :
  match foldr (fun a acc => match acc with
                            | None => Some a
                            | Some b => Some (Pos.min a b)
                            end) None l with
  | None => l = []
  | Some m => m ∈ l /\ forall x, x ∈ l -> (m <= x)%positive
  end.
Proof.
  induction l as [|a l IH]; simpl; [reflexivity|].
  match type of IH with match ?t with _ => _ end => destruct t as [b|] end;
    cbv beta iota in IH.
  - destruct IH as [Hb Hmin]. split.
    + destruct (Pos.min_spec a b) as [[_ ->] | [_ ->]];
        [apply list_elem_of_here | apply list_elem_of_further, Hb].
    + intros x Hx. apply elem_of_cons in Hx as [-> | Hx].
      * apply Pos.le_min_l.
      * etransitivity; [apply Pos.le_min_r | apply Hmin, Hx].
  - subst l. split; [apply list_elem_of_here|].
    intros x Hx. apply list_elem_of_singleton in Hx as ->. reflexivity.
Qed.

Lemma set_begin_spec (X : gset ptr) :
  match set_begin X with
  | None => X = ∅
  | Some m => m ∈ X /\ forall x, x ∈ X -> (m <= x)%positive
  end.
Proof.
  unfold set_begin. pose proof (foldr_min (elements X)) as F.
  unfold ptr in *.
  match type of F with match ?t with _ => _ end => destruct t as [m|] end.
  - destruct F as [Hm Hmin]. split.
    + exact (proj1 (elem_of_elements X m) Hm).
    + intros x Hx. apply Hmin. exact (proj2 (elem_of_elements X x) Hx).
  - apply leibniz_equiv. exact (proj1 (elements_empty_iff X) F).
Qed.

Lemma selectVideoStream_stopped (stream : option ptr) d :
  getStatus (m_timer d) = Stopped ->
  fst (selectVideoStream stream d) = Returns tt
  /\ m_connectedVideoStream (snd (selectVideoStream stream d)) = stream
  /\ m_timer (snd (selectVideoStream stream d)) = m_timer d.
Proof.
  intros Hst. unfold selectVideoStream, CHECK. rewrite Hst. simpl.
  destruct (bool_decide (stream = m_connectedVideoStream d)) eqn:Heq.
  - apply bool_decide_eq_true in Heq. auto.
  - destruct (m_connectedVideoStream d); destruct stream; simpl; auto.
Qed.

Lemma selectVideoStream_not_stopped (stream : option ptr) d :
  getStatus (m_timer d) <> Stopped ->
  selectVideoStream stream d
  = (Throws "Changing the selected stream after starting the movie playback isn't supported yet", d).
Proof.
  intros Hst. unfold selectVideoStream, CHECK.
  rewrite bool_decide_eq_false_2 by exact Hst. reflexivity.
Qed.

(** X1: [getStreamsOfType] returns exactly the stream objects of the table
    that are of the given kind, each once however many identifiers lead to
    it: the set is empty exactly when the table has no stream of that kind,
    and it never has more elements than the table has entries. *)
Theorem getStreamsOfType_exact (type : MediaType) d :
  (forall p, p ∈ getStreamsOfType type d <->
             exists k, m_streams d !! k = Some p
                       /\ getStreamKind (objects d p) = type)
  /\ (getStreamsOfType type d = ∅ <->
      forall k p, m_streams d !! k = Some p ->
                  getStreamKind (objects d p) <> type)
  /\ (size (getStreamsOfType type d) <= size (m_streams d))%nat.
Proof.
  split; [intros p; apply getStreamsOfType_elem|]. split.
  - split.
    + intros Hempty k p Hk Hkind.
      assert (Hin : p ∈ getStreamsOfType type d)
        by (apply getStreamsOfType_elem; eauto).
      rewrite Hempty in Hin. set_solver.
    + intros Hnone. apply leibniz_equiv. apply elem_of_equiv_empty.
      intros p Hin. apply getStreamsOfType_elem in Hin as (k & Hk & Hkind).
      exact (Hnone k p Hk Hkind).
  - unfold getStreamsOfType.
    apply (map_fold_weak_ind
             (fun (r : gset ptr) (m : gmap Z ptr) => (size r <= size m)%nat)).
    + rewrite size_empty. lia.
    + intros i x m r Hi IH. rewrite (map_size_insert_None _ _ _ Hi).
      destruct (decide (getStreamKind (objects d x) = type)); [|lia].
      rewrite size_union_alt, size_singleton.
      assert (size (r ∖ {[x]}) <= size r)%nat
        by (apply subseteq_size, subseteq_difference_l; reflexivity).
      lia.
Qed.

(** X2: [selectFirstVideoStream] does nothing when the table has no video
    stream, whatever the timer says; with a video stream in the table it
    throws and changes nothing unless the timer is Stopped, and when the
    timer is Stopped it selects the video stream of the table whose object
    lies at the lowest address. *)
Theorem selectFirstVideoStream_spec d :
  let videoStreams := getStreamsOfType Video d in
  (videoStreams = ∅ -> selectFirstVideoStream d = (Returns tt, d))
  /\ (videoStreams <> ∅ -> getStatus (m_timer d) <> Stopped ->
      exists what, selectFirstVideoStream d = (Throws what, d))
  /\ (videoStreams <> ∅ -> getStatus (m_timer d) = Stopped ->
      exists k a,
        m_streams d !! k = Some a
        /\ getStreamKind (objects d a) = Video
        /\ (forall k' b, m_streams d !! k' = Some b ->
                         getStreamKind (objects d b) = Video ->
                         (a <= b)%positive)
        /\ fst (selectFirstVideoStream d) = Returns tt
        /\ m_connectedVideoStream (snd (selectFirstVideoStream d)) = Some a).
Proof.
  cbv zeta. unfold selectFirstVideoStream.
  split; [|split].
  - intros ->. rewrite size_empty. reflexivity.
  - intros Hne Hst.
    assert (Hsz : size (getStreamsOfType Video d) <> 0%nat).
    { intros E. apply Hne, leibniz_equiv, size_empty_iff, E. }
    apply Nat.eqb_neq in Hsz. rewrite Hsz. simpl.
    eexists. apply selectVideoStream_not_stopped, Hst.
  - intros Hne Hst.
    assert (Hsz : size (getStreamsOfType Video d) <> 0%nat).
    { intros E. apply Hne, leibniz_equiv, size_empty_iff, E. }
    apply Nat.eqb_neq in Hsz. rewrite Hsz. simpl.
    pose proof (set_begin_spec (getStreamsOfType Video d)) as B.
    destruct (set_begin (getStreamsOfType Video d)) as [a|];
      [|contradiction].
    destruct B as [Ha Hmin].
    apply getStreamsOfType_elem in Ha as (k & Hk & Hkind).
    destruct (selectVideoStream_stopped (Some a) d Hst) as (S1 & S2 & _).
    exists k, a. repeat split; auto.
    intros k' b Hb Hbk. apply Hmin, getStreamsOfType_elem. eauto.
Qed.

(** ** Stream descriptors *)

#[local] Instance key_le_trans : Transitive key_le.
Proof. intros x y z. unfold key_le. lia. Qed.

#[local] Instance key_le_total : Total key_le.
Proof. intros x y. unfold key_le. lia. Qed.

Lemma map_entries_elem (m : gmap Z ptr) (k : Z) (p : ptr) :
  (k, p) ∈ map_entries m <-> m !! k = Some p.
Proof.
  unfold map_entries. rewrite merge_sort_Permutation.
  apply elem_of_map_to_list.
Qed.

Lemma strictly_sorted_keys (l : list (Z * ptr)) :
  StronglySorted key_le l -> NoDup (map fst l) ->
  StronglySorted (fun x y => fst x < fst y) l.
Proof.
  induction 1 as [|x l Hs IH Hall]; intros Hnd; constructor.
  - apply IH. simpl in Hnd. apply NoDup_cons in Hnd. tauto.
  - simpl in Hnd. apply NoDup_cons in Hnd as [Hx _].
    apply Forall_forall. intros y Hy.
    assert (Hle : fst x <= fst y).
    { rewrite Forall_forall in Hall. apply (Hall y Hy). }
    assert (Hne : fst x <> fst y).
    { intros E. apply Hx. rewrite E. apply list_elem_of_fmap_2. exact Hy. }
    lia.
Qed.

Lemma map_entries_sorted (m : gmap Z ptr) :
  StronglySorted (fun x y => fst x < fst y) (map_entries m).
Proof.
  apply strictly_sorted_keys.
  - unfold map_entries. apply StronglySorted_merge_sort; apply _.
  - unfold map_entries.
    assert (E : map fst (merge_sort key_le (map_to_list m))
                ≡ₚ map fst (map_to_list m))
      by (apply fmap_Permutation, merge_sort_Permutation).
    rewrite E. apply NoDup_fst_map_to_list.
Qed.

(** The loop of [computeStreamDescriptors] appends, for each entry of the
    table in turn, one descriptor or none. *)
Lemma descriptors_fold (type0 : MediaType) d (l : list (Z * ptr))
    (acc : list StreamDescriptor) :
  fold_left
    (fun entries (pair : Z * ptr) =>
       if decide (getStreamKind (objects d (snd pair)) = type0)
       then entries
            ++ [{| type := type0; identifier := fst pair;
                   language := getLanguage (objects d (snd pair)) |}]
       else entries) l acc
  = acc ++ flat_map
             (fun pair : Z * ptr =>
                if decide (getStreamKind (objects d (snd pair)) = type0)
                then [{| type := type0; identifier := fst pair;
                         language := getLanguage (objects d (snd pair)) |}]
                else []) l.
Proof.
  revert acc. induction l as [|x l IH]; intros acc; simpl.
  - rewrite app_nil_r. reflexivity.
  - rewrite IH.
    destruct (decide (getStreamKind (objects d (snd x)) = type0)); simpl.
    + rewrite <- app_assoc. reflexivity.
    + reflexivity.
Qed.

Lemma descriptors_elem (type0 : MediaType) d (l : list (Z * ptr))
    (e : StreamDescriptor) :
  e ∈ flat_map
        (fun pair : Z * ptr =>
           if decide (getStreamKind (objects d (snd pair)) = type0)
           then [{| type := type0; identifier := fst pair;
                    language := getLanguage (objects d (snd pair)) |}]
           else []) l
  <-> exists k p, (k, p) ∈ l /\ getStreamKind (objects d p) = type0
                  /\ e = {| type := type0; identifier := k;
                            language := getLanguage (objects d p) |}.
Proof.
  induction l as [|[k0 p0] l IH]; simpl.
  - split; [intros Hin; inversion Hin|].
    intros (k & p & Hin & _). inversion Hin.
  - rewrite elem_of_app, IH. split.
    + intros [Hin | (k & p & Hin & Hk & He)].
      * destruct (decide (getStreamKind (objects d p0) = type0)) as [Hk|];
          [|inversion Hin].
        apply list_elem_of_singleton in Hin. exists k0, p0.
        repeat split; auto. apply list_elem_of_here.
      * exists k, p. repeat split; auto. apply list_elem_of_further, Hin.
    + intros (k & p & Hin & Hk & He).
      apply elem_of_cons in Hin as [[= -> ->] | Hin].
      * left. rewrite decide_True by exact Hk.
        apply list_elem_of_singleton. exact He.
      * right. eauto.
Qed.

(** X3: [computeStreamDescriptors] lists the streams of the given kind by
    strictly ascending identifier, so that no identifier is listed twice.  A
    descriptor is listed exactly when its identifier is a key of the stream
    table whose stream is of that kind, and it then carries the kind asked
    for and the language of that stream. *)
Theorem computeStreamDescriptors_sorted (type0 : MediaType) d :
  let entries := computeStreamDescriptors getLanguage type0 d in
  StronglySorted Z.lt (map identifier entries)
  /\ forall e,
       e ∈ entries <->
       exists p, m_streams d !! identifier e = Some p
                 /\ getStreamKind (objects d p) = type0
                 /\ type e = type0
                 /\ language e = getLanguage (objects d p).
Proof.
  cbv zeta. unfold computeStreamDescriptors.
  rewrite descriptors_fold. simpl. split.
  - pose proof (map_entries_sorted (m_streams d)) as Hs.
    induction Hs as [|[k0 p0] l Hs IH Hall]; simpl; [constructor|].
    destruct (decide (getStreamKind (objects d p0) = type0)) as [Hk0|Hk0];
      simpl; [|exact IH].
    constructor; [exact IH|].
    apply Forall_forall. intros z Hz.
    apply list_elem_of_fmap in Hz as (e & -> & He).
    apply descriptors_elem in He as (k & p & Hin & _ & ->). simpl.
    rewrite Forall_forall in Hall. apply (Hall (k, p) Hin).
  - intros e. rewrite descriptors_elem. split.
    + intros (k & p & Hin & Hk & ->). simpl.
      exists p. repeat split; auto. apply map_entries_elem, Hin.
    + intros (p & Hp & Hk & Ht & Hl). exists (identifier e), p.
      repeat split; auto; [apply map_entries_elem, Hp|].
      destruct e as [t i la]. simpl in *. subst. reflexivity.
Qed.

(** ** The selection over the life of a demuxer *)

(** A property kept by every call is kept by a sequence of calls. *)
Lemma calls_invariant (P : Demuxer Str -> Prop) turns :
  (forall (c : Call Str) d d', call' turns c d = Some d' -> P d -> P d') ->
  forall (cs : list (Call Str)) d d',
    calls' turns cs d = Some d' -> P d -> P d'.
Proof.
  intros Hcall. induction cs as [|c cs IH]; intros d d' Hrun HP;
    simpl in Hrun.
  - injection Hrun as <-. exact HP.
  - destruct (call' turns c d) as [d1|] eqn:Hc; [|discriminate].
    apply (IH d1 d' Hrun). apply (Hcall c d d1 Hc HP).
Qed.

Lemma discoverStream_frame_selection (ffstream : AVStream) d :
  let d' := discoverStream_state new_VideoStream ffstream d in
  m_eofReached d' = m_eofReached d /\ m_timer d' = m_timer d
  /\ m_connectedVideoStream d' = m_connectedVideoStream d
  /\ h_conn d' = h_conn d.
Proof.
  unfold discoverStream_state.
  destruct (codec_type ffstream); try (simpl; repeat split; fail).
  destruct (new_VideoStream (m_formatCtx d) ffstream) as [what|[a o]];
    [simpl; repeat split|].
  simpl. destruct (m_duration d =? Time_Zero); [|simpl; repeat split].
  unfold extractDurationFromStream. simpl.
  destruct (negb (m_duration d =? Time_Zero)); [simpl; repeat split|].
  destruct (negb (st_duration ffstream =? AV_NOPTS_VALUE)); simpl;
    repeat split.
Qed.

Lemma discoverStreams_frame_selection (l : list AVStream) : forall d,
  let d' := discoverStreams_state new_VideoStream l d in
  m_eofReached d' = m_eofReached d /\ m_timer d' = m_timer d
  /\ m_connectedVideoStream d' = m_connectedVideoStream d
  /\ h_conn d' = h_conn d.
Proof.
  induction l as [|st l IH]; intros d; simpl; [repeat split|].
  destruct (IH (discoverStream_state new_VideoStream st d)) as (E1 & E2 & E3 & E4).
  destruct (discoverStream_frame_selection st d) as (F1 & F2 & F3 & F4).
  unfold discoverStreams_state in *. simpl.
  rewrite E1, E2, E3, E4. auto.
Qed.

Lemma Demuxer_discover_initial (t : Timer) (ctx : AVFormatContext)
    (store : ptr -> Str) :
  let d := Demuxer_discover_state new_VideoStream t ctx store in
  m_eofReached d = false /\ m_timer d = TimerOps.addObserver t
  /\ m_connectedVideoStream d = None /\ h_conn d = [].
Proof.
  unfold Demuxer_discover_state. cbv zeta.
  match goal with |- context [discoverStreams_state new_VideoStream ?l ?x] =>
    destruct (discoverStreams_frame_selection l x) as (E1 & E2 & E3 & E4);
    set (d2 := discoverStreams_state new_VideoStream l x) in *
  end.
  assert (G : m_eofReached d2 = false /\ m_timer d2 = t
              /\ m_connectedVideoStream d2 = None /\ h_conn d2 = []).
  { rewrite E1, E2, E3, E4.
    destruct (negb (duration ctx =? AV_NOPTS_VALUE)); simpl; repeat split. }
  clearbody d2. destruct G as (G1 & G2 & G3 & G4).
  destruct (m_duration d2 =? Time_Zero); simpl; rewrite G2; auto.
Qed.

Lemma replay_connections_app (h1 h2 : list ConnEvent) :
  replay_connections (h1 ++ h2)
  = fold_left
      (fun (state : option (option ptr)) (e : ConnEvent) =>
         match state, e with
         | Some None, EvConnect p => Some (Some p)
         | Some (Some q), EvDisconnect p =>
             if bool_decide (p = q) then Some None else None
         | _, _ => None
         end)
      h2 (replay_connections h1).
Proof. unfold replay_connections. apply fold_left_app. Qed.

Lemma selectVideoStream_replay (stream : option ptr) d :
  replay_connections (h_conn d) = Some (m_connectedVideoStream d) ->
  let d' := snd (selectVideoStream stream d) in
  replay_connections (h_conn d') = Some (m_connectedVideoStream d').
Proof.
  intros Hinv. unfold selectVideoStream, CHECK.
  destruct (bool_decide (getStatus (m_timer d) = Stopped)) eqn:Hst;
    [|exact Hinv].
  apply bool_decide_eq_true in Hst. rewrite Hst. simpl.
  destruct (bool_decide (stream = m_connectedVideoStream d)) eqn:Heq;
    [exact Hinv|].
  destruct (m_connectedVideoStream d) as [old|] eqn:Hold;
    destruct stream as [new|]; simpl;
    rewrite ?replay_connections_app, Hinv; simpl;
    rewrite ?bool_decide_eq_true_2 by reflexivity; reflexivity.
Qed.

Lemma feedStream_frame turns stream d d' :
  feedStream turns stream d = Some d' ->
  m_streams d' = m_streams d /\ m_ignoredStreams d' = m_ignoredStreams d
  /\ m_timer d' = m_timer d
  /\ m_connectedVideoStream d' = m_connectedVideoStream d
  /\ m_duration d' = m_duration d /\ h_conn d' = h_conn d.
Proof.
  apply (feedStream_invariant
           (fun x => m_streams x = m_streams d
                     /\ m_ignoredStreams x = m_ignoredStreams d
                     /\ m_timer x = m_timer d
                     /\ m_connectedVideoStream x = m_connectedVideoStream d
                     /\ m_duration x = m_duration d /\ h_conn x = h_conn d));
    [|repeat split].
  intros x (E1 & E2 & E3 & E4 & E5 & E6).
  destruct (feedStream_body_frame stream x) as (F1 & F2 & F3 & F4 & F5 & F6).
  rewrite F1, F2, F3, F4, F5, F6. auto 10.
Qed.

(** X4: from construction on, whatever is called, at most one stream is
    connected at a time: the connect and disconnect calls made so far never
    connect a stream while another is connected, never disconnect a stream
    that is not the connected one, and leave connected exactly the stream
    that [getSelectedVideoStream] returns (none when it returns null). *)
Theorem one_stream_connected (sourceFile : string) (timer : option Timer)
    (store : ptr -> Str) turns (cs : list (Call Str)) d d' :
  Demuxer_new' sourceFile timer store = Returns d ->
  calls' turns cs d = Some d' ->
  replay_connections (h_conn d') = Some (getSelectedVideoStream d').
Proof.
  intros Hnew Hrun.
  apply Demuxer_new_returns in Hnew as (tm & ctx0 & ctx & _ & _ & _ & _ & _ & ->).
  destruct (Demuxer_discover_initial tm ctx store) as (_ & _ & I1 & I2).
  unfold getSelectedVideoStream.
  refine (calls_invariant
            (fun x => replay_connections (h_conn x)
                      = Some (m_connectedVideoStream x)) turns _ cs _ d' Hrun _);
    [|rewrite I1, I2; reflexivity].
  intros c x x' Hc Hinv. destruct c; simpl in Hc.
  - destruct (feedStream_frame _ _ _ _ Hc) as (_ & _ & _ & E1 & _ & E2).
    rewrite E1, E2. exact Hinv.
  - injection Hc as <-.
    destruct (willSeek_effect avformat_seek_file position x)
      as (_ & _ & E1 & _ & _ & _ & _ & E2).
    rewrite E1, E2. exact Hinv.
  - injection Hc as <-. apply selectVideoStream_replay, Hinv.
  - injection Hc as <-. unfold selectFirstVideoStream.
    destruct (negb _); [apply selectVideoStream_replay, Hinv | exact Hinv].
  - injection Hc as <-. exact Hinv.
Qed.

(** X5: [selectVideoStream] is idempotent: called again with the same
    stream it has the same outcome and leaves the object as the first call
    left it; in particular no stream is disconnected or connected a second
    time. *)
Theorem selectVideoStream_idempotent (stream : option ptr) d :
  selectVideoStream stream (snd (selectVideoStream stream d))
  = selectVideoStream stream d.
Proof.
  destruct (decide (getStatus (m_timer d) = Stopped)) as [Hst|Hst].
  - destruct (selectVideoStream_stopped stream d Hst) as (S1 & S2 & S3).
    destruct (selectVideoStream stream d) as [o d1] eqn:E. simpl in *.
    subst o. unfold selectVideoStream, CHECK. rewrite S3, Hst. simpl.
    rewrite (bool_decide_eq_true_2 _ (eq_sym S2)). reflexivity.
  - rewrite (selectVideoStream_not_stopped stream d Hst). simpl.
    apply selectVideoStream_not_stopped, Hst.
Qed.

(** ** The read cursor and the end-of-file flag *)

(** What a feed turn does to the container and to the end-of-file flag. *)
Lemma feedStream_body_cursor stream d :
  let d' := feedStream_body stream d in
  let c := m_formatCtx d in
  let c' := m_formatCtx d' in
  (duration c' = duration c /\ start_time c' = start_time c
   /\ iformat_flags c' = iformat_flags c /\ streams c' = streams c)
  /\ ((packets c' = packets c /\ h_read d' = h_read d
       /\ (m_eofReached d' = m_eofReached d
           \/ (m_eofReached d' = true /\ packets c = [])))
      \/ (exists packet,
            packets c = packet :: packets c'
            /\ h_read d' = h_read d ++ [packet]
            /\ m_eofReached d' = m_eofReached d)).
Proof.
  destruct (feedStream_body_cases stream d)
    as [(l1 & p & l2 & _ & _ & _ & ->)
       |[(p & rest & _ & Hpk & ->) | (_ & Hpk & ->)]]; cbv zeta.
  - match goal with |- context [distributeOrDrop p stream ?x] =>
      destruct (distributeOrDrop_effect p stream x)
        as ((F1 & F2 & _ & _ & _ & _ & _ & F3 & _) & _) end.
    rewrite F1, F2, F3. simpl. split; [repeat split|]. left. auto.
  - match goal with |- context [distributeOrDrop p stream ?x] =>
      destruct (distributeOrDrop_effect p stream x)
        as ((F1 & F2 & _ & _ & _ & _ & _ & F3 & _) & _) end.
    rewrite F1, F2, F3. simpl. split; [repeat split|]. right.
    exists p. rewrite Hpk. auto.
  - simpl. split; [repeat split|]. left. auto.
Qed.

(** X6: a feed call reads the container strictly in order: the packets it
    reads are a front part of what the container still held, they are
    appended to the packets read so far in that order, and what the
    container holds afterwards is the rest.  Nothing else of the container
    is changed. *)
Theorem feedStream_reads_in_order turns stream d d' :
  feedStream turns stream d = Some d' ->
  exists taken,
    packets (m_formatCtx d) = taken ++ packets (m_formatCtx d')
    /\ h_read d' = h_read d ++ taken
    /\ duration (m_formatCtx d') = duration (m_formatCtx d)
    /\ start_time (m_formatCtx d') = start_time (m_formatCtx d)
    /\ iformat_flags (m_formatCtx d') = iformat_flags (m_formatCtx d)
    /\ streams (m_formatCtx d') = streams (m_formatCtx d).
Proof.
  apply (feedStream_invariant
           (fun x => exists taken,
              packets (m_formatCtx d) = taken ++ packets (m_formatCtx x)
              /\ h_read x = h_read d ++ taken
              /\ duration (m_formatCtx x) = duration (m_formatCtx d)
              /\ start_time (m_formatCtx x) = start_time (m_formatCtx d)
              /\ iformat_flags (m_formatCtx x) = iformat_flags (m_formatCtx d)
              /\ streams (m_formatCtx x) = streams (m_formatCtx d))).
  - intros x (taken & Hp & Hr & E1 & E2 & E3 & E4).
    destruct (feedStream_body_cursor stream x)
      as ((F1 & F2 & F3 & F4)
          & [(G1 & G2 & _) | (p & G1 & G2 & _)]);
      rewrite F1, F2, F3, F4, G2.
    + exists taken. rewrite G1. auto 10.
    + exists (taken ++ [p]). rewrite Hp, G1, Hr, <- !app_assoc. auto 10.
  - exists []. rewrite app_nil_r. auto 10.
Qed.

(** X7: from construction on, whatever is called, the end-of-file flag is
    true only while the container has no packet left to give (with
    [av_read_frame] failing exactly at the end of the container's packets,
    as modelled above): the flag is set only when a read returns no packet,
    nothing is read while it is set, and a seek, which may bring packets
    back, clears it. *)
Theorem end_of_file_means_exhausted (sourceFile : string)
    (timer : option Timer) (store : ptr -> Str) turns (cs : list (Call Str))
    d d' :
  Demuxer_new' sourceFile timer store = Returns d ->
  calls' turns cs d = Some d' ->
  didReachEndOfFile d' = true -> packets (m_formatCtx d') = [].
Proof.
  intros Hnew Hrun.
  apply Demuxer_new_returns in Hnew as (tm & ctx0 & ctx & _ & _ & _ & _ & _ & ->).
  destruct (Demuxer_discover_initial tm ctx store) as (I1 & _).
  unfold didReachEndOfFile.
  refine (calls_invariant
            (fun x => m_eofReached x = true -> packets (m_formatCtx x) = [])
            turns _ cs _ d' Hrun _);
    [|rewrite I1; discriminate].
  intros c x x' Hc Hinv. destruct c; simpl in Hc.
  - revert Hinv Hc. unfold requestMoreData.
    apply (feedStream_invariant
             (fun y => m_eofReached y = true -> packets (m_formatCtx y) = [])).
    intros y Hy.
    destruct (feedStream_body_cursor starvingStream y)
      as (_ & [(G1 & _ & [G3 | [_ G3]]) | (p & G1 & _ & G3)]).
    + rewrite G1, G3. exact Hy.
    + rewrite G1. intros _. exact G3.
    + rewrite G3. intros He. rewrite (Hy He) in G1. discriminate.
  - injection Hc as <-.
    destruct (willSeek_effect avformat_seek_file position x)
      as ((_ & E & _) & _).
    rewrite E. discriminate.
  - injection Hc as <-.
    destruct (selectVideoStream_frame stream x) as (_ & _ & E1 & E2 & _).
    rewrite E1, E2. exact Hinv.
  - injection Hc as <-.
    destruct (selectFirstVideoStream_frame x) as (_ & _ & E1 & E2 & _).
    rewrite E1, E2. exact Hinv.
  - injection Hc as <-. exact Hinv.
Qed.

(** X8: a feed call that has returned, made again at once for the same
    stream, changes nothing: it reads no packet and frees, queues and pushes
    none. *)
Theorem feedStream_repeat turns turns' stream d d' :
  feedStream turns stream d = Some d' ->
  feedStream turns' stream d' = Some d'.
Proof.
  intros Hf. apply feedStream_exit in Hf.
  rewrite feedStream_unfold.
  destruct Hf as [-> | ->]; [reflexivity|].
  rewrite andb_false_r. reflexivity.
Qed.

(** ** What feeding touches *)

Lemma distributeOrDrop_objects packet stream d (q : ptr) :
  m_connectedVideoStream d <> Some q ->
  objects (distributeOrDrop packet stream d) q = objects d q.
Proof.
  intros Hq.
  destruct (distributeOrDrop_effect packet stream d)
    as (_ & [(t & _ & Hsel & _ & _ & -> & _)
            |[(t & _ & _ & _ & _ & _ & -> & _) | (_ & _ & -> & _)]]);
    try reflexivity.
  unfold store_set. destruct (decide (q = t)) as [->|]; [|reflexivity].
  contradiction.
Qed.

(** X9: a feed call changes no stream object but the one of the selected
    stream, whoever asks; with no stream selected it changes none.  It
    leaves the stream table, the ignored-stream table, the selection, the
    timer, the duration and the connections as they were. *)
Theorem feedStream_touches_only_selected turns stream d d' :
  feedStream turns stream d = Some d' ->
  (forall q, getSelectedVideoStream d <> Some q -> objects d' q = objects d q)
  /\ getStreams d' = getStreams d
  /\ m_ignoredStreams d' = m_ignoredStreams d
  /\ getSelectedVideoStream d' = getSelectedVideoStream d
  /\ m_timer d' = m_timer d
  /\ getDuration d' = getDuration d
  /\ h_conn d' = h_conn d.
Proof.
  intros Hf. unfold getSelectedVideoStream, getStreams, getDuration.
  destruct (feedStream_frame _ _ _ _ Hf) as (E1 & E2 & E3 & E4 & E5 & E6).
  split; [|auto 10].
  intros q Hq. revert Hf.
  apply (feedStream_invariant
           (fun x => m_connectedVideoStream x = m_connectedVideoStream d
                     /\ objects x q = objects d q)); [|auto].
  intros x [Hsel Hobj].
  destruct (feedStream_body_frame stream x) as (_ & _ & _ & F & _).
  split; [rewrite F; exact Hsel|].
  rewrite <- Hobj.
  destruct (feedStream_body_cases stream x)
    as [(l1 & p & l2 & _ & _ & _ & ->)
       |[(p & rest & _ & _ & ->) | (_ & _ & ->)]].
  - rewrite distributeOrDrop_objects; [reflexivity|].
    simpl. rewrite Hsel. exact Hq.
  - rewrite distributeOrDrop_objects; [reflexivity|].
    simpl. rewrite Hsel. exact Hq.
  - reflexivity.
Qed.

(** ** What the pending queue holds *)

Lemma distributeOrDrop_queue_in_table packet stream d :
  (forall p, p ∈ m_pendingDataForActiveStreams d ->
             is_Some (m_streams d !! stream_index p)) ->
  let d' := distributeOrDrop packet stream d in
  forall p, p ∈ m_pendingDataForActiveStreams d' ->
            is_Some (m_streams d' !! stream_index p).
Proof.
  intros Hinv.
  destruct (distributeOrDrop_effect packet stream d)
    as ((_ & _ & Hs & _) &
        [(t & _ & _ & _ & _ & _ & Ep & _)
        |[(t & Ht & _ & _ & _ & _ & _ & Ep & _) | (_ & _ & _ & Ep & _)]]);
    cbv zeta; rewrite Hs, Ep; try exact Hinv.
  intros p Hin. apply elem_of_app in Hin as [Hin|Hin]; [apply Hinv, Hin|].
  apply list_elem_of_singleton in Hin as ->. rewrite Ht. eauto.
Qed.

(** X10: from construction on, whatever is called, every packet in the
    pending queue has a destination in the stream table: a packet for a
    stream the demuxer does not know is never queued. *)
Theorem queued_packets_have_destination (sourceFile : string)
    (timer : option Timer) (store : ptr -> Str) turns (cs : list (Call Str))
    d d' :
  Demuxer_new' sourceFile timer store = Returns d ->
  calls' turns cs d = Some d' ->
  forall p, p ∈ m_pendingDataForActiveStreams d' ->
            exists target, getStreams d' !! stream_index p = Some target.
Proof.
  intros Hnew Hrun.
  apply Demuxer_new_returns in Hnew as (tm & ctx0 & ctx & _ & _ & _ & _ & _ & ->).
  destruct (Demuxer_discover_fresh new_VideoStream tm ctx store)
    as (_ & I1 & _).
  unfold getStreams.
  refine (calls_invariant
            (fun x => forall p, p ∈ m_pendingDataForActiveStreams x ->
                                is_Some (m_streams x !! stream_index p))
            turns _ cs _ d' Hrun _);
    [|rewrite I1; intros p Hin; inversion Hin].
  intros c x x' Hc Hinv. destruct c; simpl in Hc.
  - revert Hinv Hc. unfold requestMoreData.
    apply (feedStream_invariant
             (fun y => forall p, p ∈ m_pendingDataForActiveStreams y ->
                                 is_Some (m_streams y !! stream_index p))).
    intros y Hy.
    destruct (feedStream_body_cases starvingStream y)
      as [(l1 & p & l2 & Hl & _ & _ & ->)
         |[(p & rest & _ & _ & ->) | (_ & _ & ->)]].
    + apply distributeOrDrop_queue_in_table. simpl.
      intros p' Hin. apply Hy. rewrite Hl.
      apply elem_of_app in Hin as [Hin|Hin]; apply elem_of_app;
        [left; exact Hin | right; apply list_elem_of_further, Hin].
    + apply distributeOrDrop_queue_in_table. simpl. exact Hy.
    + simpl. exact Hy.
  - injection Hc as <-.
    destruct (willSeek_effect avformat_seek_file position x)
      as ((E & _) & _).
    rewrite E. intros p Hin. inversion Hin.
  - injection Hc as <-.
    destruct (selectVideoStream_frame stream x)
      as (E1 & _ & _ & _ & E2 & _).
    rewrite E1, E2. exact Hinv.
  - injection Hc as <-.
    destruct (selectFirstVideoStream_frame x) as (E1 & _ & _ & _ & E2 & _).
    rewrite E1, E2. exact Hinv.
  - injection Hc as <-. exact Hinv.
Qed.

(** ** The pending queue is first in, first out *)

Lemma gather_filter (canUse : AVPacket -> bool) (l : list AVPacket) :
  match gather canUse l with
  | (found, rest) =>
      List.filter canUse l
      = match found with Some p => [p] | None => [] end
        ++ List.filter canUse rest
      /\ List.filter (fun q => negb (canUse q)) rest
         = List.filter (fun q => negb (canUse q)) l
      /\ (found = None -> rest = l)
  end.
Proof.
  induction l as [|q l IH]; simpl; [auto|].
  destruct (canUse q) eqn:Hq; simpl.
  - repeat split. discriminate.
  - destruct (gather canUse l) as [found rest].
    destruct IH as (IH1 & IH2 & IH3). simpl. rewrite Hq. simpl.
    rewrite IH1, IH2.
    split; [destruct found; reflexivity|]. split; [reflexivity|].
    intros E. rewrite (IH3 E). reflexivity.
Qed.

Lemma gather_app_one (canUse : AVPacket -> bool) (l : list AVPacket)
    (p : AVPacket) :
  gather canUse (l ++ [p])
  = match gather canUse l with
    | (Some q, rest) => (Some q, rest ++ [p])
    | (None, _) => if canUse p then (Some p, l) else (None, l ++ [p])
    end.
Proof.
  induction l as [|q l IH]; simpl.
  - destruct (canUse p); reflexivity.
  - destruct (canUse q); [reflexivity|].
    rewrite IH. destruct (gather canUse l) as [[q'|] rest]; [reflexivity|].
    destruct (canUse p); reflexivity.
Qed.

(** X11: [gatherQueuedPacketForStream] takes the oldest queued packet that
    the stream can use and changes nothing but the queue.  When it returns a
    packet, the stream can use it, no packet queued before it is one the
    stream can use, and the queue afterwards is the queue before without
    that one occurrence.  It returns nothing only when no queued packet is
    one the stream can use, and the object is then unchanged.  In both
    cases the packets the stream can use are, in order, the one returned and
    then those still queued, and the packets it cannot use stay as they
    were, in order. *)
Theorem gatherQueuedPacketForStream_oldest stream d :
  let mine := canUsePacket (objects d stream) in
  let found := fst (gatherQueuedPacketForStream stream d) in
  let d' := snd (gatherQueuedPacketForStream stream d) in
  match found with
  | Some p =>
      exists older newer,
        m_pendingDataForActiveStreams d = older ++ p :: newer
        /\ Forall (fun q => mine q = false) older
        /\ mine p = true
        /\ m_pendingDataForActiveStreams d' = older ++ newer
  | None =>
      Forall (fun q => mine q = false) (m_pendingDataForActiveStreams d)
      /\ d' = d
  end
  /\ List.filter mine (m_pendingDataForActiveStreams d)
     = match found with Some p => [p] | None => [] end
       ++ List.filter mine (m_pendingDataForActiveStreams d')
  /\ List.filter (fun q => negb (mine q)) (m_pendingDataForActiveStreams d')
     = List.filter (fun q => negb (mine q)) (m_pendingDataForActiveStreams d)
  /\ d' = set_m_pendingDataForActiveStreams
            (m_pendingDataForActiveStreams d') d.
Proof.
  cbv zeta. unfold gatherQueuedPacketForStream.
  pose proof (gather_filter (canUsePacket (objects d stream))
                (m_pendingDataForActiveStreams d)) as G.
  pose proof (gather_split (canUsePacket (objects d stream))
                (m_pendingDataForActiveStreams d)) as S.
  destruct (gather (canUsePacket (objects d stream))
                   (m_pendingDataForActiveStreams d)) as [found rest].
  destruct G as (G1 & G2 & G3). simpl.
  split; [|split; [exact G1|split; [exact G2|reflexivity]]].
  destruct found as [p|].
  - destruct S as (l1 & l2 & E & -> & Hp & Hl1).
    exists l1, l2. split; [exact E|]. split; [exact Hl1|].
    split; [exact Hp|reflexivity].
  - destruct S as [-> Hl]. split; [exact Hl|]. destruct d; reflexivity.
Qed.

(** X12: queueing and gathering compose as a queue should.  A packet queued
    when nothing queued is for the stream comes back at the next gathering
    by a stream that can use it, and the object is again as before the
    packet was queued.  When an older packet for the stream is queued, that
    one is gathered first and the new packet stays at the end of the
    queue. *)
Theorem queue_then_gather packet stream d :
  canUsePacket (objects d stream) packet = true ->
  match fst (gatherQueuedPacketForStream stream d) with
  | None =>
      gatherQueuedPacketForStream stream (queueEncodedData packet d)
      = (Some packet, d)
  | Some older =>
      fst (gatherQueuedPacketForStream stream (queueEncodedData packet d))
      = Some older
      /\ m_pendingDataForActiveStreams
           (snd (gatherQueuedPacketForStream stream (queueEncodedData packet d)))
         = m_pendingDataForActiveStreams
             (snd (gatherQueuedPacketForStream stream d)) ++ [packet]
  end.
Proof.
  intros Hcan. unfold gatherQueuedPacketForStream, queueEncodedData. simpl.
  rewrite gather_app_one.
  destruct (gather (canUsePacket (objects d stream))
                   (m_pendingDataForActiveStreams d)) as [[older|] rest];
    simpl.
  - auto.
  - rewrite Hcan. destruct d; reflexivity.
Qed.

(** ** What a seek asks of the container *)

(** X13: [willSeek] never seeks to the position it is given.  It asks the
    container for one backward seek over the whole range of timestamps, on
    all streams, to the start time of the container when the format seeks
    by presentation time and the start time is known, and to timestamp 0
    otherwise; the context is afterwards what that seek left.  The position
    shows only in the log: but for the log, the object is the same after
    [willSeek] with any two positions. *)
Theorem willSeek_rewinds_to_start (position : Time) d :
  let ctx := m_formatCtx d in
  let timestamp :=
    if negb (Z.land (iformat_flags ctx) AVFMT_SEEK_TO_PTS =? 0)
       && negb (start_time ctx =? AV_NOPTS_VALUE)
    then start_time ctx else 0 in
  m_formatCtx (willSeek' position d)
  = snd (avformat_seek_file ctx (-1) INT64_MIN timestamp INT64_MAX
           AVSEEK_FLAG_BACKWARD)
  /\ forall position',
       set_h_log [] (willSeek' position' d)
       = set_h_log [] (willSeek' position d).
Proof.
  cbv zeta. unfold willSeek. cbv zeta.
  set (d2 := flushBuffers (resetEndOfFileStatus d)).
  assert (Hctx : m_formatCtx d2 = m_formatCtx d).
  { subst d2. unfold flushBuffers. simpl.
    apply (free_all_fields (m_pendingDataForActiveStreams d)
             (resetEndOfFileStatus d)). }
  rewrite Hctx. clearbody d2.
  destruct (negb (Z.land (iformat_flags (m_formatCtx d)) AVFMT_SEEK_TO_PTS =? 0));
    simpl andb; cbv iota.
  - replace (if negb (start_time (m_formatCtx d) =? AV_NOPTS_VALUE)
             then 0 + start_time (m_formatCtx d) else 0)
      with (if negb (start_time (m_formatCtx d) =? AV_NOPTS_VALUE)
            then start_time (m_formatCtx d) else 0)
      by (destruct (negb _); reflexivity).
    destruct (avformat_seek_file _ _ _ _ _ _) as [err ctx'].
    destruct (err <? 0); simpl; split; reflexivity.
  - destruct (avformat_seek_file _ _ _ _ _ _) as [err ctx'].
    destruct (err <? 0); simpl; split; reflexivity.
Qed.

(** X14: a seek that fails is not fatal, it is logged.  [willSeek] always
    adds one debug line to the log, and after it one error line, naming the
    requested position in milliseconds, exactly when [avformat_seek_file]
    returned a negative status. *)
Theorem willSeek_logs_failure (position : Time) d :
  let ctx := m_formatCtx d in
  let timestamp :=
    if negb (Z.land (iformat_flags ctx) AVFMT_SEEK_TO_PTS =? 0)
       && negb (start_time ctx =? AV_NOPTS_VALUE)
    then start_time ctx else 0 in
  let err := fst (avformat_seek_file ctx (-1) INT64_MIN timestamp INT64_MAX
                    AVSEEK_FLAG_BACKWARD) in
  exists debug,
    h_log (willSeek' position d)
    = h_log d ++ [sfeLogDebug debug]
      ++ (if err <? 0
          then [sfeLogError
                  (String.append "Error while seeking at time "
                     (String.append (s (asMilliseconds position)) "ms"))]
          else []).
Proof.
  cbv zeta. unfold willSeek. cbv zeta.
  set (d2 := flushBuffers (resetEndOfFileStatus d)).
  assert (Hd2 : m_formatCtx d2 = m_formatCtx d /\ h_log d2 = h_log d).
  { subst d2. unfold flushBuffers. simpl.
    pose proof (free_all_fields (m_pendingDataForActiveStreams d)
                  (resetEndOfFileStatus d)) as F.
    simpl in F. split; apply F. }
  destruct Hd2 as [Hctx Hlog]. rewrite Hctx. clearbody d2.
  destruct (negb (Z.land (iformat_flags (m_formatCtx d)) AVFMT_SEEK_TO_PTS =? 0));
    simpl andb; cbv iota.
  - replace (if negb (start_time (m_formatCtx d) =? AV_NOPTS_VALUE)
             then 0 + start_time (m_formatCtx d) else 0)
      with (if negb (start_time (m_formatCtx d) =? AV_NOPTS_VALUE)
            then start_time (m_formatCtx d) else 0)
      by (destruct (negb _); reflexivity).
    destruct (avformat_seek_file _ _ _ _ _ _) as [err ctx'].
    eexists. destruct (err <? 0) eqn:He; simpl; rewrite ?He, Hlog;
      rewrite <- ?app_assoc; reflexivity.
  - destruct (avformat_seek_file _ _ _ _ _ _) as [err ctx'].
    eexists. destruct (err <? 0) eqn:He; simpl; rewrite ?He, Hlog;
      rewrite <- ?app_assoc; reflexivity.
Qed.

(** ** The tables and the state after construction *)

Lemma discoverStreams_tables_only (l : list AVStream) : forall d (k : Z),
  let d' := discoverStreams_state new_VideoStream l d in
  (forall a, m_streams d' !! k = Some a ->
     m_streams d !! k = Some a
     \/ exists st o, st ∈ l /\ index st = k
                     /\ codec_type st = AVMEDIA_TYPE_VIDEO
                     /\ new_VideoStream (m_formatCtx d) st = inr (a, o))
  /\ (forall desc, m_ignoredStreams d' !! k = Some desc ->
        m_ignoredStreams d !! k = Some desc
        \/ exists st, st ∈ l /\ index st = k
                      /\ codec_type st <> AVMEDIA_TYPE_VIDEO
                      /\ desc = streamName st).
Proof.
  induction l as [|st0 l IH]; intros d k; [simpl; auto|].
  change (discoverStreams_state new_VideoStream (st0 :: l) d)
    with (discoverStreams_state new_VideoStream l
            (discoverStream_state new_VideoStream st0 d)).
  set (d1 := discoverStream_state new_VideoStream st0 d).
  assert (Hctx : m_formatCtx d1 = m_formatCtx d)
    by apply discoverStream_frame.
  destruct (IH d1 k) as [IHs IHi]. cbv zeta in *. rewrite Hctx in IHs.
  pose proof (discoverStream_own new_VideoStream st0 d) as O.
  cbv zeta in O. fold d1 in O.
  split.
  - intros a Ha. destruct (IHs a Ha) as [Hd1 | (st & o & Hin & Hrest)].
    + destruct (codec_type st0) eqn:Hty;
        try (destruct O as (O1 & _); rewrite O1 in Hd1; left; exact Hd1).
      destruct (new_VideoStream (m_formatCtx d) st0) as [what|[a0 o0]] eqn:Hn;
        destruct O as (O1 & _); rewrite O1 in Hd1; [left; exact Hd1|].
      destruct (decide (index st0 = k)) as [Hk|Hk].
      * subst k. rewrite lookup_insert_eq in Hd1. injection Hd1 as ->.
        right. exists st0, o0. repeat split; auto. apply list_elem_of_here.
      * rewrite lookup_insert_ne in Hd1 by exact Hk. left. exact Hd1.
    + right. exists st, o. split; [apply list_elem_of_further, Hin|exact Hrest].
  - intros desc Hdesc. destruct (IHi desc Hdesc) as [Hd1 | (st & Hin & Hrest)].
    + destruct (codec_type st0) eqn:Hty;
        try (destruct O as (_ & O2 & _); rewrite O2 in Hd1;
             destruct (decide (index st0 = k)) as [Hk|Hk];
             [ subst k; rewrite lookup_insert_eq in Hd1; injection Hd1 as <-;
               right; exists st0; repeat split;
               [apply list_elem_of_here | congruence]
             | rewrite lookup_insert_ne in Hd1 by exact Hk; left; exact Hd1 ]).
      destruct (new_VideoStream (m_formatCtx d) st0) as [what|[a0 o0]];
        destruct O as (_ & O2 & _); rewrite O2 in Hd1; left; exact Hd1.
    + right. exists st. split; [apply list_elem_of_further, Hin|exact Hrest].
Qed.

Lemma Demuxer_discover_tables (t : Timer) (ctx : AVFormatContext)
    (store : ptr -> Str) :
  let d := Demuxer_discover_state new_VideoStream t ctx store in
  exists d1,
    m_formatCtx d1 = ctx /\ m_streams d1 = ∅ /\ m_ignoredStreams d1 = ∅
    /\ h_log d1 = []
    /\ (m_duration d1 = if duration ctx =? AV_NOPTS_VALUE then Time_Zero
                        else resolveDuration (duration ctx))
    /\ let d2 := discoverStreams_state new_VideoStream (streams ctx) d1 in
       m_streams d = m_streams d2 /\ m_ignoredStreams d = m_ignoredStreams d2
       /\ m_duration d = m_duration d2
       /\ h_log d
          = h_log d2
            ++ (if m_duration d2 =? Time_Zero
                then [sfeLogWarning "The media duration could not be retreived"]
                else []).
Proof.
  unfold Demuxer_discover_state. cbv zeta.
  match goal with |- context [discoverStreams_state new_VideoStream _ ?x] =>
    exists x end.
  split; [destruct (negb _); reflexivity|].
  split; [destruct (negb _); reflexivity|].
  split; [destruct (negb _); reflexivity|].
  split; [destruct (negb _); reflexivity|].
  split; [destruct (duration ctx =? AV_NOPTS_VALUE); reflexivity|].
  match goal with |- context [discoverStreams_state new_VideoStream ?l ?x] =>
    set (d2 := discoverStreams_state new_VideoStream l x) end.
  destruct (m_duration d2 =? Time_Zero); simpl; rewrite ?app_nil_r;
    repeat split.
Qed.

(** X15: after construction the two tables hold nothing else than what the
    container's streams put there: every entry of the stream table is the
    object built for a video stream of the container with that identifier,
    and every entry of the ignored-stream table is the name of a stream of
    the container with that identifier that is not a video stream.  When
    the identifiers of the container's streams are distinct, no identifier
    is in both tables. *)
Theorem tables_hold_only_container_streams (sourceFile : string)
    (timer : option Timer) (store : ptr -> Str) d (k : Z) :
  Demuxer_new' sourceFile timer store = Returns d ->
  (forall a, getStreams d !! k = Some a ->
     exists st o, st ∈ streams (m_formatCtx d) /\ index st = k
                  /\ codec_type st = AVMEDIA_TYPE_VIDEO
                  /\ new_VideoStream (m_formatCtx d) st = inr (a, o))
  /\ (forall desc, m_ignoredStreams d !! k = Some desc ->
        exists st, st ∈ streams (m_formatCtx d) /\ index st = k
                   /\ codec_type st <> AVMEDIA_TYPE_VIDEO
                   /\ desc = streamName st)
  /\ (NoDup (map index (streams (m_formatCtx d))) ->
      is_Some (getStreams d !! k) -> m_ignoredStreams d !! k = None).
Proof.
  intros Hnew. unfold getStreams.
  apply Demuxer_new_returns in Hnew as (tm & ctx0 & ctx & _ & _ & _ & _ & _ & ->).
  destruct (Demuxer_discover_fresh new_VideoStream tm ctx store) as (-> & _).
  destruct (Demuxer_discover_tables tm ctx store)
    as (d1 & Hctx & Hs & Hi & _ & _ & E1 & E2 & _).
  cbv zeta in *. rewrite E1, E2.
  destruct (discoverStreams_tables_only (streams ctx) d1 k) as [Ts Ti].
  cbv zeta in *. rewrite Hctx in Ts.
  assert (Gs : forall a,
             m_streams (discoverStreams_state new_VideoStream (streams ctx) d1) !! k
             = Some a ->
             exists st o, st ∈ streams ctx /\ index st = k
                          /\ codec_type st = AVMEDIA_TYPE_VIDEO
                          /\ new_VideoStream ctx st = inr (a, o)).
  { intros a Ha. destruct (Ts a Ha) as [Hd1 | G]; [|exact G].
    rewrite Hs, lookup_empty in Hd1. discriminate. }
  split; [exact Gs|]. split.
  - intros desc Hdesc. destruct (Ti desc Hdesc) as [Hd1 | G]; [|exact G].
    rewrite Hi, lookup_empty in Hd1. discriminate.
  - intros Hnd [a Ha].
    destruct (Gs a Ha) as (st & o & Hin & Hk & Hty & Hn).
    assert (Hnone : forall st', st' ∈ streams ctx ->
              m_streams d1 !! index st' = None
              /\ m_ignoredStreams d1 !! index st' = None)
      by (intros st' _; rewrite Hs, Hi, !lookup_empty; auto).
    pose proof (discoverStreams_tables new_VideoStream (streams ctx) d1
                  Hnd Hnone st Hin) as T.
    rewrite Hctx, Hty, Hn in T. rewrite <- Hk. apply T.
Qed.

Lemma discoverStream_log_line (ffstream : AVStream) d :
  exists e,
    h_log (discoverStream_state new_VideoStream ffstream d) = h_log d ++ [e]
    /\ forall msg, e <> sfeLogWarning msg.
Proof.
  unfold discoverStream_state.
  destruct (codec_type ffstream);
    try (simpl; eexists; split; [reflexivity | discriminate]).
  destruct (new_VideoStream (m_formatCtx d) ffstream) as [what|[a o]];
    [simpl; eexists; split; [reflexivity | discriminate]|].
  simpl. destruct (m_duration d =? Time_Zero);
    [|simpl; eexists; split; [reflexivity | discriminate]].
  match goal with |- context [extractDurationFromStream ffstream ?x] =>
    destruct (extractDurationFromStream_frame ffstream x)
      as (_ & _ & _ & _ & _ & _ & _ & E) end.
  simpl in *. rewrite E. eexists; split; [reflexivity | discriminate].
Qed.

Lemma discoverStreams_log_lines (l : list AVStream) : forall d,
  exists lines,
    h_log (discoverStreams_state new_VideoStream l d) = h_log d ++ lines
    /\ length lines = length l
    /\ forall msg, sfeLogWarning msg ∉ lines.
Proof.
  induction l as [|st l IH]; intros d.
  - exists []. simpl. rewrite app_nil_r. repeat split.
    intros msg Hin. inversion Hin.
  - change (discoverStreams_state new_VideoStream (st :: l) d)
      with (discoverStreams_state new_VideoStream l
              (discoverStream_state new_VideoStream st d)).
    destruct (IH (discoverStream_state new_VideoStream st d))
      as (lines & E & Hlen & Hno).
    destruct (discoverStream_log_line st d) as (e & E' & He).
    exists (e :: lines). rewrite E, E', <- app_assoc. simpl.
    repeat split; [congruence|].
    intros msg Hin. apply elem_of_cons in Hin as [Hin|Hin].
    + exact (He msg (eq_sym Hin)).
    + exact (Hno msg Hin).
Qed.

(** X16: a demuxer as its constructor leaves it has no stream selected, its
    end-of-file flag is false, its pending queue is empty and nothing has
    been read, pushed, freed, connected or disconnected; it is registered
    with the timer, whose status it has not changed.  Its log has one line
    for each stream of the container and, after them, the warning that the
    duration could not be retrieved exactly when [getDuration] is zero. *)
Theorem constructed_state (sourceFile : string) (timer : option Timer)
    (store : ptr -> Str) d :
  Demuxer_new' sourceFile timer store = Returns d ->
  (exists tm, timer = Some tm /\ m_timer d = mkTimer (getStatus tm) true)
  /\ getSelectedVideoStream d = None
  /\ didReachEndOfFile d = false
  /\ m_pendingDataForActiveStreams d = []
  /\ h_read d = [] /\ h_pushed d = [] /\ h_freed d = [] /\ h_conn d = []
  /\ (sfeLogWarning "The media duration could not be retreived" ∈ h_log d
      <-> getDuration d = Time_Zero)
  /\ length (h_log d)
     = (length (streams (m_formatCtx d))
        + if Z.eqb (getDuration d) Time_Zero then 1 else 0)%nat.
Proof.
  intros Hnew.
  unfold getSelectedVideoStream, didReachEndOfFile, getDuration.
  apply Demuxer_new_returns in Hnew as (tm & ctx0 & ctx & _ & -> & _ & _ & _ & ->).
  destruct (Demuxer_discover_fresh new_VideoStream tm ctx store)
    as (-> & F1 & F2 & F3 & F4).
  destruct (Demuxer_discover_initial tm ctx store) as (I1 & I2 & I3 & I4).
  destruct (Demuxer_discover_tables tm ctx store)
    as (d1 & _ & _ & _ & Hlog1 & _ & _ & _ & Edur & Elog).
  cbv zeta in *.
  destruct (discoverStreams_log_lines (streams ctx) d1)
    as (lines & El & Hlen & Hno).
  rewrite Hlog1 in El. simpl in El.
  split; [exists tm; split; [reflexivity | exact I2]|].
  do 7 (split; [assumption|]).
  rewrite Elog, El, Edur, length_app, Hlen.
  destruct (m_duration (discoverStreams_state new_VideoStream (streams ctx) d1)
            =? Time_Zero) eqn:Hz.
  - apply Z.eqb_eq in Hz. split; [|reflexivity].
    split; [intros _; exact Hz|].
    intros _. apply elem_of_app. right. apply list_elem_of_here.
  - apply Z.eqb_neq in Hz. split; [|simpl; lia].
    split; [|intros E; contradiction].
    intros Hin. rewrite app_nil_r in Hin. exfalso. exact (Hno _ Hin).
Qed.

(** ** Who gets what, and in which order *)

Lemma filter_pointwise (f g : AVPacket -> bool) (l : list AVPacket) :
  (forall q, f q = g q) ->
  Forall (fun q => f q = false) l -> List.filter g l = [].
Proof.
  intros Hfg Hall. apply filter_none.
  eapply Forall_impl; [exact Hall|]. simpl. intros q Hq.
  rewrite <- Hfg. exact Hq.
Qed.

(** X17: the selected stream, when it asks itself, is given its packets in
    the order the container had them, the queued ones first.  For a stream
    that can use exactly the packets whose table entry it is (and keeps
    doing so when packets are pushed to it), the packets pushed during a
    feed call are a front part of its packets in the queue followed by its
    packets in the container, each pushed once and to this stream; what
    remains of them is still in the queue or in the container, in the same
    order. *)
Theorem selected_stream_fed_in_order turns (a : ptr) d d' :
  getSelectedVideoStream d = Some a ->
  (forall (o : Str) p q,
     canUsePacket (pushEncodedData p o) q = canUsePacket o q) ->
  (forall q, canUsePacket (objects d a) q = true <->
             m_streams d !! stream_index q = Some a) ->
  feedStream turns a d = Some d' ->
  let mine := canUsePacket (objects d a) in
  exists got,
    h_pushed d' = h_pushed d ++ map (pair a) got
    /\ List.filter mine (m_pendingDataForActiveStreams d
                         ++ packets (m_formatCtx d))
       = got ++ List.filter mine (m_pendingDataForActiveStreams d'
                                  ++ packets (m_formatCtx d')).
Proof.
  unfold getSelectedVideoStream. intros Hsel Hstable Hown Hf. cbv zeta.
  set (mine := canUsePacket (objects d a)).
  assert (G : m_streams d' = m_streams d
              /\ m_connectedVideoStream d' = Some a
              /\ (forall q, canUsePacket (objects d' a) q = mine q)
              /\ exists got,
                   h_pushed d' = h_pushed d ++ map (pair a) got
                   /\ List.filter mine (m_pendingDataForActiveStreams d
                                        ++ packets (m_formatCtx d))
                      = got ++ List.filter mine
                                 (m_pendingDataForActiveStreams d'
                                  ++ packets (m_formatCtx d'))).
  { revert Hf.
    apply (feedStream_invariant
             (fun x => m_streams x = m_streams d
                       /\ m_connectedVideoStream x = Some a
                       /\ (forall q, canUsePacket (objects x a) q = mine q)
                       /\ exists got,
                            h_pushed x = h_pushed d ++ map (pair a) got
                            /\ List.filter mine
                                 (m_pendingDataForActiveStreams d
                                  ++ packets (m_formatCtx d))
                               = got ++ List.filter mine
                                          (m_pendingDataForActiveStreams x
                                           ++ packets (m_formatCtx x)))).
    - intros x (Hs & Hc & Hcan & got & Hp & Hgot).
      (* what distributing a packet [p] does, from a state [y] that is [x]
         with [p] taken out of the queue or read from the container *)
      assert (Step : forall p y,
                 m_streams y = m_streams d ->
                 m_connectedVideoStream y = Some a ->
                 objects y = objects x ->
                 h_pushed y = h_pushed x ->
                 let y' := distributeOrDrop p a y in
                 m_streams y' = m_streams d
                 /\ m_connectedVideoStream y' = Some a
                 /\ (forall q, canUsePacket (objects y' a) q = mine q)
                 /\ m_pendingDataForActiveStreams y'
                    = m_pendingDataForActiveStreams y
                 /\ m_formatCtx y' = m_formatCtx y
                 /\ h_pushed y'
                    = h_pushed x ++ (if mine p then [(a, p)] else [])).
      { intros p y Ys Yc Yo Yp.
        destruct (distributeOrDrop_effect p a y)
          as ((F1 & _ & F2 & _ & _ & F3 & _) &
              [(t & Ht & Hsel' & _ & Epu & Eo & Epe & _)
              |[(t & _ & Hsel' & Hne & _) | (Hno & Epu & Eo & Epe & _)]]);
          cbv zeta.
        - assert (t = a) by congruence. subst t.
          assert (Hm : mine p = true) by (apply Hown; congruence).
          rewrite F1, F2, F3, Epu, Eo, Epe, Hm, Yp.
          repeat split; auto.
          intros q. unfold store_set. rewrite decide_True by reflexivity.
          rewrite Hstable, Yo. apply Hcan.
        - exfalso. apply Hne. congruence.
        - assert (Hm : mine p = false).
          { destruct (mine p) eqn:E; [|reflexivity]. exfalso.
            apply Hown in E. apply (Hno a); congruence. }
          rewrite F1, F2, F3, Epu, Eo, Epe, Hm, Yp, app_nil_r.
          repeat split; auto. intros q. rewrite Yo. apply Hcan. }
      destruct (feedStream_body_cases a x)
        as [(l1 & p & l2 & Hl & Hp1 & Hl1 & ->)
           |[(p & rest & Hall & Hpk & ->) | (_ & _ & ->)]].
      + match goal with |- context [distributeOrDrop p a ?y] =>
          destruct (Step p y Hs Hc eq_refl eq_refl)
            as (S1 & S2 & S3 & S4 & S5 & S6) end.
        cbv zeta in *. rewrite S4, S5, S6. simpl.
        assert (Hm : mine p = true) by (rewrite <- Hcan; exact Hp1).
        rewrite Hm. repeat split; auto.
        exists (got ++ [p]). rewrite Hp, map_app, <- !app_assoc. simpl.
        split; [reflexivity|].
        rewrite Hgot, Hl, <- !app_assoc, !List.filter_app. simpl.
        rewrite Hm, (filter_pointwise _ mine l1 Hcan Hl1). reflexivity.
      + match goal with |- context [distributeOrDrop p a ?y] =>
          destruct (Step p y Hs Hc eq_refl eq_refl)
            as (S1 & S2 & S3 & S4 & S5 & S6) end.
        cbv zeta in *. rewrite S4, S5, S6. simpl.
        repeat split; auto.
        destruct (mine p) eqn:Hm.
        * exists (got ++ [p]). rewrite Hp, map_app, <- !app_assoc. simpl.
          split; [reflexivity|].
          rewrite Hgot, Hpk, !List.filter_app. simpl. rewrite Hm.
          rewrite (filter_pointwise _ mine _ Hcan Hall). reflexivity.
        * exists got. rewrite app_nil_r. split; [exact Hp|].
          rewrite Hgot, Hpk, !List.filter_app. simpl. rewrite Hm.
          reflexivity.
      + simpl. repeat split; auto. exists got. auto.
    - repeat split; auto. exists []. simpl. rewrite app_nil_r. auto. }
  destruct G as (_ & _ & _ & G). exact G.
Qed.

Lemma unselected_requester_run (r : ptr) (n : nat) : forall x : Demuxer Str,
  m_connectedVideoStream x <> Some r ->
  (forall q, canUsePacket (objects x r) q = true ->
             m_streams x !! stream_index q = Some r) ->
  m_eofReached x = false ->
  needsMoreData (objects x r) = true ->
  (2 * length (packets (m_formatCtx x))
   + length (m_pendingDataForActiveStreams x) <= n)%nat ->
  exists d',
    feedStream (S n) r x = Some d'
    /\ m_eofReached d' = true /\ packets (m_formatCtx d') = []
    /\ h_read d' = h_read x ++ packets (m_formatCtx x)
    /\ objects d' r = objects x r.
Proof.
  assert (Step : forall (x : Demuxer Str) p (y : Demuxer Str),
             m_connectedVideoStream x <> Some r ->
             m_connectedVideoStream y = m_connectedVideoStream x ->
             m_streams y = m_streams x ->
             let y' := distributeOrDrop p r y in
             m_connectedVideoStream y' = m_connectedVideoStream x
             /\ m_streams y' = m_streams x
             /\ objects y' r = objects y r
             /\ m_eofReached y' = m_eofReached y
             /\ m_formatCtx y' = m_formatCtx y
             /\ h_read y' = h_read y
             /\ (length (m_pendingDataForActiveStreams y')
                 <= S (length (m_pendingDataForActiveStreams y)))%nat
             /\ (m_streams y !! stream_index p = Some r ->
                 m_pendingDataForActiveStreams y'
                 = m_pendingDataForActiveStreams y)).
  { intros x p y Hx Yc Ys.
    assert (Hy : m_connectedVideoStream y <> Some r) by (rewrite Yc; exact Hx).
    pose proof (distributeOrDrop_objects p r y r Hy) as Ho.
    destruct (distributeOrDrop_effect p r y)
      as ((F1 & F0 & F2 & _ & _ & F3 & _ & F4 & _) &
          [(t & Ht & Hsel & _ & _ & _ & Ep & _)
          |[(t & Ht & Hsel & _ & _ & _ & _ & Ep & _) | (_ & _ & _ & Ep & _)]]);
      cbv zeta; rewrite F1, F0, F2, F3, F4, Ep, Ho;
      repeat split; auto; try lia.
    - rewrite length_app. simpl. lia.
    - intros Hr. exfalso. apply Hy. congruence. }
  induction n as [|n IH]; intros x Hsel Hown He Hn Hlen.
  - change (feedStream 1 r x)
      with (if negb (didReachEndOfFile x) && needsMoreData (objects x r)
            then feedStream 0 r (feedStream_body r x) else Some x).
    unfold didReachEndOfFile. rewrite He, Hn. simpl negb. simpl andb. cbv iota.
    destruct (feedStream_body_cases r x)
      as [(l1 & p & l2 & Hl & _)
         |[(p & rest & _ & Hpk & _) | (_ & Hpk & ->)]].
    + rewrite Hl, length_app in Hlen. simpl in Hlen. lia.
    + rewrite Hpk in Hlen. simpl in Hlen. lia.
    + exists (set_m_eofReached true x). simpl.
      rewrite Hpk, app_nil_r. repeat split.
  - change (feedStream (S (S n)) r x)
      with (if negb (didReachEndOfFile x) && needsMoreData (objects x r)
            then feedStream (S n) r (feedStream_body r x) else Some x).
    unfold didReachEndOfFile. rewrite He, Hn. simpl negb. simpl andb. cbv iota.
    destruct (feedStream_body_cases r x)
      as [(l1 & p & l2 & Hl & Hp & _ & ->)
         |[(p & rest & _ & Hpk & ->) | (_ & Hpk & ->)]].
    + match goal with |- context [distributeOrDrop p r ?y] =>
        destruct (Step x p y Hsel eq_refl eq_refl)
          as (S1 & S2 & S3 & S4 & S5 & S6 & _ & S8);
        destruct (IH (distributeOrDrop p r y)) as (d' & Hf & R)
      end; simpl in *.
      * rewrite S1. exact Hsel.
      * rewrite S2, S3. exact Hown.
      * rewrite S4. exact He.
      * rewrite S3. exact Hn.
      * rewrite S5, (S8 (Hown p Hp)). rewrite Hl, !length_app in Hlen.
        rewrite length_app. simpl in Hlen. lia.
      * exists d'. split; [exact Hf|].
        destruct R as (R1 & R2 & R3 & R4).
        rewrite R1, R2, R3, R4, S3, S5, S6. auto.
    + match goal with |- context [distributeOrDrop p r ?y] =>
        destruct (Step x p y Hsel eq_refl eq_refl)
          as (S1 & S2 & S3 & S4 & S5 & S6 & S7 & _);
        destruct (IH (distributeOrDrop p r y)) as (d' & Hf & R)
      end; simpl in *.
      * rewrite S1. exact Hsel.
      * rewrite S2, S3. exact Hown.
      * rewrite S4. exact He.
      * rewrite S3. exact Hn.
      * rewrite S5. simpl. rewrite Hpk in Hlen. simpl in Hlen. lia.
      * exists d'. split; [exact Hf|].
        destruct R as (R1 & R2 & R3 & R4).
        rewrite R1, R2, R3, R4, S3, S5, S6, Hpk. simpl.
        rewrite <- app_assoc. auto.
    + exists (set_m_eofReached true x). simpl.
      rewrite Hpk, app_nil_r. repeat split.
Qed.

(** X18: a stream that is not the selected one and asks for data while it
    needs some uses up the container.  For a stream that can use only
    packets whose table entry it is, the feed call returns, nothing is
    pushed to the stream and its object is unchanged, every packet the
    container still held has been read, and the end-of-file flag is set. *)
Theorem unselected_requester_drains (r : ptr) d :
  getSelectedVideoStream d <> Some r ->
  (forall q, canUsePacket (objects d r) q = true ->
             getStreams d !! stream_index q = Some r) ->
  didReachEndOfFile d = false ->
  needsMoreData (objects d r) = true ->
  exists d',
    feedStream (S (2 * length (packets (m_formatCtx d))
                   + length (m_pendingDataForActiveStreams d))) r d
    = Some d'
    /\ didReachEndOfFile d' = true
    /\ packets (m_formatCtx d') = []
    /\ h_read d' = h_read d ++ packets (m_formatCtx d)
    /\ objects d' r = objects d r
    /\ forall packet, (r, packet) ∉ drop (length (h_pushed d)) (h_pushed d').
Proof.
  unfold getSelectedVideoStream, getStreams, didReachEndOfFile.
  intros Hsel Hown He Hn.
  destruct (unselected_requester_run r _ d Hsel Hown He Hn (le_n _))
    as (d' & Hf & R1 & R2 & R3 & R4).
  exists d'. do 5 (split; [assumption|]).
  destruct (feedStream_pushed _ _ _ _ Hf) as (_ & _ & new & Hp & Hnew).
  rewrite Hp, drop_app_length.
  intros packet Hin. destruct (Hnew r packet Hin) as [_ E].
  contradiction.
Qed.

(** ** Feed calls return *)

(** X21: a feed call returns, within twice the number of packets left in
    the container plus the length of the queue plus one turns of its loop,
    when the stream that asks can use only packets whose table entry it is
    and keeps the packets it can use when one is pushed to it.  It returns
    because the stream needs no more data or because the end of the file is
    reached, and a larger bound gives the same result. *)
Theorem feed_call_returns stream d :
  (forall (o : Str) p q,
     canUsePacket (pushEncodedData p o) q = canUsePacket o q) ->
  (forall q, canUsePacket (objects d stream) q = true ->
             getStreams d !! stream_index q = Some stream) ->
  exists d',
    (forall more,
       feedStream (S (2 * length (packets (m_formatCtx d))
                      + length (m_pendingDataForActiveStreams d)) + more)
                  stream d = Some d')
    /\ (didReachEndOfFile d' = true
        \/ needsMoreData (objects d' stream) = false).
Proof.
  intros Hstable Hown.
  destruct (feedStream_terminates stream d Hstable Hown) as [d' Hf].
  exists d'. split.
  - intros more. apply feedStream_more_turns. exact Hf.
  - exact (feedStream_exit _ _ _ _ Hf).
Qed.

End MoreProperties.

(** ** The lists of demuxers and decoders *)




(** * The further properties on the concrete movie *)

(** The descriptors of the movie's video streams: identifiers 0 and 1, in
    that order. *)
Example Movie_descriptors :
  computeStreamDescriptors Movie.language_of Video Movie.demuxer
  = [mkStreamDescriptor Video 0 "eng"; mkStreamDescriptor Video 1 "fra"].
Proof. vm_compute. reflexivity. Qed.

(** X4, instance: stream 0 is selected, then stream 1; stream 0 is
    disconnected before stream 1 is connected. *)
Lemma one_stream_connected_witness :
  exists d',
    Demuxer_new Movie.open_input Movie.find_stream_info Movie.new_stream
      "movie.mkv" (Some Movie.timer) Movie.store = Returns Movie.demuxer
    /\ calls Movie.seek_file 4
         [CallSelectVideoStream (Some 2%positive);
          CallSelectVideoStream (Some 1%positive)] Movie.demuxer = Some d'
    /\ h_conn d'
       = [EvConnect 2%positive; EvDisconnect 2%positive; EvConnect 1%positive]
    /\ replay_connections (h_conn d') = Some (getSelectedVideoStream d').
Proof.
  eexists. split; [exact Movie_construction|].
  split; [vm_compute; reflexivity|]. split; [reflexivity|].
  refine (one_stream_connected Movie.seek_file Movie.open_input
            Movie.find_stream_info Movie.new_stream
            "movie.mkv" (Some Movie.timer) Movie.store 4
            [CallSelectVideoStream (Some 2%positive);
             CallSelectVideoStream (Some 1%positive)]
            Movie.demuxer _ Movie_construction _).
  vm_compute. reflexivity.
Defined.

(** X6, instance: stream 0 is selected and asks; the four packets of the
    movie are read in their order. *)
Lemma feedStream_reads_in_order_witness :
  exists d' taken,
    feedStream 4 2%positive Movie.playing0 = Some d'
    /\ packets (m_formatCtx Movie.playing0)
       = taken ++ packets (m_formatCtx d')
    /\ h_read d' = h_read Movie.playing0 ++ taken.
Proof.
  eexists.
  match goal with |- exists taken, ?f = Some ?x /\ _ =>
    assert (Hf : f = Some x) by (vm_compute; reflexivity) end.
  destruct (feedStream_reads_in_order 4 2%positive Movie.playing0 _ Hf)
    as (taken & W1 & W2 & _).
  exists taken. split; [exact Hf|]. split; [exact W1 | exact W2].
Defined.

(** X7, instance: nothing is selected and stream 0 asks; the call ends at
    the end of the file, and the container is then exhausted. *)
Lemma end_of_file_means_exhausted_witness :
  exists d',
    Demuxer_new Movie.open_input Movie.find_stream_info Movie.new_stream
      "movie.mkv" (Some Movie.timer) Movie.store = Returns Movie.demuxer
    /\ calls Movie.seek_file 5 [CallRequestMoreData 2%positive] Movie.demuxer
       = Some d'
    /\ didReachEndOfFile d' = true
    /\ packets (m_formatCtx d') = [].
Proof.
  eexists. split; [exact Movie_construction|].
  split; [vm_compute; reflexivity|]. split; [reflexivity|].
  refine (end_of_file_means_exhausted Movie.seek_file Movie.open_input
            Movie.find_stream_info Movie.new_stream
            "movie.mkv" (Some Movie.timer) Movie.store 5
            [CallRequestMoreData 2%positive] Movie.demuxer _
            Movie_construction _ _).
  - vm_compute. reflexivity.
  - reflexivity.
Defined.

(** X8, instance: stream 0 is selected and has been fed; asking again at
    once changes nothing. *)
Lemma feedStream_repeat_witness :
  exists d',
    feedStream 4 2%positive Movie.playing0 = Some d'
    /\ feedStream 0 2%positive d' = Some d'.
Proof.
  eexists.
  match goal with |- ?f = Some ?x /\ _ =>
    assert (Hf : f = Some x) by (vm_compute; reflexivity) end.
  split; [exact Hf|].
  exact (feedStream_repeat 4 0 2%positive Movie.playing0 _ Hf).
Defined.

(** X9, instance: stream 0 is selected and stream 1 asks; the object of
    stream 1 is unchanged. *)
Lemma feedStream_touches_only_selected_witness :
  exists d',
    feedStream 5 1%positive Movie.playing0 = Some d'
    /\ objects d' 1%positive = objects Movie.playing0 1%positive
    /\ getSelectedVideoStream d' = Some 2%positive.
Proof.
  eexists.
  match goal with |- ?f = Some ?x /\ _ =>
    assert (Hf : f = Some x) by (vm_compute; reflexivity) end.
  destruct (feedStream_touches_only_selected 5 1%positive Movie.playing0 _ Hf)
    as (W1 & _ & _ & W2 & _).
  split; [exact Hf|]. split; [|exact W2].
  apply W1. vm_compute. discriminate.
Defined.

(** X10, instance: stream 0 is selected and stream 1 asks; the two packets
    of stream 0 are queued, and stream 0 is in the table. *)
Lemma queued_packets_have_destination_witness :
  exists d',
    Demuxer_new Movie.open_input Movie.find_stream_info Movie.new_stream
      "movie.mkv" (Some Movie.timer) Movie.store = Returns Movie.demuxer
    /\ calls Movie.seek_file 5 Movie.calls_select0_feed1 Movie.demuxer
       = Some d'
    /\ m_pendingDataForActiveStreams d' = [Movie.p1; Movie.p4]
    /\ forall p, p ∈ m_pendingDataForActiveStreams d' ->
                 exists target, getStreams d' !! stream_index p = Some target.
Proof.
  eexists. split; [exact Movie_construction|].
  split; [vm_compute; reflexivity|]. split; [reflexivity|].
  refine (queued_packets_have_destination Movie.seek_file Movie.open_input
            Movie.find_stream_info Movie.new_stream
            "movie.mkv" (Some Movie.timer) Movie.store 5
            Movie.calls_select0_feed1 Movie.demuxer _ Movie_construction _).
  vm_compute. reflexivity.
Defined.

(** X12, instance: with an empty queue, a packet of stream 0 that is queued
    is what stream 0 gathers next, and the demuxer is as before. *)
Lemma queue_then_gather_witness :
  canUsePacket (objects Movie.playing0 2%positive) Movie.p1 = true
  /\ gatherQueuedPacketForStream 2%positive
       (queueEncodedData Movie.p1 Movie.playing0)
     = (Some Movie.p1, Movie.playing0).
Proof.
  split; [reflexivity|].
  exact (queue_then_gather Movie.p1 2%positive Movie.playing0 eq_refl).
Defined.

(** X15, instance: the entry of the movie's stream table under identifier 1
    is the object built for the video stream 1 of the container. *)
Lemma tables_hold_only_container_streams_witness :
  Demuxer_new Movie.open_input Movie.find_stream_info Movie.new_stream
    "movie.mkv" (Some Movie.timer) Movie.store = Returns Movie.demuxer
  /\ getStreams Movie.demuxer !! 1 = Some 1%positive
  /\ (exists st o,
        st ∈ streams (m_formatCtx Movie.demuxer) /\ index st = 1
        /\ codec_type st = AVMEDIA_TYPE_VIDEO
        /\ Movie.new_stream (m_formatCtx Movie.demuxer) st = inr (1%positive, o))
  /\ m_ignoredStreams Movie.demuxer !! 1 = None.
Proof.
  split; [exact Movie_construction|]. split; [reflexivity|].
  destruct (tables_hold_only_container_streams Movie.open_input
              Movie.find_stream_info Movie.new_stream
              "movie.mkv" (Some Movie.timer) Movie.store Movie.demuxer 1
              Movie_construction) as (W1 & _ & W3).
  split; [exact (W1 1%positive eq_refl)|].
  apply W3.
  - simpl. compute_done.
  - exists 1%positive. reflexivity.
Defined.

(** X16, instance: the movie after construction: registered with the timer,
    which is still Stopped, nothing selected, and no warning about the
    duration, which is five seconds. *)
Lemma constructed_state_witness :
  Demuxer_new Movie.open_input Movie.find_stream_info Movie.new_stream
    "movie.mkv" (Some Movie.timer) Movie.store = Returns Movie.demuxer
  /\ m_timer Movie.demuxer = mkTimer Stopped true
  /\ getSelectedVideoStream Movie.demuxer = None
  /\ length (h_log Movie.demuxer) = 4%nat.
Proof.
  split; [exact Movie_construction|].
  destruct (constructed_state Movie.open_input Movie.find_stream_info
              Movie.new_stream "movie.mkv" (Some Movie.timer) Movie.store
              Movie.demuxer Movie_construction)
    as ((tm & Ht & W1) & W2 & _ & _ & _ & _ & _ & _ & _ & W3).
  injection Ht as <-.
  split; [exact W1|]. split; [exact W2 | exact W3].
Defined.

(** X17, instance: stream 0 is selected and asks; it is pushed its two
    packets, the first and the fourth of the movie, in that order. *)
Lemma selected_stream_fed_in_order_witness :
  exists d' got,
    feedStream 4 2%positive Movie.playing0 = Some d'
    /\ h_pushed d' = h_pushed Movie.playing0 ++ map (pair 2%positive) got
    /\ [Movie.p1; Movie.p4]
       = got ++ List.filter (canUsePacket (objects Movie.playing0 2%positive))
                  (m_pendingDataForActiveStreams d'
                   ++ packets (m_formatCtx d')).
Proof.
  eexists.
  match goal with |- exists got, ?f = Some ?x /\ _ =>
    assert (Hf : f = Some x) by (vm_compute; reflexivity) end.
  assert (Hown : forall q,
             canUsePacket (objects Movie.playing0 2%positive) q = true <->
             m_streams Movie.playing0 !! stream_index q = Some 2%positive).
  { intros q. change (canUsePacket (objects Movie.playing0 2%positive) q)
      with (stream_index q =? 0).
    change (m_streams Movie.playing0)
      with (<[1 := 1%positive]> (<[0 := 2%positive]> (∅ : gmap Z ptr))).
    rewrite Z.eqb_eq. split.
    - intros ->. reflexivity.
    - intros Hl. destruct (decide (stream_index q = 1)) as [E|E].
      + rewrite E in Hl. discriminate.
      + rewrite lookup_insert_ne in Hl by congruence.
        destruct (decide (stream_index q = 0)) as [E0|E0]; [exact E0|].
        rewrite lookup_insert_ne, lookup_empty in Hl by congruence.
        discriminate. }
  assert (Hstable : forall (o : BufferedStream) p q,
             canUsePacket (pushEncodedData p o) q = canUsePacket o q)
    by reflexivity.
  destruct (selected_stream_fed_in_order 4 2%positive Movie.playing0 _
              eq_refl Hstable Hown Hf)
    as (got & W1 & W2).
  exists got. split; [exact Hf|]. split; [exact W1 | exact W2].
Defined.

(** X18, instance: stream 0 is selected and stream 1 asks; the call reads
    the movie to its end, and stream 1 is pushed nothing. *)
Lemma unselected_requester_drains_witness :
  getSelectedVideoStream Movie.playing0 <> Some 1%positive
  /\ exists d',
       feedStream 9 1%positive Movie.playing0 = Some d'
       /\ didReachEndOfFile d' = true
       /\ h_read d' = [Movie.p1; Movie.p2; Movie.p3; Movie.p4]
       /\ objects d' 1%positive = objects Movie.playing0 1%positive.
Proof.
  assert (Hsel : getSelectedVideoStream Movie.playing0 <> Some 1%positive)
    by discriminate.
  split; [exact Hsel|].
  assert (Hown : forall q,
             canUsePacket (objects Movie.playing0 1%positive) q = true ->
             getStreams Movie.playing0 !! stream_index q = Some 1%positive).
  { intros q Hq. simpl in Hq. apply Z.eqb_eq in Hq. rewrite Hq. reflexivity. }
  destruct (unselected_requester_drains 1%positive Movie.playing0
              Hsel Hown eq_refl eq_refl)
    as (d' & W1 & W2 & _ & W3 & W4 & _).
  exists d'. split; [exact W1|]. split; [exact W2|].
  split; [exact W3 | exact W4].
Defined.

(** X21, instance: stream 1 of the movie, which can use the packets of
    index 1 and is the table entry of index 1, asks while stream 0 is
    selected; the call returns at the end of the file. *)
Lemma feed_call_returns_witness :
  exists d',
    feedStream 9 1%positive Movie.playing0 = Some d'
    /\ (didReachEndOfFile d' = true
        \/ needsMoreData (objects d' 1%positive) = false).
Proof.
  assert (Hstable : forall (o : BufferedStream) p q,
             canUsePacket (pushEncodedData p o) q = canUsePacket o q)
    by reflexivity.
  assert (Hown : forall q,
             canUsePacket (objects Movie.playing0 1%positive) q = true ->
             getStreams Movie.playing0 !! stream_index q = Some 1%positive).
  { intros q Hq. simpl in Hq. apply Z.eqb_eq in Hq. rewrite Hq. reflexivity. }
  destruct (feed_call_returns 1%positive Movie.playing0 Hstable Hown)
    as (d' & W1 & W2).
  exists d'. split; [exact (W1 0%nat) | exact W2].
Defined.
